(** * URL shortener: link store schema, seeding and health reporting

    A shallow embedding of
    - [src/database/models.py]   (the [links] and [click_events] tables),
    - [src/database/database.py] (engine dialect, [health_check]),
    - [src/health.py], [main.py] (the health report and the [/health] route),
    - [scripts/seed_db.py]       (the seeding transaction),
    - [tests/fixtures.py]        (the database fixtures),
    and the properties of the link store that follow from them. *)

From stdpp Require Import base decidable option list strings gmap sorting.

Local Open Scope Z_scope.

(** ** Values *)

(** [UUID(as_uuid=True)]: a 128-bit identifier. *)
Definition uuid := N.

(** [DateTime(timezone=True)]: microseconds since the epoch, UTC. *)
Definition datetime := Z.

(** [timedelta(days=..., hours=...)] in microseconds. *)
Definition timedelta (days hours : Z) : Z :=
  (days * 86400 + hours * 3600) * 1000000.

(** [_utc(days_ago, hours_ago)] of [seed_db.py] and [fixtures.py]; the
    reading of [datetime.now(timezone.utc)] is the first argument. *)
Definition _utc (clock : datetime) (days_ago hours_ago : Z) : datetime :=
  clock - timedelta days_ago hours_ago.

(** ** Backend *)

(** [database.py] distinguishes SQLite from every other [DATABASE_URL]
    (PostgreSQL in production). *)
Inductive dialect := SQLite | PostgreSQL.

Definition DATABASE_URL_default : string := "sqlite:///./app.db".

(** [DATABASE_URL.startswith("sqlite")]. *)
Definition dialect_of_url (url : string) : dialect :=
  if String.prefix "sqlite" url then SQLite else PostgreSQL.

(** Strings are text in UTF-8. A continuation byte ([10xxxxxx]) belongs
    to the character that the bytes before it began. *)
Definition utf8_continuation (c : Ascii.ascii) : bool :=
  let n := Ascii.nat_of_ascii c in
  ((128 <=? n) && (n <? 192))%nat.

(** The number of characters of a string. *)
Fixpoint utf8_length (s : string) : nat :=
  match s with
  | EmptyString => 0%nat
  | String c s' =>
      ((if utf8_continuation c then 0 else 1) + utf8_length s')%nat
  end.

(** A [String(n)] column: PostgreSQL takes a value of at most [n]
    characters, SQLite stores any value as it is. (PostgreSQL also takes a
    longer value whose excess is all spaces and cuts the spaces off; that
    case is left out here and counts as too long.) *)
Definition varchar_fits (b : dialect) (n : nat) (s : string) : bool :=
  match b with
  | SQLite => true
  | PostgreSQL => bool_decide (utf8_length s ≤ n)%nat
  end.

(** The character [c] occurs in [s]. *)
Definition has_char (c : Ascii.ascii) (s : string) : bool :=
  existsb (Ascii.eqb c) (String.list_ascii_of_string s).

(** The PostgreSQL driver refuses a string that holds a NUL character
    before it sends anything; SQLite stores such a string. [text_ok] holds
    of the strings that the driver sends. *)
Definition text_ok (b : dialect) (s : string) : bool :=
  match b with
  | SQLite => true
  | PostgreSQL => negb (has_char Ascii.zero s)
  end.

(** The hexadecimal digit of an id at position [k] from the right. *)
Definition hex_digit (i : uuid) (k : nat) : N :=
  (N.shiftr i (4 * N.of_nat k) mod 16)%N.

(** [UUID] is a column type of PostgreSQL, which stores every id as it
    is. SQLite is sent the 32 hexadecimal digits of the id as text and
    gives a column declared [UUID] numeric affinity: it keeps the text when
    one of the digits is [a], [b], [c], [d] or [f]. Other digit strings can
    read as numbers (an [e] as an exponent) and are then stored as
    numbers, which the ORM cannot read back as ids and which can coincide
    for different ids. *)
Definition uuid_kept (b : dialect) (i : uuid) : bool :=
  match b with
  | PostgreSQL => true
  | SQLite =>
      existsb (fun k => (10 <=? hex_digit i k)%N && negb (hex_digit i k =? 14)%N)
        (seq 0 32)
  end.

(** ** Rows *)

Module Link.
(** A row of [links]; every column is [nullable=False]. *)
Record t := mk {
  id : uuid;
  short_code : string;
  original_url : string;
  is_active : bool;
  is_custom_code : bool;
  created_at : datetime;
  updated_at : datetime
}.

(** The keyword arguments of [Link(...)]; [None] is an argument that is
    left out or passed as [None] (the ORM treats both alike on INSERT). *)
Record kwargs := mk_kwargs {
  kw_id : option uuid;
  kw_short_code : option string;
  kw_original_url : option string;
  kw_is_active : option bool;
  kw_is_custom_code : option bool;
  kw_created_at : option datetime;
  kw_updated_at : option datetime
}.
End Link.

Module ClickEvent.
(** A row of [click_events]; [ip_address] and [user_agent] are
    [nullable=True]. *)
Record t := mk {
  id : uuid;
  link_id : uuid;
  clicked_at : datetime;
  ip_address : option string;
  user_agent : option string
}.

Record kwargs := mk_kwargs {
  kw_id : option uuid;
  kw_link_id : option uuid;
  kw_clicked_at : option datetime;
  kw_ip_address : option string;
  kw_user_agent : option string
}.
End ClickEvent.

(** The texts among the keyword arguments are ones that the driver
    sends. *)
Definition link_texts_ok (b : dialect) (kw : Link.kwargs) : bool :=
  from_option (text_ok b) true (Link.kw_short_code kw)
  && from_option (text_ok b) true (Link.kw_original_url kw).

Definition click_texts_ok (b : dialect) (kw : ClickEvent.kwargs) : bool :=
  from_option (text_ok b) true (ClickEvent.kw_ip_address kw)
  && from_option (text_ok b) true (ClickEvent.kw_user_agent kw).

(** ** Errors and results *)

Inductive constraint :=
| NotNull (column : string)
| PrimaryKey (table : string)
| Unique (column : string)
| ForeignKey (column : string).

Inductive error :=
| IntegrityError (violated : constraint)
| DataError (column : string)
| NotFoundError
| ValidationError.

Inductive result (A : Type) :=
| Ok (a : A)
| Err (e : error).
Arguments Ok {A} a.
Arguments Err {A} e.

#[global] Instance result_ret : MRet result := fun _ a => Ok a.
#[global] Instance result_bind : MBind result := fun _ _ f r =>
  match r with
  | Ok a => f a
  | Err e => Err e
  end.
#[global] Instance result_fmap : FMap result := fun _ _ f r =>
  match r with
  | Ok a => Ok (f a)
  | Err e => Err e
  end.

(** A [nullable=False] column without a default. *)
Definition require {A} (column : string) (v : option A) : result A :=
  match v with
  | Some a => Ok a
  | None => Err (IntegrityError (NotNull column))
  end.

Definition guard_ok (ok : bool) (e : error) : result unit :=
  if ok then Ok tt else Err e.

(** ** The database *)

Record db := mk_db {
  backend : dialect;
  links : list Link.t;
  click_events : list ClickEvent.t
}.

Definition empty_db (b : dialect) : db := mk_db b [] [].

Definition link_ids (d : db) : list uuid := Link.id <$> links d.
Definition short_codes (d : db) : list string := Link.short_code <$> links d.
Definition click_ids (d : db) : list uuid := ClickEvent.id <$> click_events d.

(** The ids of the stored links are ones that the backend keeps as they
    were written ([uuid_kept]). The queries below return the rows as they
    were written, which is what the ORM reads back from such a database. *)
Definition link_ids_kept (d : db) : bool :=
  forallb (uuid_kept (backend d)) (link_ids d).

(** [db.query(Link).filter_by(short_code=code).first()] ([seed_db.py]). *)
Definition query_link_by_short_code (d : db) (code : string) : option Link.t :=
  head (filter (fun l => Link.short_code l = code) (links d)).

(** [db.query(Link).filter_by(id=i).first()]. *)
Definition query_link_by_id (d : db) (i : uuid) : option Link.t :=
  head (filter (fun l => Link.id l = i) (links d)).

(** The relationship [Link.click_events]: the click events whose [link_id]
    is the link's [id]. *)
Definition click_events_of (d : db) (i : uuid) : list ClickEvent.t :=
  filter (fun e => ClickEvent.link_id e = i) (click_events d).

(** The row that flushing [Link(...)] writes: Python-side defaults
    ([uuid.uuid4], [True], [False]) and server defaults ([func.now()]) fill
    the columns that are left out; a [nullable=False] column without a
    default has to be given. [uuid4] is what [uuid.uuid4()] returns and
    [now] is the server's [func.now()]. *)
Definition link_row (now : datetime) (uuid4 : uuid) (kw : Link.kwargs)
    : result Link.t :=
  code ← require "links.short_code" (Link.kw_short_code kw);
  url ← require "links.original_url" (Link.kw_original_url kw);
  Ok (Link.mk
        (default uuid4 (Link.kw_id kw))
        code
        url
        (default true (Link.kw_is_active kw))
        (default false (Link.kw_is_custom_code kw))
        (default now (Link.kw_created_at kw))
        (default now (Link.kw_updated_at kw))).

(** INSERT INTO [links]: [String(32)], the primary key and [unique=True]
    on [short_code]. *)
Definition insert_link (d : db) (row : Link.t) : result db :=
  _ ← guard_ok (varchar_fits (backend d) 32 (Link.short_code row))
        (DataError "links.short_code");
  _ ← guard_ok (bool_decide (Link.id row ∉ link_ids d))
        (IntegrityError (PrimaryKey "links"));
  _ ← guard_ok (bool_decide (Link.short_code row ∉ short_codes d))
        (IntegrityError (Unique "links.short_code"));
  Ok (mk_db (backend d) (links d ++ [row]) (click_events d)).

(** [link = Link(...); db.add(link); db.flush()]. The server converts
    the values it is sent to the column types before it looks at any
    constraint, so an over-long [short_code] is reported before a missing
    column. *)
Definition add_link (d : db) (now : datetime) (uuid4 : uuid)
    (kw : Link.kwargs) : result db :=
  _ ← guard_ok (from_option (varchar_fits (backend d) 32) true
                  (Link.kw_short_code kw))
        (DataError "links.short_code");
  row ← link_row now uuid4 kw;
  insert_link d row.

(** The row that flushing [ClickEvent(...)] writes. *)
Definition click_row (now : datetime) (uuid4 : uuid)
    (kw : ClickEvent.kwargs) : result ClickEvent.t :=
  lid ← require "click_events.link_id" (ClickEvent.kw_link_id kw);
  Ok (ClickEvent.mk
        (default uuid4 (ClickEvent.kw_id kw))
        lid
        (default now (ClickEvent.kw_clicked_at kw))
        (ClickEvent.kw_ip_address kw)
        (ClickEvent.kw_user_agent kw)).

(** INSERT INTO [click_events]: [String(45)], the primary key and the
    foreign key to [links.id], which is enforced on both backends (native
    on PostgreSQL, [PRAGMA foreign_keys=ON] on SQLite). *)
Definition insert_click (d : db) (row : ClickEvent.t) : result db :=
  _ ← guard_ok (from_option (varchar_fits (backend d) 45) true
                  (ClickEvent.ip_address row))
        (DataError "click_events.ip_address");
  _ ← guard_ok (bool_decide (ClickEvent.id row ∉ click_ids d))
        (IntegrityError (PrimaryKey "click_events"));
  _ ← guard_ok (bool_decide (ClickEvent.link_id row ∈ link_ids d))
        (IntegrityError (ForeignKey "click_events.link_id"));
  Ok (mk_db (backend d) (links d) (click_events d ++ [row])).

(** [event = ClickEvent(...); db.add(event)] and its flush; as for a
    link, an over-long [ip_address] is reported before a missing
    [link_id]. *)
Definition add_click (d : db) (now : datetime) (uuid4 : uuid)
    (kw : ClickEvent.kwargs) : result db :=
  _ ← guard_ok (from_option (varchar_fits (backend d) 45) true
                  (ClickEvent.kw_ip_address kw))
        (DataError "click_events.ip_address");
  row ← click_row now uuid4 kw;
  insert_click d row.

(** ** Seeding ([scripts/seed_db.py]) *)

(** One [dict(...)] of [LINKS]: the six keys every entry has. *)
Record link_data := mk_link_data {
  d_short_code : string;
  d_original_url : string;
  d_is_active : bool;
  d_is_custom_code : bool;
  d_created_at : datetime;
  d_updated_at : datetime
}.

(** The call of [Link] with [data] unpacked as keyword arguments: every
    key of [data] is passed, [id] is not. *)
Definition Link_of_data (data : link_data) : Link.kwargs :=
  Link.mk_kwargs None
    (Some (d_short_code data))
    (Some (d_original_url data))
    (Some (d_is_active data))
    (Some (d_is_custom_code data))
    (Some (d_created_at data))
    (Some (d_updated_at data)).

(** One tuple of [CLICK_EVENTS]: [(short_code, hours_ago, ip, user_agent)]. *)
Definition click_data : Type :=
  string * Z * option string * option string.

Definition LINKS (clock : datetime) : list link_data := [
  mk_link_data "gh"
    "https://github.com"
    true true (_utc clock 30 0) (_utc clock 30 0);
  mk_link_data "docs"
    "https://docs.python.org/3/"
    true true (_utc clock 25 0) (_utc clock 25 0);
  mk_link_data "yt"
    "https://www.youtube.com"
    true true (_utc clock 20 0) (_utc clock 20 0);
  mk_link_data "so"
    "https://stackoverflow.com/questions"
    true true (_utc clock 18 0) (_utc clock 18 0);
  mk_link_data "sa-promo"
    "https://www.amazon.com/deals/storefront?tag=example-20"
    true true (_utc clock 10 0) (_utc clock 10 0);
  mk_link_data "x7q2p"
    "https://www.bbc.com/news/technology/article/2026-ai-breakthrough"
    true false (_utc clock 15 0) (_utc clock 15 0);
  mk_link_data "m3nkR"
    "https://medium.com/@dev/building-a-url-shortener-with-fastapi-abc123"
    true false (_utc clock 12 0) (_utc clock 12 0);
  mk_link_data "Zp9wL"
    "https://www.npmjs.com/package/zod"
    true false (_utc clock 8 0) (_utc clock 8 0);
  mk_link_data "t4Rqx"
    "https://docs.sqlalchemy.org/en/20/orm/quickstart.html"
    true false (_utc clock 5 0) (_utc clock 5 0);
  mk_link_data "Kw2vN"
    "https://hub.docker.com/_/postgres"
    true false (_utc clock 3 0) (_utc clock 3 0);
  mk_link_data "old-sale"
    "https://www.example.com/promo/blackfriday-2024"
    false true (_utc clock 90 0) (_utc clock 60 0);
  mk_link_data "qX5mY"
    "https://pastebin.com/raw/deprecated-snippet"
    false false (_utc clock 45 0) (_utc clock 20 0)
].

Definition CLICK_EVENTS : list click_data := [
  ("gh", 1, (Some "203.0.113.42"),
    (Some "Mozilla/5.0 (Windows NT 10.0; Win64; x64) AppleWebKit/537.36 (KHTML, like Gecko) Chrome/121.0.0.0 Safari/537.36"));
  ("gh", 3, (Some "198.51.100.7"),
    (Some "Mozilla/5.0 (Macintosh; Intel Mac OS X 10_15_7) AppleWebKit/605.1.15 (KHTML, like Gecko) Version/17.2 Safari/605.1.15"));
  ("gh", 6, (Some "192.0.2.88"),
    (Some "Mozilla/5.0 (X11; Linux x86_64; rv:122.0) Gecko/20100101 Firefox/122.0"));
  ("gh", 12, (Some "2001:db8::1"),
    (Some "Mozilla/5.0 (iPhone; CPU iPhone OS 17_2 like Mac OS X) AppleWebKit/605.1.15 (KHTML, like Gecko) Version/17.2 Mobile/15E148 Safari/604.1"));
  ("gh", 18, (Some "203.0.113.5"),
    (Some "curl/8.4.0"));
  ("gh", 24, (Some "198.51.100.22"),
    (Some "Mozilla/5.0 (Windows NT 10.0; Win64; x64) AppleWebKit/537.36 (KHTML, like Gecko) Chrome/121.0.0.0 Safari/537.36"));
  ("gh", 30, (Some "192.0.2.10"),
    (Some "python-httpx/0.26.0"));
  ("docs", 2, (Some "203.0.113.99"),
    (Some "Mozilla/5.0 (Macintosh; Intel Mac OS X 10_15_7) AppleWebKit/537.36 (KHTML, like Gecko) Chrome/121.0.0.0 Safari/537.36"));
  ("docs", 8, (Some "198.51.100.3"),
    (Some "Mozilla/5.0 (X11; Ubuntu; Linux x86_64; rv:122.0) Gecko/20100101 Firefox/122.0"));
  ("docs", 20, (Some "192.0.2.55"),
    (Some "Mozilla/5.0 (Windows NT 10.0; Win64; x64; rv:122.0) Gecko/20100101 Firefox/122.0"));
  ("yt", 1, (Some "203.0.113.17"),
    (Some "Mozilla/5.0 (iPhone; CPU iPhone OS 17_2 like Mac OS X) AppleWebKit/605.1.15 (KHTML, like Gecko) Version/17.2 Mobile/15E148 Safari/604.1"));
  ("yt", 4, (Some "198.51.100.44"),
    (Some "Mozilla/5.0 (Linux; Android 14; Pixel 8) AppleWebKit/537.36 (KHTML, like Gecko) Chrome/121.0.6167.144 Mobile Safari/537.36"));
  ("yt", 10, (Some "192.0.2.200"),
    (Some "Mozilla/5.0 (Windows NT 10.0; Win64; x64) AppleWebKit/537.36 (KHTML, like Gecko) Chrome/121.0.0.0 Safari/537.36"));
  ("sa-promo", 1, (Some "203.0.113.50"),
    (Some "Mozilla/5.0 (Windows NT 10.0; Win64; x64) AppleWebKit/537.36 (KHTML, like Gecko) Chrome/121.0.0.0 Safari/537.36"));
  ("sa-promo", 1, (Some "198.51.100.71"),
    (Some "Mozilla/5.0 (Macintosh; Intel Mac OS X 10_15_7) AppleWebKit/605.1.15 (KHTML, like Gecko) Version/17.2 Safari/605.1.15"));
  ("sa-promo", 2, (Some "192.0.2.130"),
    (Some "Mozilla/5.0 (iPhone; CPU iPhone OS 17_2 like Mac OS X) AppleWebKit/605.1.15 (KHTML, like Gecko) Version/17.2 Mobile/15E148 Safari/604.1"));
  ("sa-promo", 2, (Some "203.0.113.88"),
    (Some "Mozilla/5.0 (Linux; Android 14; SM-S918B) AppleWebKit/537.36 (KHTML, like Gecko) Chrome/121.0.6167.144 Mobile Safari/537.36"));
  ("sa-promo", 3, (Some "198.51.100.9"),
    (Some "Mozilla/5.0 (Windows NT 10.0; Win64; x64) AppleWebKit/537.36 (KHTML, like Gecko) Chrome/121.0.0.0 Safari/537.36"));
  ("x7q2p", 5, (Some "192.0.2.77"),
    (Some "Mozilla/5.0 (Macintosh; Intel Mac OS X 10_15_7) AppleWebKit/537.36 (KHTML, like Gecko) Chrome/121.0.0.0 Safari/537.36"));
  ("x7q2p", 14, (Some "203.0.113.33"),
    (Some "Mozilla/5.0 (X11; Linux x86_64; rv:122.0) Gecko/20100101 Firefox/122.0"));
  ("m3nkR", 7, (Some "198.51.100.60"),
    (Some "Mozilla/5.0 (Windows NT 10.0; Win64; x64) AppleWebKit/537.36 (KHTML, like Gecko) Chrome/121.0.0.0 Safari/537.36"));
  ("Zp9wL", 2, (Some "192.0.2.44"),
    (Some "curl/8.4.0"));
  ("Zp9wL", 9, (Some "203.0.113.21"),
    (Some "Mozilla/5.0 (X11; Linux x86_64) AppleWebKit/537.36 (KHTML, like Gecko) Chrome/121.0.0.0 Safari/537.36"));
  ("old-sale", (80 * 24), (Some "198.51.100.15"),
    (Some "Mozilla/5.0 (Windows NT 10.0; Win64; x64) AppleWebKit/537.36 (KHTML, like Gecko) Chrome/118.0.0.0 Safari/537.36"));
  ("old-sale", (85 * 24), (Some "192.0.2.66"),
    (Some "Mozilla/5.0 (Macintosh; Intel Mac OS X 10_15_7) AppleWebKit/605.1.15 (KHTML, like Gecko) Version/16.6 Safari/605.1.15"));
  ("t4Rqx", 1, None,
    None)
].

(** The state of one run of [seed]: the session's database, the number of
    [uuid.uuid4()] calls made so far, and [link_map]. *)
Record seed_state := mk_seed_state {
  seed_db : db;
  seed_uuids : nat;
  link_map : gmap string Link.t
}.

Section Seed.
(** [uuid4 n] is the result of the [n]-th call of [uuid.uuid4()].
    [import_clock] is the reading of [datetime.now(timezone.utc)] while
    the module is loaded and [LINKS] is built, [clock] the reading
    during the run of [seed]. *)
Variable uuid4 : nat → uuid.
Variable import_clock clock : datetime.

(** The body of [for data in LINKS]. *)
Definition seed_link (st : seed_state) (data : link_data)
    : result seed_state :=
  let code := d_short_code data in
  match query_link_by_short_code (seed_db st) code with
  | Some existing =>
      Ok (mk_seed_state (seed_db st) (seed_uuids st)
            (<[code := existing]> (link_map st)))
  | None =>
      link ← link_row clock (uuid4 (seed_uuids st)) (Link_of_data data);
      d' ← insert_link (seed_db st) link;
      Ok (mk_seed_state d' (S (seed_uuids st))
            (<[code := link]> (link_map st)))
  end.

(** The body of [for short_code, hours_ago, ip, ua in CLICK_EVENTS]; the
    events are written when the session is committed, in the order they
    were added. *)
Definition seed_click (st : seed_state) (c : click_data)
    : result seed_state :=
  let '(short_code, hours_ago, ip, ua) := c in
  match link_map st !! short_code with
  | None => Ok st
  | Some link =>
      d' ← add_click (seed_db st) clock (uuid4 (seed_uuids st))
             (ClickEvent.mk_kwargs None
                (Some (Link.id link))
                (Some (_utc clock 0 hours_ago))
                ip
                ua);
      Ok (mk_seed_state d' (S (seed_uuids st)) (link_map st))
  end.

(** A [for] loop whose body may raise. *)
Fixpoint for_each {A St : Type} (body : St → A → result St)
    (st : St) (xs : list A) : result St :=
  match xs with
  | [] => Ok st
  | x :: xs' => st' ← body st x; for_each body st' xs'
  end.

(** The database work of [seed()], without what it prints ([seed_run]
    below has the [print] calls). [Err] is the [except] branch: the session
    is rolled back, so the database stays [d], and the exception is raised
    again. *)
Definition seed (d : db) : result db :=
  st ← for_each seed_link (mk_seed_state d 0 ∅) (LINKS import_clock);
  st ← for_each seed_click st CLICK_EVENTS;
  Ok (seed_db st).
End Seed.

(** *** [seed()] with what it prints *)

(** The calls of [print] inside the [try] block of [seed], by the values
    they format. *)
Inductive seed_message :=
| SkipExistingLink (short_code : string)
| AddedLink (short_code original_url : string)
| SkipUnknownClick (short_code : string)
| SeededSuccessfully (total_links total_clicks : nat).

(** What [seed] can raise: an error of the database, the failure of a
    [print] (an arrow or a check mark that the encoding of [sys.stdout]
    lacks, a closed stream), or the failure of the [print] of the [except]
    branch, which takes the place of the exception that was caught. *)
Inductive seed_exception :=
| DatabaseError (e : error)
| PrintError (m : seed_message)
| FailureReportError (cause : seed_exception).

(** A computation that returns or raises. *)
Inductive raising (A : Type) :=
| Done (a : A)
| Raised (e : seed_exception).
Arguments Done {A} a.
Arguments Raised {A} e.

#[export] Instance raising_bind : MBind raising := fun A B f r =>
  match r with
  | Done a => f a
  | Raised e => Raised e
  end.

Definition database {A} (r : result A) : raising A :=
  match r with
  | Ok a => Done a
  | Err e => Raised (DatabaseError e)
  end.

(** How a call of [seed()] ends, with the database it leaves behind. *)
Inductive seed_outcome :=
| SeedReturns (d : db)
| SeedRaises (e : seed_exception) (d : db).

Section SeedRun.
(** [stdout m] tells whether [print] returns for the message [m] of the
    [try] block, and [stdout_failure e] whether the [print] of the
    [except] branch returns for the exception [e]. *)
Variable uuid4 : nat → uuid.
Variable import_clock clock : datetime.
Variable stdout : seed_message → bool.
Variable stdout_failure : seed_exception → bool.

Definition print (m : seed_message) : raising unit :=
  if stdout m then Done () else Raised (PrintError m).

(** The body of [for data in LINKS]. *)
Definition seed_link_run (st : seed_state) (data : link_data)
    : raising seed_state :=
  let code := d_short_code data in
  match query_link_by_short_code (seed_db st) code with
  | Some existing =>
      _ ← print (SkipExistingLink code);
      Done (mk_seed_state (seed_db st) (seed_uuids st)
              (<[code := existing]> (link_map st)))
  | None =>
      link ← database
               (link_row clock (uuid4 (seed_uuids st)) (Link_of_data data));
      d' ← database (insert_link (seed_db st) link);
      _ ← print (AddedLink code (d_original_url data));
      Done (mk_seed_state d' (S (seed_uuids st))
              (<[code := link]> (link_map st)))
  end.

(** The body of [for short_code, hours_ago, ip, ua in CLICK_EVENTS]. *)
Definition seed_click_run (st : seed_state) (c : click_data)
    : raising seed_state :=
  let '(short_code, hours_ago, ip, ua) := c in
  match link_map st !! short_code with
  | None =>
      _ ← print (SkipUnknownClick short_code);
      Done st
  | Some link =>
      d' ← database
             (add_click (seed_db st) clock (uuid4 (seed_uuids st))
                (ClickEvent.mk_kwargs None
                   (Some (Link.id link))
                   (Some (_utc clock 0 hours_ago))
                   ip
                   ua));
      Done (mk_seed_state d' (S (seed_uuids st)) (link_map st))
  end.

Fixpoint for_each_raising {A St : Type} (body : St → A → raising St)
    (st : St) (xs : list A) : raising St :=
  match xs with
  | [] => Done st
  | x :: xs' => st' ← body st x; for_each_raising body st' xs'
  end.

(** The [except] branch: [db.rollback()], the [print] of the failure and
    [raise]. [d] is the database as the last commit left it. *)
Definition seeding_failed (e : seed_exception) (d : db) : seed_outcome :=
  SeedRaises (if stdout_failure e then e else FailureReportError e) d.

(** [seed()] on the database [d]. An exception in one of the loops is
    raised before [db.commit()], so the rollback leaves [d]; the last
    [print] of the [try] block comes after [db.commit()], so an exception
    there leaves the seeded database. *)
Definition seed_run (d : db) : seed_outcome :=
  match
    st ← for_each_raising seed_link_run (mk_seed_state d 0 ∅)
           (LINKS import_clock);
    for_each_raising seed_click_run st CLICK_EVENTS
  with
  | Raised e => seeding_failed e d
  | Done st =>
      let m := SeededSuccessfully (length (LINKS import_clock))
                 (length CLICK_EVENTS) in
      if stdout m then SeedReturns (seed_db st)
      else seeding_failed (PrintError m) (seed_db st)
  end.
End SeedRun.

(** Every [print] of the two loops returns. *)
Definition loop_prints_return (stdout : seed_message → bool) : Prop :=
  (∀ code, stdout (SkipExistingLink code) = true) ∧
  (∀ code url, stdout (AddedLink code url) = true) ∧
  (∀ code, stdout (SkipUnknownClick code) = true).

(** The database after running an operation: an operation that raises is
    rolled back. *)
Definition after (d : db) (r : result db) : db :=
  match r with
  | Ok d' => d'
  | Err _ => d
  end.

(** ** Link store operations

    The repository declares the tables and creates rows through the ORM
    ([seed_db.py], [fixtures.py]); it has no function that resolves,
    mutates or deletes a link, records a click or counts clicks. Those
    operations are given here as the statements they issue against the
    schema of [models.py]. *)

Inductive assignment :=
| SetIsActive (b : bool)
| SetOriginalUrl (url : string).

Definition assign (a : assignment) (l : Link.t) : Link.t :=
  match a with
  | SetIsActive b =>
      Link.mk (Link.id l) (Link.short_code l) (Link.original_url l) b
        (Link.is_custom_code l) (Link.created_at l) (Link.updated_at l)
  | SetOriginalUrl url =>
      Link.mk (Link.id l) (Link.short_code l) url (Link.is_active l)
        (Link.is_custom_code l) (Link.created_at l) (Link.updated_at l)
  end.

(** [onupdate=func.now()] on [updated_at]: an UPDATE that does not assign
    the column sets it to the server's time. *)
Definition onupdate (now : datetime) (l : Link.t) : Link.t :=
  Link.mk (Link.id l) (Link.short_code l) (Link.original_url l)
    (Link.is_active l) (Link.is_custom_code l) (Link.created_at l) now.

(** What [UPDATE links SET <a> WHERE id = i] does to one row. *)
Definition updated (now : datetime) (i : uuid) (a : assignment) (l : Link.t)
    : Link.t :=
  if bool_decide (Link.id l = i) then onupdate now (assign a l) else l.

(** Modelled from the spec: the statement behind [disable], [enable] and
    [update_url], which the source does not have,
    [UPDATE links SET <a> WHERE id = i] with the schema's [onupdate]; no
    row with that [id] is [NotFoundError]. *)
Definition update_link (d : db) (now : datetime) (i : uuid)
    (a : assignment) : result db :=
  _ ← guard_ok (bool_decide (i ∈ link_ids d)) NotFoundError;
  Ok (mk_db (backend d) (updated now i a <$> links d) (click_events d)).

(** Modelled from the spec: [disable(id)], missing from the source, sets
    [is_active] to false and bumps [updated_at]. *)
Definition disable (d : db) (now : datetime) (i : uuid) : result db :=
  update_link d now i (SetIsActive false).

(** Modelled from the spec: [enable(id)], missing from the source, sets
    [is_active] to true and bumps [updated_at]. *)
Definition enable (d : db) (now : datetime) (i : uuid) : result db :=
  update_link d now i (SetIsActive true).

(** Modelled from the spec: [update_url(id, new_url)], missing from the
    source; an empty [new_url] is a [ValidationError], [short_code] and
    identity are left untouched. *)
Definition update_url (d : db) (now : datetime) (i : uuid)
    (new_url : string) : result db :=
  _ ← guard_ok (negb (bool_decide (new_url = ""))) ValidationError;
  update_link d now i (SetOriginalUrl new_url).

(** Modelled from the spec: the mutations of a link, "disable/enable or
    URL-update operations"; none of them is in the source. *)
Inductive mutation :=
| Disable
| Enable
| UpdateUrl (new_url : string).

Definition mutate (m : mutation) (d : db) (now : datetime) (i : uuid)
    : result db :=
  match m with
  | Disable => disable d now i
  | Enable => enable d now i
  | UpdateUrl new_url => update_url d now i new_url
  end.

(** Modelled from the spec: [delete(id)], missing from the source. The
    statement [DELETE FROM links WHERE id = i] runs under the schema's
    [ForeignKey("links.id", ondelete="CASCADE")], so the click events of
    the link go in the same statement. *)
Definition delete_link (d : db) (i : uuid) : result db :=
  _ ← guard_ok (bool_decide (i ∈ link_ids d)) NotFoundError;
  Ok (mk_db (backend d)
        (filter (fun l => Link.id l ≠ i) (links d))
        (filter (fun e => ClickEvent.link_id e ≠ i) (click_events d))).

(** Modelled from the spec: [resolve(short_code)], missing from the
    source; it is the lookup [seed] does, with [NotFoundError] for no
    row. *)
Definition resolve (d : db) (code : string) : result Link.t :=
  match query_link_by_short_code d code with
  | Some l => Ok l
  | None => Err NotFoundError
  end.

(** Modelled from the spec: [record(link_id, ip, user_agent)], missing
    from the source; the caller passes no [clicked_at]. *)
Definition record_click (d : db) (now : datetime) (uuid4 : uuid)
    (lid : uuid) (ip ua : option string) : result db :=
  add_click d now uuid4 (ClickEvent.mk_kwargs None (Some lid) None ip ua).

(** Modelled from the spec: the aggregator's total count of clicks scoped
    to one link, missing from the source. *)
Definition count_clicks (d : db) (i : uuid) : nat :=
  length (click_events_of d i).

Definition newest_first : relation ClickEvent.t :=
  fun a b => ClickEvent.clicked_at b ≤ ClickEvent.clicked_at a.

#[global] Instance newest_first_dec : RelDecision newest_first :=
  fun a b => Z.le_dec (ClickEvent.clicked_at b) (ClickEvent.clicked_at a).

(** Modelled from the spec: the aggregator's most recent [n] clicks of a
    link, missing from the source; newest first. *)
Definition recent_clicks (d : db) (i : uuid) (n : nat) : list ClickEvent.t :=
  take n (merge_sort newest_first (click_events_of d i)).

(** ** Reachable states *)

(** One committed operation. *)
Inductive step : db → db → Prop :=
| step_add_link d now u kw d' :
    add_link d now u kw = Ok d' → step d d'
| step_add_click d now u kw d' :
    add_click d now u kw = Ok d' → step d d'
| step_update_link d now i a d' :
    update_link d now i a = Ok d' → step d d'
| step_delete_link d i d' :
    delete_link d i = Ok d' → step d d'.

Definition reachable (d : db) : Prop :=
  ∃ b, rtc step (empty_db b) d.

(** What the constraints of the schema maintain. *)
Record consistent (d : db) : Prop := mk_consistent {
  links_pk : NoDup (link_ids d);
  links_short_code_unique : NoDup (short_codes d);
  click_events_pk : NoDup (click_ids d);
  click_events_fk :
    ∀ e, e ∈ click_events d → ClickEvent.link_id e ∈ link_ids d
}.

(** ** Health reporting ([database.py], [health.py], [main.py]) *)

(** The exception classes that matter to [except Exception]: the last two
    derive from [BaseException] only. *)
Inductive exception :=
| OperationalError
| DBAPIError
| TimeoutError
| ConnectionError
| KeyboardInterrupt
| SystemExit.

(** [isinstance(e, Exception)]. *)
Definition isinstance_Exception (e : exception) : bool :=
  match e with
  | KeyboardInterrupt | SystemExit => false
  | _ => true
  end.

Inductive outcome (A : Type) :=
| Returns (a : A)
| Raises (e : exception).
Arguments Returns {A} a.
Arguments Raises {A} e.

#[global] Instance outcome_ret : MRet outcome := fun _ a => Returns a.
#[global] Instance outcome_bind : MBind outcome := fun _ _ f r =>
  match r with
  | Returns a => f a
  | Raises e => Raises e
  end.

(** [try: body / except Exception: handler]. *)
Definition try_except_Exception {A} (body handler : outcome A) : outcome A :=
  match body with
  | Returns a => Returns a
  | Raises e => if isinstance_Exception e then handler else Raises e
  end.

(** How a call to a dependency can fail; the driver raises each as a
    subclass of [Exception]. *)
Inductive fault := Unreachable | TimedOut | Disconnected.

Definition raise_fault (f : fault) : exception :=
  match f with
  | Unreachable => OperationalError
  | TimedOut => TimeoutError
  | Disconnected => DBAPIError
  end.

(** A call that succeeds ([None]) or fails with a fault. *)
Definition call (r : option fault) : outcome unit :=
  match r with
  | None => Returns tt
  | Some f => Raises (raise_fault f)
  end.

(** The behaviour of the backing store during one health check: what
    [engine.connect()], [conn.execute(text("SELECT 1"))] and the closing of
    the connection do. *)
Record store := mk_store {
  connect : option fault;
  execute : option fault;
  close : option fault
}.

(** [with engine.connect() as conn: body]: the connection is closed on the
    way out, also when [body] raised. *)
Definition with_connection {A} (s : store) (body : outcome A) : outcome A :=
  _ ← call (connect s);
  match body with
  | Returns a => _ ← call (close s); Returns a
  | Raises e =>
      match call (close s) with
      | Returns _ => Raises e
      | Raises e' => Raises e'
      end
  end.

(** [health_check()] of [database.py]. *)
Definition health_check (s : store) : outcome bool :=
  try_except_Exception
    (_ ← with_connection s (call (execute s)); Returns true)
    (Returns false).

(** [check_database()]. *)
Definition check_database (s : store) : outcome bool :=
  health_check s.

(** [check_database_async()]. *)
Definition check_database_async (s : store) : outcome bool :=
  check_database s.

(** A Redis client: what its [ping()] does. *)
Record redis_client := mk_redis { ping : option fault }.

(** [check_redis(redis_client)]. *)
Definition check_redis (r : option redis_client) : outcome bool :=
  match r with
  | None => Returns true
  | Some c => try_except_Exception (_ ← call (ping c); Returns true) (Returns false)
  end.

Definition VERSION : string := "1.0.0".

(** The response body; [timestamp] is kept as the clock reading that
    [isoformat()] prints. *)
Record payload := mk_payload {
  status : string;
  version : string;
  timestamp : datetime;
  checks : gmap string string
}.

(** ["ok" if b else "error"]. *)
Definition ok_or_error (b : bool) : string :=
  if b then "ok" else "error".

(** ["healthy" if all(v == "ok" for v in checks.values()) else "degraded"]. *)
Definition overall (checks : gmap string string) : string :=
  if forallb (fun v => bool_decide (v = "ok")) (map_to_list checks).*2
  then "healthy" else "degraded".

(** [get_health_status(db, redis)]; [db] is a session, of which only the
    presence is used. *)
Definition get_health_status (s : store) (session : option db)
    (redis : option redis_client) (clock : datetime) : outcome payload :=
  let checks : gmap string string := ∅ in
  checks ←
    match session with
    | Some _ =>
        db_ok ← check_database s;
        Returns (<["database" := ok_or_error db_ok]> checks)
    | None => Returns checks
    end;
  let checks :=
    match redis with
    | Some _ => <["redis" := "ok"]> checks
    | None => checks
    end in
  Returns (mk_payload (overall checks) VERSION clock checks).

(** [get_health_status_async(redis_client)]. *)
Definition get_health_status_async (s : store) (r : option redis_client)
    (clock : datetime) : outcome payload :=
  let checks : gmap string string := ∅ in
  db_ok ← check_database s;
  let checks := <["database" := ok_or_error db_ok]> checks in
  redis_ok ← check_redis r;
  let checks :=
    match r with
    | Some _ => <["redis" := ok_or_error redis_ok]> checks
    | None => checks
    end in
  Returns (mk_payload (overall checks) VERSION clock checks).

(** The dictionary [checks] that the async report builds. *)
Definition async_checks (db_ok redis_ok : bool) (r : option redis_client)
    : gmap string string :=
  match r with
  | Some _ => <["redis" := ok_or_error redis_ok]> (<["database" := ok_or_error db_ok]> ∅)
  | None => <["database" := ok_or_error db_ok]> ∅
  end.

(** [JSONResponse(content=payload, status_code=status_code)]. *)
Record JSONResponse := mk_JSONResponse {
  content : payload;
  status_code : Z
}.

(** The [/health] route of [main.py]. *)
Definition health (s : store) (clock : datetime) : outcome JSONResponse :=
  payload ← get_health_status_async s None clock;
  let status_code :=
    if bool_decide (status payload = "healthy") then 200 else 503 in
  Returns (mk_JSONResponse payload status_code).

(** The round trip of the liveness probe: connect, [SELECT 1], release. *)
Definition round_trip_succeeds (s : store) : Prop :=
  connect s = None ∧ execute s = None ∧ close s = None.

(** ** Documented format of a short code *)

(** The docstring of [Link] in [models.py] describes [short_code] as
    "3-32 characters: alphanumeric, hyphens, underscores". *)
Definition short_code_char (c : Ascii.ascii) : bool :=
  let n := Ascii.nat_of_ascii c in
  ((48 <=? n) && (n <=? 57) || (65 <=? n) && (n <=? 90)
   || (97 <=? n) && (n <=? 122) || (n =? 45) || (n =? 95))%nat.

Definition short_code_documented (code : string) : bool :=
  ((3 <=? String.length code) && (String.length code <=? 32))%nat
  && forallb short_code_char (String.list_ascii_of_string code).

(** ** Sample data *)

(** The link of the [sample_link] fixture and the [inactive_link] fixture,
    with small ids and times, and one anonymous click on the latter. *)
Definition sample_link : Link.t :=
  Link.mk 1%N "abc123" "https://example.com" true false 100 100.

Definition inactive_link : Link.t :=
  Link.mk 2%N "old-sale" "https://www.example.com/promo/blackfriday-2024"
    false true 10 40.

Definition anonymous_click_event : ClickEvent.t :=
  ClickEvent.mk 10%N 2%N 50 None None.

Definition sample_db : db :=
  mk_db SQLite [sample_link; inactive_link] [anonymous_click_event].

(** A database with the link "gh" of the seed data, which has been
    clicked twice, and the disabled link, on either backend. The ids have
    a letter among their hexadecimal digits ([a1], [a2], [ab], [ac]). *)
Definition github_link : Link.t :=
  Link.mk 161%N "gh" "https://github.com" true true 100 100.

Definition history_db (b : dialect) : db :=
  mk_db b
    [github_link;
     Link.mk 162%N "old-sale"
       "https://www.example.com/promo/blackfriday-2024" false true 10 40]
    [ClickEvent.mk 171%N 161%N 120 (Some "203.0.113.1") (Some "curl/8.4.0");
     ClickEvent.mk 172%N 161%N 130 None None].

(** The generator that numbers the calls of [uuid.uuid4()] and a clock
    reading, for running [seed]. *)
Definition uuid4_counter (n : nat) : uuid := N.of_nat n.

Definition sample_clock : datetime := 1771536938000000.

(** ** Fixtures ([tests/fixtures.py]) *)

(** What calling a fixture gives: its value, the error of an INSERT, or
    the [KeyError] of a dictionary lookup. *)
Inductive fixture_result (A : Type) :=
| Passed (a : A)
| DbError (e : error)
| KeyError (key : string).
Arguments Passed {A} a.
Arguments DbError {A} e.
Arguments KeyError {A} key.

Definition of_result {A} (r : result A) : fixture_result A :=
  match r with
  | Ok a => Passed a
  | Err e => DbError e
  end.

Module Fixtures.

(** [test_db]: a new in-memory SQLite database with [PRAGMA
    foreign_keys=ON] and the tables created. *)
Definition test_db : db := empty_db SQLite.

(** [test_db.add(link); test_db.commit(); test_db.refresh(link); return
    link]: the fixture's value is the stored row. *)
Definition add_commit_refresh (d : db) (now : datetime) (u : uuid)
    (kw : Link.kwargs) : result (db * Link.t) :=
  row ← link_row now u kw;
  d' ← insert_link d row;
  Ok (d', row).

(** [sample_link(test_db)]; [u] is the fixture's [uuid.uuid4()], [clock]
    its reading of the time. *)
Definition sample_link (d : db) (u : uuid) (clock : datetime)
    : result (db * Link.t) :=
  add_commit_refresh d clock u
    (Link.mk_kwargs (Some u) (Some "abc123") (Some "https://example.com")
       (Some true) (Some false)
       (Some (_utc clock 7 0)) (Some (_utc clock 7 0))).

(** [custom_link(test_db)]. *)
Definition custom_link (d : db) (u : uuid) (clock : datetime)
    : result (db * Link.t) :=
  add_commit_refresh d clock u
    (Link.mk_kwargs (Some u) (Some "gh") (Some "https://github.com")
       (Some true) (Some true)
       (Some (_utc clock 30 0)) (Some (_utc clock 30 0))).

(** [inactive_link(test_db)]. *)
Definition inactive_link (d : db) (u : uuid) (clock : datetime)
    : result (db * Link.t) :=
  add_commit_refresh d clock u
    (Link.mk_kwargs (Some u) (Some "old-sale")
       (Some "https://www.example.com/promo/blackfriday-2024")
       (Some false) (Some true)
       (Some (_utc clock 90 0)) (Some (_utc clock 60 0))).

(** [test_db.add(event_); test_db.commit(); test_db.refresh(event_);
    return event_]. *)
Definition add_commit_refresh_event (d : db) (now : datetime) (u : uuid)
    (kw : ClickEvent.kwargs) : result (db * ClickEvent.t) :=
  row ← click_row now u kw;
  d' ← insert_click d row;
  Ok (d', row).

(** [sample_click_event(test_db, sample_link)]. *)
Definition sample_click_event (d : db) (sample_link : Link.t) (u : uuid)
    (clock : datetime) : result (db * ClickEvent.t) :=
  add_commit_refresh_event d clock u
    (ClickEvent.mk_kwargs (Some u) (Some (Link.id sample_link))
       (Some (_utc clock 0 2)) (Some "203.0.113.42")
       (Some "Mozilla/5.0 (Windows NT 10.0; Win64; x64) AppleWebKit/537.36 (KHTML, like Gecko) Chrome/121.0.0.0 Safari/537.36")).

(** [anonymous_click_event(test_db, sample_link)]. *)
Definition anonymous_click_event (d : db) (sample_link : Link.t) (u : uuid)
    (clock : datetime) : result (db * ClickEvent.t) :=
  add_commit_refresh_event d clock u
    (ClickEvent.mk_kwargs (Some u) (Some (Link.id sample_link))
       (Some (_utc clock 0 1)) None None).

Definition _UA_CHROME_WIN : string :=
  "Mozilla/5.0 (Windows NT 10.0; Win64; x64) AppleWebKit/537.36 (KHTML, like Gecko) Chrome/121.0.0.0 Safari/537.36".

Definition _UA_SAFARI_MAC : string :=
  "Mozilla/5.0 (Macintosh; Intel Mac OS X 10_15_7) AppleWebKit/605.1.15 (KHTML, like Gecko) Version/17.2 Safari/605.1.15".

Definition _UA_FIREFOX : string :=
  "Mozilla/5.0 (X11; Linux x86_64; rv:122.0) Gecko/20100101 Firefox/122.0".

Definition _UA_IOS : string :=
  "Mozilla/5.0 (iPhone; CPU iPhone OS 17_2 like Mac OS X) AppleWebKit/605.1.15 (KHTML, like Gecko) Version/17.2 Mobile/15E148 Safari/604.1".

Definition _UA_ANDROID : string :=
  "Mozilla/5.0 (Linux; Android 14; Pixel 8) AppleWebKit/537.36 (KHTML, like Gecko) Chrome/121.0.6167.144 Mobile Safari/537.36".

Definition _UA_CURL : string :=
  "curl/8.4.0".

Definition _UA_HTTPX : string :=
  "python-httpx/0.26.0".

Definition links_data (clock : datetime) : list link_data := [
  mk_link_data "gh"
    "https://github.com"
    true true (_utc clock 30 0) (_utc clock 30 0);
  mk_link_data "docs"
    "https://docs.python.org/3/"
    true true (_utc clock 25 0) (_utc clock 25 0);
  mk_link_data "yt"
    "https://www.youtube.com"
    true true (_utc clock 20 0) (_utc clock 20 0);
  mk_link_data "so"
    "https://stackoverflow.com/questions"
    true true (_utc clock 18 0) (_utc clock 18 0);
  mk_link_data "sa-promo"
    "https://www.amazon.com/deals/storefront?tag=example-20"
    true true (_utc clock 10 0) (_utc clock 10 0);
  mk_link_data "x7q2p"
    "https://www.bbc.com/news/technology/article/2026-ai"
    true false (_utc clock 15 0) (_utc clock 15 0);
  mk_link_data "m3nkR"
    "https://medium.com/@dev/building-a-url-shortener"
    true false (_utc clock 12 0) (_utc clock 12 0);
  mk_link_data "Zp9wL"
    "https://www.npmjs.com/package/zod"
    true false (_utc clock 8 0) (_utc clock 8 0);
  mk_link_data "t4Rqx"
    "https://docs.sqlalchemy.org/en/20/orm/quickstart.html"
    true false (_utc clock 5 0) (_utc clock 5 0);
  mk_link_data "Kw2vN"
    "https://hub.docker.com/_/postgres"
    true false (_utc clock 3 0) (_utc clock 3 0);
  mk_link_data "old-sale"
    "https://www.example.com/promo/blackfriday-2024"
    false true (_utc clock 90 0) (_utc clock 60 0);
  mk_link_data "qX5mY"
    "https://pastebin.com/raw/deprecated-snippet"
    false false (_utc clock 45 0) (_utc clock 20 0)
].

Definition clicks : list click_data := [
  ("gh", 1, (Some "203.0.113.42"), (Some _UA_CHROME_WIN));
  ("gh", 3, (Some "198.51.100.7"), (Some _UA_SAFARI_MAC));
  ("gh", 6, (Some "192.0.2.88"), (Some _UA_FIREFOX));
  ("gh", 12, (Some "2001:db8::1"), (Some _UA_IOS));
  ("gh", 18, (Some "203.0.113.5"), (Some _UA_CURL));
  ("gh", 24, (Some "198.51.100.22"), (Some _UA_CHROME_WIN));
  ("gh", 30, (Some "192.0.2.10"), (Some _UA_HTTPX));
  ("docs", 2, (Some "203.0.113.99"), (Some _UA_CHROME_WIN));
  ("docs", 8, (Some "198.51.100.3"), (Some _UA_FIREFOX));
  ("docs", 20, (Some "192.0.2.55"), (Some _UA_FIREFOX));
  ("yt", 1, (Some "203.0.113.17"), (Some _UA_IOS));
  ("yt", 4, (Some "198.51.100.44"), (Some _UA_ANDROID));
  ("yt", 10, (Some "192.0.2.200"), (Some _UA_CHROME_WIN));
  ("sa-promo", 1, (Some "203.0.113.50"), (Some _UA_CHROME_WIN));
  ("sa-promo", 1, (Some "198.51.100.71"), (Some _UA_SAFARI_MAC));
  ("sa-promo", 2, (Some "192.0.2.130"), (Some _UA_IOS));
  ("sa-promo", 2, (Some "203.0.113.88"), (Some _UA_ANDROID));
  ("sa-promo", 3, (Some "198.51.100.9"), (Some _UA_CHROME_WIN));
  ("x7q2p", 5, (Some "192.0.2.77"), (Some _UA_SAFARI_MAC));
  ("x7q2p", 14, (Some "203.0.113.33"), (Some _UA_FIREFOX));
  ("m3nkR", 7, (Some "198.51.100.60"), (Some _UA_CHROME_WIN));
  ("Zp9wL", 2, (Some "192.0.2.44"), (Some _UA_CURL));
  ("Zp9wL", 9, (Some "203.0.113.21"), (Some _UA_CHROME_WIN));
  ("t4Rqx", 1, None, None);
  ("old-sale", (80 * 24), (Some "198.51.100.15"), (Some _UA_CHROME_WIN));
  ("old-sale", (85 * 24), (Some "192.0.2.66"), (Some _UA_SAFARI_MAC));
  ("so", 5, (Some "192.0.2.11"), (Some _UA_FIREFOX))
].

(** The call of [Link] in [seeded_db]: [id=uuid.uuid4()] and [data]
    unpacked. *)
Definition Link_of_data (u : uuid) (data : link_data) : Link.kwargs :=
  Link.mk_kwargs (Some u)
    (Some (d_short_code data))
    (Some (d_original_url data))
    (Some (d_is_active data))
    (Some (d_is_custom_code data))
    (Some (d_created_at data))
    (Some (d_updated_at data)).

(** The body of [for data in links_data]: no lookup comes first, every
    entry is inserted. *)
Definition seeded_link (uuid4 : nat → uuid) (clock : datetime)
    (st : seed_state) (data : link_data) : result seed_state :=
  let u := uuid4 (seed_uuids st) in
  link ← link_row clock u (Link_of_data u data);
  d' ← insert_link (seed_db st) link;
  Ok (mk_seed_state d' (S (seed_uuids st))
        (<[d_short_code data := link]> (link_map st))).

(** The body of [for short_code, hours_ago, ip, ua in clicks]:
    [link_map[short_code]] raises [KeyError] for a code that is not
    mapped. *)
Definition seeded_click (uuid4 : nat → uuid) (clock : datetime)
    (st : seed_state) (c : click_data) : fixture_result seed_state :=
  let '(short_code, hours_ago, ip, ua) := c in
  match link_map st !! short_code with
  | None => KeyError short_code
  | Some link =>
      let u := uuid4 (seed_uuids st) in
      of_result
        (d' ← add_click (seed_db st) clock u
                (ClickEvent.mk_kwargs (Some u)
                   (Some (Link.id link))
                   (Some (_utc clock 0 hours_ago))
                   ip
                   ua);
         Ok (mk_seed_state d' (S (seed_uuids st)) (link_map st)))
  end.

(** A [for] loop whose body may raise either kind of error. *)
Fixpoint for_each_fixture {A St : Type} (body : St → A → fixture_result St)
    (st : St) (xs : list A) : fixture_result St :=
  match xs with
  | [] => Passed st
  | x :: xs' =>
      match body st x with
      | Passed st' => for_each_fixture body st' xs'
      | DbError e => DbError e
      | KeyError k => KeyError k
      end
  end.

(** [seeded_db(test_db)]; the value is the session, here its database. *)
Definition seeded_db (uuid4 : nat → uuid) (clock : datetime) (d : db)
    : fixture_result db :=
  match for_each (seeded_link uuid4 clock) (mk_seed_state d 0 ∅)
          (links_data clock) with
  | Err e => DbError e
  | Ok st =>
      match for_each_fixture (seeded_click uuid4 clock) st clicks with
      | Passed st' => Passed (seed_db st')
      | DbError e => DbError e
      | KeyError k => KeyError k
      end
  end.

End Fixtures.

(** ** Relationships and seeded rows *)

(** The relationship [ClickEvent.link] ([back_populates] of
    [Link.click_events]): the link whose [id] is the event's [link_id]. *)
Definition link_of (d : db) (e : ClickEvent.t) : option Link.t :=
  query_link_by_id d (ClickEvent.link_id e).

(** The row of [links] that [seed] writes for an entry of [LINKS]. *)
Definition row_of_data (data : link_data) (i : uuid) : Link.t :=
  Link.mk i (d_short_code data) (d_original_url data) (d_is_active data)
    (d_is_custom_code data) (d_created_at data) (d_updated_at data).

(** The row of [click_events] that [seed] writes for an entry of
    [CLICK_EVENTS]. *)
Definition click_of_data (clock : datetime) (c : click_data)
    (i lid : uuid) : ClickEvent.t :=
  ClickEvent.mk i lid (_utc clock 0 c.1.1.2) c.1.2 c.2.

(** The short code of an entry of [CLICK_EVENTS]. *)
Definition click_code (c : click_data) : string := c.1.1.1.

(** Every mapped link of [link_map] is a stored row with that short
    code. *)
Definition link_map_stored (st : seed_state) : Prop :=
  ∀ code l, link_map st !! code = Some l →
    l ∈ links (seed_db st) ∧ Link.short_code l = code.

(** The ids that [uuid.uuid4()] returns from the [n]-th call on are not
    in use, and no two calls return the same id. *)
Definition uuids_fresh (uuid4 : nat → uuid) (n : nat) (d : db) : Prop :=
  Inj (=) (=) uuid4 ∧
  ∀ k, (n ≤ k)%nat → (uuid4 k ∉ link_ids d) ∧ (uuid4 k ∉ click_ids d).

(** What a run of [seed] may do to its state: rows are only added at the
    end of the tables, the count of [uuid.uuid4()] calls and the keys of
    [link_map] only grow. *)
Definition seed_extends (st st' : seed_state) : Prop :=
  backend (seed_db st') = backend (seed_db st) ∧
  (∃ ls, links (seed_db st') = links (seed_db st) ++ ls) ∧
  (∃ cs, click_events (seed_db st') = click_events (seed_db st) ++ cs) ∧
  (seed_uuids st ≤ seed_uuids st')%nat ∧
  (∀ code, is_Some (link_map st !! code) → is_Some (link_map st' !! code)) ∧
  (link_map_stored st → link_map_stored st').

(** What lets a run of [seed] go through from the state [st]: the ids
    that [uuid.uuid4()] is still to return are not in use, and [link_map]
    holds stored rows. *)
Definition seed_ready (uuid4 : nat → uuid) (st : seed_state) : Prop :=
  uuids_fresh uuid4 (seed_uuids st) (seed_db st) ∧ link_map_stored st.

(** The database that [seed] leaves when it is run on an empty SQLite
    database with the counting id source at [sample_clock]. *)
Definition seeded_sample : db :=
  Eval vm_compute in
    after (empty_db SQLite)
      (seed uuid4_counter sample_clock sample_clock (empty_db SQLite)).

(** A second id source, for a later run. *)
Definition uuid4_later (n : nat) : uuid := N.of_nat (n + 1000).

(** The database that a second run of [seed], with the later ids, leaves
    on [seeded_sample]. *)
Definition reseeded_sample : db :=
  Eval vm_compute in
    after seeded_sample
      (seed uuid4_later sample_clock sample_clock seeded_sample).

(** The database that [seed] leaves when it is run on
    [history_db PostgreSQL] with the later ids. *)
Definition seeded_history : db :=
  Eval vm_compute in
    after (history_db PostgreSQL)
      (seed uuid4_later sample_clock sample_clock (history_db PostgreSQL)).


(** A short code of 17 characters in 34 bytes. *)
Definition accented_code : string := "ééééééééééééééééé".

(** A short code of 33 characters. *)
Definition long_code : string := "abcdefghijklmnopqrstuvwxyz0123456".

(** * Properties *)

(** ** Inversion of the INSERT, UPDATE and DELETE statements *)

Lemma guard_ok_Ok (ok : bool) (e : error) (u : unit) :
  guard_ok ok e = Ok u ↔ ok = true.
Proof. destruct ok, u; cbn; split; congruence. Qed.

Lemma result_bind_Ok {A B} (r : result A) (f : A → result B) (b : B) :
  r ≫= f = Ok b → ∃ a, r = Ok a ∧ f a = Ok b.
Proof. destruct r as [a|e]; [by exists a | discriminate]. Qed.

Ltac inv_result :=
  repeat match goal with
  | H : Ok _ = Ok _ |- _ => injection H as H
  | H : Err _ = Ok _ |- _ => discriminate H
  | H : Ok _ = Err _ |- _ => discriminate H
  | H : mbind _ ?r = Ok _ |- _ =>
      let E := fresh "E" in
      destruct r eqn:E; cbn in H; [| discriminate H]
  | H : guard_ok _ _ = Ok _ |- _ => apply guard_ok_Ok in H
  | H : bool_decide _ = true |- _ => apply bool_decide_eq_true in H
  | H : negb _ = true |- _ => apply negb_true_iff in H
  | H : bool_decide _ = false |- _ => apply bool_decide_eq_false in H
  end.

Lemma insert_link_Ok d row d' :
  insert_link d row = Ok d' →
  varchar_fits (backend d) 32 (Link.short_code row) = true ∧
  (Link.id row ∉ link_ids d) ∧
  (Link.short_code row ∉ short_codes d) ∧
  d' = mk_db (backend d) (links d ++ [row]) (click_events d).
Proof. unfold insert_link. intros H. inv_result. subst. done. Qed.

Lemma link_row_Ok now u kw row :
  link_row now u kw = Ok row →
  ∃ code url,
    Link.kw_short_code kw = Some code ∧
    Link.kw_original_url kw = Some url ∧
    row = Link.mk (default u (Link.kw_id kw)) code url
            (default true (Link.kw_is_active kw))
            (default false (Link.kw_is_custom_code kw))
            (default now (Link.kw_created_at kw))
            (default now (Link.kw_updated_at kw)).
Proof.
  unfold link_row, require. intros H.
  destruct (Link.kw_short_code kw) as [code|]; [|discriminate].
  destruct (Link.kw_original_url kw) as [url|]; [|discriminate].
  cbn in H. inv_result. eauto.
Qed.

Lemma add_link_Ok d now u kw d' :
  add_link d now u kw = Ok d' →
  ∃ row, link_row now u kw = Ok row ∧ insert_link d row = Ok d'.
Proof. unfold add_link. intros H. inv_result. eauto. Qed.

Lemma add_link_intro d now u kw row d' :
  link_row now u kw = Ok row → insert_link d row = Ok d' →
  add_link d now u kw = Ok d'.
Proof.
  intros Hrow Hins. unfold add_link. rewrite Hrow.
  apply link_row_Ok in Hrow as (code & url & -> & _ & ->).
  pose proof Hins as (Hfit & _)%insert_link_Ok. cbn in *. by rewrite Hfit.
Qed.

Lemma insert_click_Ok d row d' :
  insert_click d row = Ok d' →
  (ClickEvent.id row ∉ click_ids d) ∧
  (ClickEvent.link_id row ∈ link_ids d) ∧
  d' = mk_db (backend d) (links d) (click_events d ++ [row]).
Proof. unfold insert_click. intros H. inv_result. subst. done. Qed.

Lemma click_row_Ok now u kw row :
  click_row now u kw = Ok row →
  ∃ lid,
    ClickEvent.kw_link_id kw = Some lid ∧
    row = ClickEvent.mk (default u (ClickEvent.kw_id kw)) lid
            (default now (ClickEvent.kw_clicked_at kw))
            (ClickEvent.kw_ip_address kw) (ClickEvent.kw_user_agent kw).
Proof.
  unfold click_row, require. intros H.
  destruct (ClickEvent.kw_link_id kw) as [lid|]; [|discriminate].
  cbn in H. inv_result. eauto.
Qed.

Lemma add_click_Ok d now u kw d' :
  add_click d now u kw = Ok d' →
  ∃ row, click_row now u kw = Ok row ∧ insert_click d row = Ok d'.
Proof. unfold add_click. intros H. inv_result. eauto. Qed.

Lemma insert_click_fits d row d' :
  insert_click d row = Ok d' →
  from_option (varchar_fits (backend d) 45) true (ClickEvent.ip_address row)
  = true.
Proof.
  unfold insert_click. intros H.
  by destruct (from_option _ _ _).
Qed.

Lemma add_click_intro d now u kw row d' :
  click_row now u kw = Ok row → insert_click d row = Ok d' →
  add_click d now u kw = Ok d'.
Proof.
  intros Hrow Hins. unfold add_click. rewrite Hrow.
  apply click_row_Ok in Hrow as (lid & _ & ->).
  pose proof (insert_click_fits _ _ _ Hins) as Hfit. cbn in *.
  by rewrite Hfit.
Qed.

Lemma update_link_Ok d now i a d' :
  update_link d now i a = Ok d' →
  (i ∈ link_ids d) ∧
  d' = mk_db (backend d) (updated now i a <$> links d) (click_events d).
Proof. unfold update_link. intros H. inv_result. subst. done. Qed.

Lemma delete_link_Ok d i d' :
  delete_link d i = Ok d' →
  (i ∈ link_ids d) ∧
  d' = mk_db (backend d)
         (filter (fun l => Link.id l ≠ i) (links d))
         (filter (fun e => ClickEvent.link_id e ≠ i) (click_events d)).
Proof. unfold delete_link. intros H. inv_result. subst. done. Qed.

Lemma updated_id now i a l : Link.id (updated now i a l) = Link.id l.
Proof. unfold updated. case_bool_decide; [destruct a|]; done. Qed.

Lemma updated_short_code now i a l :
  Link.short_code (updated now i a l) = Link.short_code l.
Proof. unfold updated. case_bool_decide; [destruct a|]; done. Qed.

Lemma updated_created_at now i a l :
  Link.created_at (updated now i a l) = Link.created_at l.
Proof. unfold updated. case_bool_decide; [destruct a|]; done. Qed.

(** ** The constraints are maintained *)

Lemma consistent_empty b : consistent (empty_db b).
Proof.
  split; cbn; try apply NoDup_nil_2.
  intros e He. by apply not_elem_of_nil in He.
Qed.

Lemma consistent_insert_link d row d' :
  consistent d → insert_link d row = Ok d' → consistent d'.
Proof.
  intros [Hpk Hcode Hcpk Hfk] (_ & Hid & Hsc & ->)%insert_link_Ok.
  split; unfold link_ids, short_codes, click_ids in *; cbn.
  - rewrite fmap_app. apply NoDup_app. split_and!; [done | | apply NoDup_singleton].
    intros x Hx ->%list_elem_of_singleton. done.
  - rewrite fmap_app. apply NoDup_app. split_and!; [done | | apply NoDup_singleton].
    intros x Hx ->%list_elem_of_singleton. done.
  - done.
  - intros e He. rewrite fmap_app. apply elem_of_app. left. by apply Hfk.
Qed.

Lemma consistent_insert_click d row d' :
  consistent d → insert_click d row = Ok d' → consistent d'.
Proof.
  intros [Hpk Hcode Hcpk Hfk] (Hid & Hlid & ->)%insert_click_Ok.
  split; unfold link_ids, short_codes, click_ids in *; cbn; try done.
  - rewrite fmap_app. apply NoDup_app. split_and!; [done | | apply NoDup_singleton].
    intros x Hx ->%list_elem_of_singleton. done.
  - intros e [He | ->%list_elem_of_singleton]%elem_of_app; [by apply Hfk | done].
Qed.

Lemma updated_link_ids now i a (ls : list Link.t) :
  Link.id <$> (updated now i a <$> ls) = Link.id <$> ls.
Proof.
  rewrite <- list_fmap_compose. apply list_fmap_ext.
  intros ? l _. cbn. apply updated_id.
Qed.

Lemma updated_short_codes now i a (ls : list Link.t) :
  Link.short_code <$> (updated now i a <$> ls) = Link.short_code <$> ls.
Proof.
  rewrite <- list_fmap_compose. apply list_fmap_ext.
  intros ? l _. cbn. apply updated_short_code.
Qed.

Lemma consistent_update_link d now i a d' :
  consistent d → update_link d now i a = Ok d' → consistent d'.
Proof.
  intros [Hpk Hcode Hcpk Hfk] (_ & ->)%update_link_Ok.
  split; unfold link_ids, short_codes, click_ids in *; cbn;
    rewrite ?updated_link_ids, ?updated_short_codes; done.
Qed.

Lemma NoDup_fmap_filter {A B} (f : A → B) (P : A → Prop)
    `{∀ x, Decision (P x)} (l : list A) :
  NoDup (f <$> l) → NoDup (f <$> filter P l).
Proof.
  intros Hl. eapply sublist_NoDup; [exact Hl|].
  apply fmap_sublist, sublist_filter.
Qed.

Lemma consistent_delete_link d i d' :
  consistent d → delete_link d i = Ok d' → consistent d'.
Proof.
  intros [Hpk Hcode Hcpk Hfk] (_ & ->)%delete_link_Ok.
  split; unfold link_ids, short_codes, click_ids in *; cbn;
    try by apply NoDup_fmap_filter.
  intros e [Hne He]%list_elem_of_filter.
  apply Hfk in He. apply list_elem_of_fmap in He as (l & Hl & Hin).
  apply list_elem_of_fmap. exists l. split; [done|].
  apply list_elem_of_filter. split; [congruence | done].
Qed.

Lemma consistent_step d d' : consistent d → step d d' → consistent d'.
Proof.
  intros Hd Hstep. destruct Hstep as
    [d now u kw d' H | d now u kw d' H | d now i a d' H | d i d' H].
  - apply add_link_Ok in H as (row & _ & H). by eapply consistent_insert_link.
  - apply add_click_Ok in H as (row & _ & H). by eapply consistent_insert_click.
  - by eapply consistent_update_link.
  - by eapply consistent_delete_link.
Qed.

Lemma reachable_consistent d : reachable d → consistent d.
Proof.
  intros [b Hrtc]. revert d Hrtc. apply rtc_ind_r.
  - apply consistent_empty.
  - intros d d' _ Hstep IH. by eapply consistent_step.
Qed.

(** ** Seeding stays within the reachable states *)

Lemma seed_link_rtc uuid4 clock st data st' :
  seed_link uuid4 clock st data = Ok st' → rtc step (seed_db st) (seed_db st').
Proof.
  unfold seed_link. intros H.
  destruct (query_link_by_short_code _ _) as [existing|].
  - inv_result. subst. cbn. apply rtc_refl.
  - inv_result. subst. cbn. apply rtc_once.
    eapply (step_add_link _ clock (uuid4 (seed_uuids st)) (Link_of_data data)).
    by eapply add_link_intro.
Qed.

Lemma seed_click_rtc uuid4 clock st c st' :
  seed_click uuid4 clock st c = Ok st' → rtc step (seed_db st) (seed_db st').
Proof.
  unfold seed_click. destruct c as [[[short_code hours_ago] ip] ua]. intros H.
  destruct (link_map st !! short_code) as [link|].
  - inv_result. subst. cbn. apply rtc_once. by eapply step_add_click.
  - inv_result. subst. apply rtc_refl.
Qed.

Lemma for_each_rtc {A} (body : seed_state → A → result seed_state) :
  (∀ st x st', body st x = Ok st' → rtc step (seed_db st) (seed_db st')) →
  ∀ xs st st',
    for_each body st xs = Ok st' → rtc step (seed_db st) (seed_db st').
Proof.
  intros Hbody xs. induction xs as [|x xs IH]; intros st st' H; cbn in H.
  - inv_result. subst. apply rtc_refl.
  - inv_result. etrans; [by eapply Hbody | by apply IH].
Qed.

Lemma seed_reachable uuid4 import_clock clock d d' :
  reachable d → seed uuid4 import_clock clock d = Ok d' → reachable d'.
Proof.
  intros [b Hd] H. exists b. unfold seed in H.
  apply result_bind_Ok in H as (st1 & E1 & H).
  apply result_bind_Ok in H as (st2 & E2 & H).
  injection H as <-.
  etrans; [exact Hd|].
  etrans.
  - apply (for_each_rtc _ (seed_link_rtc uuid4 clock) _ _ _ E1).
  - apply (for_each_rtc _ (seed_click_rtc uuid4 clock) _ _ _ E2).
Qed.

(** ** Keys *)

Lemma NoDup_fmap_lookup {A B} (f : A → B) (l : list A) i j x y :
  NoDup (f <$> l) → l !! i = Some x → l !! j = Some y → f x = f y → i = j.
Proof.
  intros Hnd Hi Hj Hxy.
  eapply NoDup_lookup; [exact Hnd | |].
  - rewrite list_lookup_fmap, Hi. reflexivity.
  - rewrite list_lookup_fmap, Hj. cbn. by rewrite Hxy.
Qed.

Lemma NoDup_fmap_elem_of {A B} (f : A → B) (l : list A) x y :
  NoDup (f <$> l) → x ∈ l → y ∈ l → f x = f y → x = y.
Proof.
  intros Hnd [i Hi]%list_elem_of_lookup [j Hj]%list_elem_of_lookup Hxy.
  assert (i = j) as -> by eauto using NoDup_fmap_lookup.
  congruence.
Qed.

Lemma head_filter_key {A B} `{EqDecision B} (f : A → B) (l : list A) x k :
  NoDup (f <$> l) → x ∈ l → f x = k →
  head (filter (fun y => f y = k) l) = Some x.
Proof.
  intros Hnd Hx <-. induction l as [|a l IH].
  - by apply not_elem_of_nil in Hx.
  - rewrite fmap_cons in Hnd. apply NoDup_cons in Hnd as [Ha Hnd].
    rewrite filter_cons. apply elem_of_cons in Hx as [-> | Hx].
    + by rewrite decide_True.
    + rewrite decide_False; [by apply IH|].
      intros Heq. apply Ha. rewrite Heq. by apply list_elem_of_fmap_2.
Qed.

(** ** Uniqueness of short codes *)

(** C1. In every reachable state two different rows of [links] have
    different short codes, whatever their [is_active] flags are, and an
    INSERT that repeats the short code of a stored link, active or
    disabled, is rejected and leaves the table as it was. *)
Theorem short_code_unique (d : db) :
  reachable d →
  (∀ i j l1 l2,
     links d !! i = Some l1 → links d !! j = Some l2 → i ≠ j →
     Link.short_code l1 ≠ Link.short_code l2) ∧
  (∀ l now u kw,
     l ∈ links d → Link.kw_short_code kw = Some (Link.short_code l) →
     (∃ e, add_link d now u kw = Err e) ∧
     after d (add_link d now u kw) = d).
Proof.
  intros Hd%reachable_consistent. split.
  - intros i j l1 l2 Hi Hj Hij Heq. apply Hij.
    eapply (NoDup_fmap_lookup Link.short_code); eauto using links_short_code_unique.
  - intros l now u kw Hl Hkw.
    destruct (add_link d now u kw) as [d'|e] eqn:E; [|eauto].
    exfalso. apply add_link_Ok in E as (row & Hrow & Hins).
    apply link_row_Ok in Hrow as (code & url & Hcode & _ & ->).
    apply insert_link_Ok in Hins as (_ & _ & Hfresh & _). cbn in Hfresh.
    apply Hfresh. rewrite Hkw in Hcode. injection Hcode as <-.
    by apply list_elem_of_fmap_2.
Qed.

(** ** Cascading delete *)

Lemma click_events_of_delete d i d' :
  delete_link d i = Ok d' → click_events_of d' i = [].
Proof.
  intros (_ & ->)%delete_link_Ok. unfold click_events_of. cbn.
  destruct (filter _ (filter _ _)) as [|e k] eqn:E; [done|].
  assert (e ∈ e :: k) as He by apply list_elem_of_here.
  rewrite <- E in He.
  apply list_elem_of_filter in He as [Heq [Hne _]%list_elem_of_filter]. done.
Qed.

(** C2. In every reachable state each click event references a stored link.
    Deleting a link is one step, after which neither the link nor any click
    event that references it is stored, a click count scoped to its id is
    zero, the click events of the other links are all still there, and
    the state reached is again one in which every click event references a
    stored link. *)
Theorem delete_cascades (d : db) :
  reachable d →
  (∀ e, e ∈ click_events d →
     ∃ l, l ∈ links d ∧ Link.id l = ClickEvent.link_id e) ∧
  (∀ i d',
     delete_link d i = Ok d' →
     step d d' ∧
     (∀ l, l ∈ links d' → Link.id l ≠ i) ∧
     (∀ e, e ∈ click_events d' → ClickEvent.link_id e ≠ i) ∧
     count_clicks d' i = 0%nat ∧
     (∀ e, e ∈ click_events d → ClickEvent.link_id e ≠ i →
        e ∈ click_events d') ∧
     (∀ e, e ∈ click_events d' →
        ∃ l, l ∈ links d' ∧ Link.id l = ClickEvent.link_id e)).
Proof.
  intros Hd. assert (∀ d0, consistent d0 → ∀ e, e ∈ click_events d0 →
    ∃ l, l ∈ links d0 ∧ Link.id l = ClickEvent.link_id e) as Hfk.
  { intros d0 Hd0 e He. apply (click_events_fk _ Hd0) in He.
    apply list_elem_of_fmap in He as (l & Hl & Hin). eauto. }
  apply reachable_consistent in Hd. split; [by apply Hfk|].
  intros i d' Hdel. split_and!.
  - by eapply step_delete_link.
  - apply delete_link_Ok in Hdel as (_ & ->). cbn.
    by intros l [Hne _]%list_elem_of_filter.
  - apply delete_link_Ok in Hdel as (_ & ->). cbn.
    by intros e [Hne _]%list_elem_of_filter.
  - unfold count_clicks. by rewrite (click_events_of_delete d i d').
  - apply delete_link_Ok in Hdel as (_ & ->). cbn.
    intros e He Hne. by apply list_elem_of_filter.
  - apply Hfk. by eapply consistent_delete_link.
Qed.

(** ** Soft-disable *)

(** C5. Disabling a stored link succeeds and changes nothing but that
    link's [is_active] and [updated_at]: the row count of [links] is the
    same, resolving the link's short code returns the link, now inactive,
    and the click events, those of the link, their count and the most
    recent ones are what they were. *)
Theorem disable_keeps_link_and_history (d : db) (now : datetime) (l : Link.t) :
  reachable d → l ∈ links d →
  ∃ d',
    disable d now (Link.id l) = Ok d' ∧
    length (links d') = length (links d) ∧
    resolve d' (Link.short_code l)
      = Ok (Link.mk (Link.id l) (Link.short_code l) (Link.original_url l)
              false (Link.is_custom_code l) (Link.created_at l) now) ∧
    click_events d' = click_events d ∧
    click_events_of d' (Link.id l) = click_events_of d (Link.id l) ∧
    count_clicks d' (Link.id l) = count_clicks d (Link.id l) ∧
    (∀ n, recent_clicks d' (Link.id l) n = recent_clicks d (Link.id l) n).
Proof.
  intros Hd%reachable_consistent Hl.
  assert (Link.id l ∈ link_ids d) as Hid by by apply list_elem_of_fmap_2.
  destruct (disable d now (Link.id l)) as [d'|e] eqn:E.
  2: { unfold disable, update_link in E.
       rewrite bool_decide_eq_true_2 in E by done. discriminate E. }
  exists d'. split; [done|].
  pose proof (consistent_update_link _ _ _ _ _ Hd E) as Hd'.
  apply update_link_Ok in E as (_ & ->). cbn. split_and!; try done.
  - by rewrite length_fmap.
  - unfold resolve, query_link_by_short_code. cbn.
    rewrite (head_filter_key Link.short_code _
               (updated now (Link.id l) (SetIsActive false) l)).
    + unfold updated. by rewrite bool_decide_eq_true_2.
    + apply (links_short_code_unique _ Hd').
    + by apply list_elem_of_fmap_2.
    + apply updated_short_code.
Qed.

(** ** Recording clicks *)

Lemma recent_clicks_elem_of d i n e :
  e ∈ recent_clicks d i n → e ∈ click_events d ∧ ClickEvent.link_id e = i.
Proof.
  unfold recent_clicks, click_events_of. intros He.
  pose proof (elem_of_sublist _ _ _ He (sublist_take _ _)) as He'.
  clear He. rename He' into He.
  rewrite merge_sort_Permutation in He.
  apply list_elem_of_filter in He as [? ?]. done.
Qed.

(** C7. A click event whose [ip_address] and [user_agent] are both left out
    is accepted for any stored link and fresh event id; the stored row has
    [None] in both columns, and so has every row with that id that the
    table, the link's relationship or the most-recent query returns. The
    most-recent query returns the event when asked for all of the link's
    clicks. *)
Theorem anonymous_click_recorded (d : db) (now : datetime) (u lid : uuid)
    (kw : ClickEvent.kwargs) :
  ClickEvent.kw_link_id kw = Some lid →
  ClickEvent.kw_ip_address kw = None →
  ClickEvent.kw_user_agent kw = None →
  lid ∈ link_ids d →
  default u (ClickEvent.kw_id kw) ∉ click_ids d →
  ∃ d' e,
    add_click d now u kw = Ok d' ∧
    click_events d' = click_events d ++ [e] ∧
    ClickEvent.id e = default u (ClickEvent.kw_id kw) ∧
    ClickEvent.ip_address e = None ∧
    ClickEvent.user_agent e = None ∧
    e ∈ click_events_of d' lid ∧
    e ∈ recent_clicks d' lid (count_clicks d' lid) ∧
    (∀ e', e' ∈ click_events d' → ClickEvent.id e' = ClickEvent.id e →
       ClickEvent.ip_address e' = None ∧ ClickEvent.user_agent e' = None) ∧
    (∀ n e', e' ∈ recent_clicks d' lid n → ClickEvent.id e' = ClickEvent.id e →
       ClickEvent.ip_address e' = None ∧ ClickEvent.user_agent e' = None).
Proof.
  intros Hlid Hip Hua Hin Hfresh.
  set (e := ClickEvent.mk (default u (ClickEvent.kw_id kw)) lid
              (default now (ClickEvent.kw_clicked_at kw)) None None).
  exists (mk_db (backend d) (links d) (click_events d ++ [e])), e.
  assert (e ∈ click_events_of
            (mk_db (backend d) (links d) (click_events d ++ [e])) lid) as Hrel.
  { unfold click_events_of. cbn. apply list_elem_of_filter. split; [done|].
    apply elem_of_app. right. apply list_elem_of_singleton. done. }
  assert (∀ e', e' ∈ click_events d ++ [e] → ClickEvent.id e' = ClickEvent.id e →
            ClickEvent.ip_address e' = None ∧ ClickEvent.user_agent e' = None)
    as Hall.
  { intros e' [He' | ->%list_elem_of_singleton]%elem_of_app Hide; [|done].
    exfalso. apply Hfresh. cbn in Hide. rewrite <- Hide.
    by apply list_elem_of_fmap_2. }
  split_and!; try done.
  - unfold add_click, click_row. rewrite Hlid, Hip, Hua. cbn.
    unfold insert_click. cbn.
    rewrite !bool_decide_eq_true_2 by done. done.
  - unfold recent_clicks, count_clicks.
    rewrite <- (Permutation_length (merge_sort_Permutation newest_first _)).
    rewrite firstn_all. by rewrite merge_sort_Permutation.
  - intros n e' [He' _]%recent_clicks_elem_of Hide. by apply Hall.
Qed.

(** C6, as the code has it. The [clicked_at] of a recorded click event is
    the server's time at the INSERT when the caller passes none, which is
    how [record_click] writes it, and it is the caller's value when the
    caller passes one, as the seeding script and the fixtures do to
    backdate history. *)
Theorem clicked_at_server_default (d d' : db) (now : datetime) (u : uuid)
    (kw : ClickEvent.kwargs) :
  add_click d now u kw = Ok d' →
  ∃ e,
    click_events d' = click_events d ++ [e] ∧
    ClickEvent.clicked_at e = default now (ClickEvent.kw_clicked_at kw) ∧
    (ClickEvent.kw_clicked_at kw = None → ClickEvent.clicked_at e = now) ∧
    (∀ lid ip ua,
       kw = ClickEvent.mk_kwargs None (Some lid) None ip ua →
       record_click d now u lid ip ua = Ok d' ∧ ClickEvent.clicked_at e = now).
Proof.
  intros H. pose proof H as H0.
  apply add_click_Ok in H as (row & Hrow & Hins).
  apply click_row_Ok in Hrow as (lid & Hlid & ->).
  apply insert_click_Ok in Hins as (_ & _ & ->).
  eexists. split; [reflexivity|]. cbn. split_and!.
  - done.
  - by intros ->.
  - intros lid' ip ua ->. done.
Qed.

(** ** Creating links *)

(** C3, as the code has it. A link is stored only with a [short_code]: an
    INSERT without one is rejected, by NOT NULL when the driver sends the
    other values, and stores nothing; and the [short_code] of the row that
    an INSERT stores has at most 32 characters on PostgreSQL. Nothing else
    is checked: a code that the driver sends, that fits the column and that
    is not in use is stored as it was given, whatever its length and its
    characters. *)
Theorem short_code_required_not_validated (d : db) (now : datetime)
    (u : uuid) (kw : Link.kwargs) :
  (Link.kw_short_code kw = None →
     (∃ e, add_link d now u kw = Err e) ∧
     after d (add_link d now u kw) = d ∧
     (link_texts_ok (backend d) kw = true →
      ∃ c, add_link d now u kw = Err (IntegrityError (NotNull c)))) ∧
  (∀ d', add_link d now u kw = Ok d' →
     ∃ l, links d' = links d ++ [l] ∧
          is_Some (Link.kw_short_code kw) ∧
          (backend d = PostgreSQL →
           (utf8_length (Link.short_code l) ≤ 32)%nat)) ∧
  (∀ code url,
     Link.kw_short_code kw = Some code →
     Link.kw_original_url kw = Some url →
     link_texts_ok (backend d) kw = true →
     varchar_fits (backend d) 32 code = true →
     uuid_kept (backend d) (default u (Link.kw_id kw)) = true →
     default u (Link.kw_id kw) ∉ link_ids d →
     code ∉ short_codes d →
     ∃ d' l, add_link d now u kw = Ok d' ∧
             links d' = links d ++ [l] ∧
             Link.short_code l = code).
Proof.
  split_and!.
  - intros Hcode.
    assert (add_link d now u kw
            = Err (IntegrityError (NotNull "links.short_code"))) as He.
    { unfold add_link, link_row. by rewrite Hcode. }
    rewrite He. split_and!; eauto.
  - intros d' H. apply add_link_Ok in H as (row & Hrow & Hins).
    apply link_row_Ok in Hrow as (code & url & Hcode & _ & ->).
    apply insert_link_Ok in Hins as (Hfit & _ & _ & ->). cbn in Hfit.
    eexists. split_and!; [reflexivity | by rewrite Hcode |].
    intros Hb. cbn. rewrite Hb in Hfit. by apply bool_decide_eq_true in Hfit.
  - intros code url Hcode Hurl _ Hfit _ Hid Hsc.
    unfold add_link, link_row, insert_link. rewrite Hcode, Hurl. cbn.
    rewrite Hfit. cbn. rewrite !bool_decide_eq_true_2 by done. cbn.
    eexists _, _. split_and!; reflexivity.
Qed.

(** C4, as the code has it. An INSERT into [links] without an
    [original_url] is rejected and stores nothing. The error is the
    violation of NOT NULL when the driver sends the short code and the
    short code fits its column; on PostgreSQL a short code of more than 32
    characters, none of them a space, is reported first, as a data error.
    Every INSERT that succeeds appends one row that holds the
    [original_url] it was given, which may be the empty string. *)
Theorem original_url_not_null (d : db) (now : datetime) (u : uuid)
    (kw : Link.kwargs) :
  (Link.kw_original_url kw = None →
     (∃ e, add_link d now u kw = Err e) ∧
     after d (add_link d now u kw) = d ∧
     (link_texts_ok (backend d) kw = true →
      from_option (varchar_fits (backend d) 32) true (Link.kw_short_code kw)
        = true →
      ∃ c, add_link d now u kw = Err (IntegrityError (NotNull c))) ∧
     (∀ code,
        backend d = PostgreSQL →
        Link.kw_short_code kw = Some code →
        (32 < utf8_length code)%nat →
        has_char Ascii.Space code = false →
        link_texts_ok PostgreSQL kw = true →
        add_link d now u kw = Err (DataError "links.short_code"))) ∧
  (∀ d', add_link d now u kw = Ok d' →
     ∃ url l,
       Link.kw_original_url kw = Some url ∧
       links d' = links d ++ [l] ∧
       Link.original_url l = url).
Proof.
  split.
  - intros Hurl.
    assert (∃ e, add_link d now u kw = Err e) as [e He].
    { destruct (add_link d now u kw) as [d'|e] eqn:E; [|eauto]. exfalso.
      apply add_link_Ok in E as (row & Hrow & _).
      apply link_row_Ok in Hrow as (code & url & _ & Hsome & _). congruence. }
    split_and!; [eauto | by rewrite He | |].
    + intros _ Hfit. unfold add_link, link_row. rewrite Hfit, Hurl.
      destruct (Link.kw_short_code kw); cbn; eauto.
    + intros code Hb Hcode Hlen _ _. unfold add_link.
      rewrite Hcode, Hb. cbn.
      assert (¬ (utf8_length code ≤ 32)%nat) as Hn by (clear -Hlen; lia).
      by rewrite (bool_decide_eq_false_2 _ Hn).
  - intros d' H. apply add_link_Ok in H as (row & Hrow & Hins).
    apply link_row_Ok in Hrow as (code & url & _ & Hurl & ->).
    apply insert_link_Ok in Hins as (_ & _ & _ & ->).
    exists url. eexists. split_and!; [done | reflexivity | done].
Qed.

(** ** Timestamps of a link *)

Lemma elem_of_updated now i a (ls : list Link.t) l' :
  l' ∈ updated now i a <$> ls → ∃ l, l ∈ ls ∧ l' = updated now i a l.
Proof. intros (l & -> & Hl)%list_elem_of_fmap. eauto. Qed.

Lemma step_created_at d d' l l' :
  consistent d → step d d' →
  l ∈ links d → l' ∈ links d' → Link.id l' = Link.id l →
  Link.created_at l' = Link.created_at l.
Proof.
  intros Hd Hstep Hl Hl' Hid.
  pose proof (links_pk _ Hd) as Hpk.
  destruct Hstep as
    [d now u kw d' H | d now u kw d' H | d now i a d' H | d i d' H].
  - apply add_link_Ok in H as (row & _ & H).
    apply insert_link_Ok in H as (_ & Hfresh & _ & ->). cbn in Hl'.
    apply elem_of_app in Hl' as [Hl' | ->%list_elem_of_singleton].
    + by rewrite (NoDup_fmap_elem_of Link.id _ l' l Hpk).
    + exfalso. apply Hfresh. rewrite Hid. by apply list_elem_of_fmap_2.
  - apply add_click_Ok in H as (row & _ & H).
    apply insert_click_Ok in H as (_ & _ & ->). cbn in Hl'.
    by rewrite (NoDup_fmap_elem_of Link.id _ l' l Hpk).
  - apply update_link_Ok in H as (_ & ->). cbn in Hl'.
    apply elem_of_updated in Hl' as (l0 & Hl0 & ->).
    rewrite updated_id in Hid. rewrite updated_created_at.
    by rewrite (NoDup_fmap_elem_of Link.id _ l0 l Hpk).
  - apply delete_link_Ok in H as (_ & ->). cbn in Hl'.
    apply list_elem_of_filter in Hl' as [_ Hl'].
    by rewrite (NoDup_fmap_elem_of Link.id _ l' l Hpk).
Qed.

Lemma update_link_updated_at d now i a d' l' :
  update_link d now i a = Ok d' →
  l' ∈ links d' → Link.id l' = i → Link.updated_at l' = now.
Proof.
  intros (_ & ->)%update_link_Ok Hl' Hid. cbn in Hl'.
  apply elem_of_updated in Hl' as (l & _ & ->).
  rewrite updated_id in Hid. unfold updated.
  rewrite bool_decide_eq_true_2 by done. by destruct a.
Qed.

Lemma mutate_update_link m d now i d' :
  mutate m d now i = Ok d' → ∃ a, update_link d now i a = Ok d'.
Proof.
  destruct m; cbn; unfold disable, enable, update_url; intros H; eauto.
  inv_result. eauto.
Qed.

(** C9. An INSERT sets [created_at] (to the server's time unless the
    caller passes a value), and no step from a reachable state changes the
    [created_at] of a link that stays. Disabling, enabling or re-targeting
    a link leaves the link in place with its [created_at] and sets its
    [updated_at] to the time of the mutation, also when the flag already
    had the value it is set to. *)
Theorem created_at_fixed_updated_at_bumped (d : db) :
  reachable d →
  (∀ now u kw d',
     add_link d now u kw = Ok d' →
     ∃ l, links d' = links d ++ [l] ∧
          Link.created_at l = default now (Link.kw_created_at kw)) ∧
  (∀ d' l l',
     step d d' → l ∈ links d → l' ∈ links d' → Link.id l' = Link.id l →
     Link.created_at l' = Link.created_at l) ∧
  (∀ m now i d',
     mutate m d now i = Ok d' →
     step d d' ∧
     ∃ l l',
       l ∈ links d ∧ Link.id l = i ∧
       l' ∈ links d' ∧ Link.id l' = i ∧
       Link.created_at l' = Link.created_at l ∧
       Link.updated_at l' = now ∧
       (∀ l'', l'' ∈ links d' → Link.id l'' = i → l'' = l')).
Proof.
  intros Hd%reachable_consistent. split_and!.
  - intros now u kw d' H. apply add_link_Ok in H as (row & Hrow & Hins).
    apply link_row_Ok in Hrow as (code & url & _ & _ & ->).
    apply insert_link_Ok in Hins as (_ & _ & _ & ->).
    eexists. split; reflexivity.
  - intros d' l l' Hstep. by apply step_created_at.
  - intros m now i d' (a & H)%mutate_update_link.
    assert (step d d') as Hstep by by eapply step_update_link.
    split; [done|].
    pose proof (consistent_step _ _ Hd Hstep) as Hd'.
    pose proof H as (Hin & Heq)%update_link_Ok.
    apply list_elem_of_fmap in Hin as (l & Hid & Hl).
    exists l, (updated now i a l).
    assert (updated now i a l ∈ links d') as Hl'.
    { rewrite Heq. cbn. by apply list_elem_of_fmap_2. }
    split_and!; try done.
    + by rewrite updated_id.
    + apply updated_created_at.
    + eapply update_link_updated_at; [done.. |]. by rewrite updated_id.
    + intros l'' Hl'' Hid''.
      apply (NoDup_fmap_elem_of Link.id (links d')); [apply Hd' | done..|].
      rewrite updated_id. congruence.
Qed.

(** ** Health reporting *)

Lemma overall_healthy (c : gmap string string) :
  overall c = "healthy" ↔ ∀ k v, c !! k = Some v → v = "ok".
Proof.
  unfold overall.
  assert (forallb (fun v => bool_decide (v = "ok")) (map_to_list c).*2 = true
          ↔ ∀ k v, c !! k = Some v → v = "ok") as <-.
  { rewrite <- Is_true_true, forallb_True, Forall_fmap, Forall_forall.
    split.
    - intros H k v Hkv. apply elem_of_map_to_list in Hkv.
      apply H in Hkv. cbn in Hkv. by apply bool_decide_unpack in Hkv.
    - intros H [k v] Hkv%elem_of_map_to_list. cbn.
      apply bool_decide_pack. eauto. }
  destruct (forallb _ _); split; done.
Qed.

Lemma overall_cases (c : gmap string string) :
  overall c = "healthy" ∨ overall c = "degraded".
Proof. unfold overall. destruct (forallb _ _); eauto. Qed.

Lemma health_check_returns (s : store) :
  ∃ b, health_check s = Returns b ∧ (b = true ↔ round_trip_succeeds s).
Proof.
  unfold round_trip_succeeds.
  destruct s as [[[]|] [[]|] [[]|]]; cbn;
    (eexists; split; [reflexivity|]); split; intros; by intuition.
Qed.

Lemma check_redis_returns (r : option redis_client) :
  ∃ b, check_redis r = Returns b ∧
       (b = true ↔ ∀ c, r = Some c → ping c = None).
Proof.
  destruct r as [[[f|]]|]; cbn.
  - exists false. split; [by destruct f|]. split; [done|].
    intros H. by specialize (H _ eq_refl).
  - exists true. split; [done|]. split; [|done]. by intros _ c [= <-].
  - exists true. split; [done|]. split; done.
Qed.

Lemma get_health_status_async_returns s r clock db_ok redis_ok :
  health_check s = Returns db_ok → check_redis r = Returns redis_ok →
  get_health_status_async s r clock
  = Returns (mk_payload (overall (async_checks db_ok redis_ok r)) VERSION clock
               (async_checks db_ok redis_ok r)).
Proof.
  intros Hdb Hr. unfold get_health_status_async, check_database.
  rewrite Hdb. cbn. rewrite Hr. cbn. by destruct r.
Qed.

Lemma async_checks_database db_ok redis_ok r :
  async_checks db_ok redis_ok r !! "database" = Some (ok_or_error db_ok).
Proof.
  unfold async_checks.
  destruct r; rewrite ?lookup_insert_ne by done; by rewrite lookup_insert_eq.
Qed.

Lemma health_returns s clock db_ok :
  health_check s = Returns db_ok →
  health s clock
  = Returns (mk_JSONResponse
               (mk_payload (overall (async_checks db_ok true None)) VERSION
                  clock (async_checks db_ok true None))
               (if bool_decide (overall (async_checks db_ok true None) = "healthy")
                then 200 else 503)).
Proof.
  intros Hdb. unfold health.
  by rewrite (get_health_status_async_returns s None clock db_ok true).
Qed.

Lemma overall_degraded (c : gmap string string) k :
  c !! k = Some "error" → overall c = "degraded".
Proof.
  intros Hk. destruct (overall_cases c) as [Hh | Hd]; [|done].
  pose proof (proj1 (overall_healthy c) Hh _ _ Hk). done.
Qed.

Lemma ok_or_error_ok b : ok_or_error b = "ok" ↔ b = true.
Proof. destruct b; cbn; split; done. Qed.

(** C8. The async health report always returns a payload. Its status is
    "healthy" exactly when every entry of [checks] is "ok" and is
    "degraded" otherwise; the "database" entry is always there and is "ok"
    exactly when the round trip of [SELECT 1] succeeds; the "redis" entry
    is there exactly when a client is given. The [/health] route answers
    with that payload (no Redis client), with HTTP 200 when its status is
    "healthy" and HTTP 503 otherwise. *)
Theorem health_status_healthy_iff_all_ok (s : store)
    (r : option redis_client) (clock : datetime) :
  (∃ p,
     get_health_status_async s r clock = Returns p ∧
     (status p = "healthy" ↔ ∀ k v, checks p !! k = Some v → v = "ok") ∧
     (status p ≠ "healthy" ↔ status p = "degraded") ∧
     (checks p !! "database" = Some "ok" ↔ round_trip_succeeds s) ∧
     (checks p !! "database" = Some "error" ↔ ¬ round_trip_succeeds s) ∧
     (checks p !! "redis" = None ↔ r = None) ∧
     (∀ k, is_Some (checks p !! k) → k = "database" ∨ k = "redis")) ∧
  (∃ resp,
     health s clock = Returns resp ∧
     get_health_status_async s None clock = Returns (content resp) ∧
     (status (content resp) = "healthy" ↔ status_code resp = 200) ∧
     (status (content resp) ≠ "healthy" ↔ status_code resp = 503)).
Proof.
  destruct (health_check_returns s) as (b & Hb & Hbt).
  destruct (check_redis_returns r) as (b' & Hb' & _).
  split.
  - eexists. split; [by apply get_health_status_async_returns|].
    cbn [status checks].
    split_and!.
    + apply overall_healthy.
    + destruct (overall_cases (async_checks b b' r)) as [-> | ->]; split; done.
    + rewrite async_checks_database, <- Hbt. destruct b; cbn; split; congruence.
    + rewrite async_checks_database, <- Hbt. destruct b; cbn; split; congruence.
    + unfold async_checks.
      destruct r; [rewrite lookup_insert_eq | rewrite lookup_insert_ne by done];
        split; done.
    + intros k [v Hk]. destruct (decide (k = "database")) as [|Hd]; [eauto|].
      destruct (decide (k = "redis")) as [|Hr]; [eauto|]. exfalso.
      unfold async_checks in Hk.
      destruct r; rewrite ?lookup_insert_ne in Hk by done; done.
  - eexists. split; [by apply health_returns|].
    cbn [content status status_code].
    split; [by apply get_health_status_async_returns|].
    case_bool_decide; split; split; intros; try tauto; try lia.
Qed.

(** C10. Whatever the backing store does on connecting, on [SELECT 1] and
    on releasing the connection, [health_check] returns a boolean and
    raises nothing, and so does [check_database]; the boolean is [True]
    exactly when all three succeed. On any failure it is [False], and the
    health report then returns with status "degraded" and the route
    answers 503. *)
Theorem health_check_total (s : store) :
  (∃ b, health_check s = Returns b ∧ check_database s = Returns b ∧
        (b = true ↔ round_trip_succeeds s)) ∧
  (¬ round_trip_succeeds s →
     health_check s = Returns false ∧
     (∀ r clock, ∃ p,
        get_health_status_async s r clock = Returns p ∧
        status p = "degraded") ∧
     (∀ clock, ∃ resp,
        health s clock = Returns resp ∧ status_code resp = 503)).
Proof.
  destruct (health_check_returns s) as (b & Hb & Hbt).
  split; [by exists b|].
  intros Hfail. assert (b = false) as -> by (destruct b; [tauto | done]).
  split_and!; [done | |].
  - intros r clock. destruct (check_redis_returns r) as (b' & Hb' & _).
    eexists. split; [by apply get_health_status_async_returns|].
    cbn [status].
    apply (overall_degraded _ "database"), async_checks_database.
  - intros clock. eexists. split; [by apply health_returns|].
    cbn [status_code].
    rewrite (overall_degraded _ "database"); [done|].
    apply async_checks_database.
Qed.

(** ** Concrete runs *)

Example add_link_first :
  links <$> add_link (empty_db SQLite) 100 7%N
     (Link.mk_kwargs None (Some "abc123") (Some "https://example.com")
        None None None None)
  = Ok [Link.mk 7%N "abc123" "https://example.com" true false 100 100].
Proof. vm_compute. reflexivity. Qed.

Example accented_code_stored :
  String.length accented_code = 34%nat ∧
  utf8_length accented_code = 17%nat ∧
  links <$> add_link (empty_db PostgreSQL) 100 171%N
     (Link.mk_kwargs None (Some accented_code) (Some "https://example.com")
        None None None None)
  = Ok [Link.mk 171%N accented_code "https://example.com" true false 100 100].
Proof. vm_compute. split_and!; reflexivity. Qed.

Example seed_counts :
  (fun d => (length (links d), length (click_events d)))
    <$> seed uuid4_counter sample_clock sample_clock (empty_db PostgreSQL)
  = Ok (12%nat, 26%nat).
Proof. vm_compute. reflexivity. Qed.

Lemma sample_db_reachable : reachable sample_db.
Proof.
  exists SQLite.
  eapply rtc_l.
  { apply (step_add_link _ 100 1%N
             (Link.mk_kwargs None (Some "abc123") (Some "https://example.com")
                None None None None)).
    vm_compute. reflexivity. }
  eapply rtc_l.
  { apply (step_add_link _ 0 0%N
             (Link.mk_kwargs (Some 2%N) (Some "old-sale")
                (Some "https://www.example.com/promo/blackfriday-2024")
                (Some false) (Some true) (Some 10) (Some 40))).
    vm_compute. reflexivity. }
  eapply rtc_l.
  { apply (step_add_click _ 0 10%N
             (ClickEvent.mk_kwargs None (Some 2%N) (Some 50) None None)).
    vm_compute. reflexivity. }
  apply rtc_refl.
Defined.

Lemma history_db_reachable (b : dialect) : reachable (history_db b).
Proof.
  exists b.
  eapply rtc_l.
  { apply (step_add_link _ 100 161%N
             (Link.mk_kwargs None (Some "gh") (Some "https://github.com")
                None (Some true) None None)).
    destruct b; vm_compute; reflexivity. }
  eapply rtc_l.
  { apply (step_add_link _ 0 0%N
             (Link.mk_kwargs (Some 162%N) (Some "old-sale")
                (Some "https://www.example.com/promo/blackfriday-2024")
                (Some false) (Some true) (Some 10) (Some 40))).
    destruct b; vm_compute; reflexivity. }
  eapply rtc_l.
  { apply (step_add_click _ 120 171%N
             (ClickEvent.mk_kwargs None (Some 161%N) None
                (Some "203.0.113.1") (Some "curl/8.4.0"))).
    destruct b; vm_compute; reflexivity. }
  eapply rtc_l.
  { apply (step_add_click _ 130 172%N
             (ClickEvent.mk_kwargs None (Some 161%N) None None None)).
    destruct b; vm_compute; reflexivity. }
  apply rtc_refl.
Defined.

(** C3, counterexample. Seeding an empty database on the default backend
    commits, and the first row it writes has the short code "gh": two
    characters, which is not the documented format of 3 to 32 characters.
    The same INSERT path accepts a one-character code outside the
    documented alphabet. *)
Lemma seed_stores_undocumented_short_code :
  ∃ d l,
    seed uuid4_counter sample_clock sample_clock
      (empty_db (dialect_of_url DATABASE_URL_default)) = Ok d ∧
    head (links d) = Some l ∧
    Link.short_code l = "gh" ∧
    String.length (Link.short_code l) = 2%nat ∧
    short_code_documented (Link.short_code l) = false ∧
    (∃ d', add_link d 0 99%N
             (Link.mk_kwargs None (Some "!") (Some "https://example.com")
                None None None None) = Ok d').
Proof.
  eexists _, _. split; [vm_compute; reflexivity|].
  split; [reflexivity|]. split; [reflexivity|]. split; [reflexivity|].
  split; [reflexivity|]. eexists. vm_compute. reflexivity.
Qed.

(** C4, counterexample. A link whose [original_url] is the empty string is
    inserted without an error, on either backend, and the stored
    [original_url] is empty. *)
Lemma empty_original_url_is_stored :
  ∃ l,
    add_link (empty_db SQLite) 100 7%N
      (Link.mk_kwargs None (Some "abc123") (Some "") None None None None)
    = Ok (mk_db SQLite [l] []) ∧
    add_link (empty_db PostgreSQL) 100 7%N
      (Link.mk_kwargs None (Some "abc123") (Some "") None None None None)
    = Ok (mk_db PostgreSQL [l] []) ∧
    Link.original_url l = "".
Proof. eexists. split_and!; reflexivity. Qed.

(** C6, counterexample. The fixture [sample_click_event] passes
    [clicked_at=_utc(hours_ago=2)]; the row that is stored carries that
    value, two hours before the server's time at the INSERT. *)
Lemma clicked_at_is_caller_supplied :
  ∃ d' e,
    add_click (mk_db SQLite [sample_link] []) sample_clock 10%N
      (ClickEvent.mk_kwargs (Some 10%N) (Some 1%N)
         (Some (_utc sample_clock 0 2)) (Some "203.0.113.42") None)
    = Ok d' ∧
    click_events d' = [e] ∧
    ClickEvent.clicked_at e = sample_clock - 7200000000 ∧
    ClickEvent.clicked_at e ≠ sample_clock.
Proof.
  eexists _, _. split; [vm_compute; reflexivity|].
  split; [reflexivity|]. split; [reflexivity|]. vm_compute. discriminate.
Qed.

(** ** The theorems at the sample database *)

Lemma short_code_unique_witness :
  reachable sample_db ∧
  (∀ i j l1 l2,
     links sample_db !! i = Some l1 → links sample_db !! j = Some l2 → i ≠ j →
     Link.short_code l1 ≠ Link.short_code l2) ∧
  (∀ l now u kw,
     l ∈ links sample_db → Link.kw_short_code kw = Some (Link.short_code l) →
     (∃ e, add_link sample_db now u kw = Err e) ∧
     after sample_db (add_link sample_db now u kw) = sample_db).
Proof.
  split; [exact sample_db_reachable|].
  exact (short_code_unique sample_db sample_db_reachable).
Defined.

Lemma delete_cascades_witness :
  reachable sample_db ∧
  ∃ d',
    delete_link sample_db 2%N = Ok d' ∧
    step sample_db d' ∧
    (∀ l, l ∈ links d' → Link.id l ≠ 2%N) ∧
    (∀ e, e ∈ click_events d' → ClickEvent.link_id e ≠ 2%N) ∧
    count_clicks d' 2%N = 0%nat.
Proof.
  split; [exact sample_db_reachable|].
  eexists. split; [vm_compute; reflexivity|].
  destruct (delete_cascades sample_db sample_db_reachable) as [_ H].
  destruct (H 2%N _ eq_refl) as (? & ? & ? & ? & _).
  split_and!; assumption.
Defined.

Lemma disable_keeps_link_and_history_witness :
  reachable (history_db PostgreSQL) ∧
  github_link ∈ links (history_db PostgreSQL) ∧
  count_clicks (history_db PostgreSQL) 161%N = 2%nat ∧
  ∃ d',
    disable (history_db PostgreSQL) 500 161%N = Ok d' ∧
    length (links d') = 2%nat ∧
    resolve d' "gh"
      = Ok (Link.mk 161%N "gh" "https://github.com" false true 100 500) ∧
    click_events d' = click_events (history_db PostgreSQL) ∧
    click_events_of d' 161%N
      = [ClickEvent.mk 171%N 161%N 120 (Some "203.0.113.1")
           (Some "curl/8.4.0");
         ClickEvent.mk 172%N 161%N 130 None None] ∧
    count_clicks d' 161%N = 2%nat ∧
    (∀ n, recent_clicks d' 161%N n
          = recent_clicks (history_db PostgreSQL) 161%N n).
Proof.
  assert (github_link ∈ links (history_db PostgreSQL)) as Hin
    by apply list_elem_of_here.
  split; [exact (history_db_reachable PostgreSQL)|]. split; [exact Hin|].
  split; [reflexivity|].
  destruct (disable_keeps_link_and_history (history_db PostgreSQL) 500
              github_link (history_db_reachable PostgreSQL) Hin)
    as (d' & H1 & H2 & H3 & H4 & H5 & H6 & H7).
  exists d'. split_and!;
    [exact H1 | exact H2 | exact H3 | exact H4 | exact H5 | exact H6 | exact H7].
Defined.

Lemma anonymous_click_recorded_witness :
  ∃ d' e,
    add_click sample_db 500 11%N
      (ClickEvent.mk_kwargs None (Some 1%N) None None None) = Ok d' ∧
    click_events d' = click_events sample_db ++ [e] ∧
    ClickEvent.id e = 11%N ∧
    ClickEvent.ip_address e = None ∧
    ClickEvent.user_agent e = None ∧
    e ∈ recent_clicks d' 1%N (count_clicks d' 1%N).
Proof.
  destruct (anonymous_click_recorded sample_db 500 11%N 1%N
              (ClickEvent.mk_kwargs None (Some 1%N) None None None)
              eq_refl eq_refl eq_refl)
    as (d' & e & H1 & H2 & H3 & H4 & H5 & _ & H7 & _).
  - vm_compute. apply list_elem_of_here.
  - vm_compute. intros H. apply list_elem_of_singleton in H. discriminate H.
  - exists d', e. split_and!; assumption.
Defined.

Lemma clicked_at_server_default_witness :
  ∃ d' e,
    add_click sample_db 500 11%N
      (ClickEvent.mk_kwargs None (Some 1%N) None (Some "203.0.113.42") None)
    = Ok d' ∧
    click_events d' = click_events sample_db ++ [e] ∧
    ClickEvent.clicked_at e = 500.
Proof.
  eexists.
  destruct (clicked_at_server_default sample_db _ 500 11%N
              (ClickEvent.mk_kwargs None (Some 1%N) None (Some "203.0.113.42") None)
              eq_refl)
    as (e & H1 & H2 & _).
  exists e. split_and!; [reflexivity | exact H1 | exact H2].
Defined.

Lemma short_code_required_not_validated_witness :
  ∃ d' l,
    add_link (empty_db PostgreSQL) 500 171%N
      (Link.mk_kwargs None (Some "gh") (Some "https://github.com")
         None None None None) = Ok d' ∧
    links d' = links (empty_db PostgreSQL) ++ [l] ∧
    Link.short_code l = "gh".
Proof.
  refine (proj2 (proj2 (short_code_required_not_validated
                          (empty_db PostgreSQL) 500 171%N
                          (Link.mk_kwargs None (Some "gh")
                             (Some "https://github.com") None None None None)))
            "gh" "https://github.com" eq_refl eq_refl eq_refl eq_refl eq_refl
            _ _);
    apply not_elem_of_nil.
Defined.

Lemma original_url_not_null_witness :
  (∃ c, add_link (empty_db PostgreSQL) 500 3%N
          (Link.mk_kwargs None (Some "docs") None None None None None)
        = Err (IntegrityError (NotNull c))) ∧
  after (empty_db PostgreSQL)
    (add_link (empty_db PostgreSQL) 500 3%N
       (Link.mk_kwargs None (Some "docs") None None None None None))
  = empty_db PostgreSQL ∧
  add_link (empty_db PostgreSQL) 500 3%N
    (Link.mk_kwargs None (Some long_code) None None None None None)
  = Err (DataError "links.short_code").
Proof.
  destruct (proj1 (original_url_not_null (empty_db PostgreSQL) 500 3%N
                     (Link.mk_kwargs None (Some "docs") None None None None
                        None))
              eq_refl)
    as (_ & Hafter & Hnn & _).
  destruct (proj1 (original_url_not_null (empty_db PostgreSQL) 500 3%N
                     (Link.mk_kwargs None (Some long_code) None None None None
                        None))
              eq_refl)
    as (_ & _ & _ & Hlong).
  assert (32 < utf8_length long_code)%nat as Hlen by (vm_compute; lia).
  split_and!;
    [exact (Hnn eq_refl eq_refl) | exact Hafter
    | exact (Hlong long_code eq_refl eq_refl Hlen eq_refl eq_refl)].
Defined.

Lemma created_at_fixed_updated_at_bumped_witness :
  reachable sample_db ∧
  ∃ d' l',
    mutate Enable sample_db 500 2%N = Ok d' ∧
    step sample_db d' ∧
    l' ∈ links d' ∧ Link.id l' = 2%N ∧
    Link.created_at l' = Link.created_at inactive_link ∧
    Link.updated_at l' = 500.
Proof.
  split; [exact sample_db_reachable|].
  destruct (created_at_fixed_updated_at_bumped sample_db sample_db_reachable)
    as (_ & Hkeep & Hmut).
  destruct (Hmut Enable 500 2%N _ eq_refl)
    as (Hstep & l & l' & Hl & Hid & Hl' & Hid' & Hc & Hu & _).
  eexists _, l'. split; [reflexivity|]. split_and!; try assumption.
  apply (Hkeep _ inactive_link l' Hstep); [|exact Hl' | exact Hid'].
  apply list_elem_of_further, list_elem_of_here.
Defined.

Lemma health_status_healthy_iff_all_ok_witness :
  ∃ resp,
    health (mk_store None (Some TimedOut) None) sample_clock = Returns resp ∧
    status (content resp) = "degraded" ∧
    checks (content resp) !! "database" = Some "error" ∧
    status_code resp = 503.
Proof.
  destruct (health_status_healthy_iff_all_ok
              (mk_store None (Some TimedOut) None) None sample_clock)
    as [_ (resp & Hresp & _)].
  exists resp. split; [exact Hresp|].
  vm_compute in Hresp. injection Hresp as <-. vm_compute. done.
Defined.

Lemma health_check_total_witness :
  ¬ round_trip_succeeds (mk_store (Some Unreachable) None None) ∧
  health_check (mk_store (Some Unreachable) None None) = Returns false ∧
  ∃ resp,
    health (mk_store (Some Unreachable) None None) sample_clock = Returns resp ∧
    status_code resp = 503.
Proof.
  assert (¬ round_trip_succeeds (mk_store (Some Unreachable) None None)) as Hf.
  { intros [H _]. discriminate H. }
  split; [exact Hf|].
  destruct (health_check_total (mk_store (Some Unreachable) None None))
    as [_ H].
  destruct (H Hf) as (H1 & _ & H3). split; [exact H1 | exact (H3 sample_clock)].
Defined.

(** * Further properties of the code *)

(** ** Lookups *)

Lemma head_filter_elem_of {A} (P : A → Prop) `{∀ x, Decision (P x)}
    (l : list A) x :
  head (filter P l) = Some x → x ∈ l ∧ P x.
Proof.
  intros Hh. assert (x ∈ filter P l) as Hx.
  { destruct (filter P l) as [|y k]; [discriminate|].
    injection Hh as ->. apply list_elem_of_here. }
  apply list_elem_of_filter in Hx. tauto.
Qed.

Lemma head_filter_None {A} (P : A → Prop) `{∀ x, Decision (P x)}
    (l : list A) x :
  head (filter P l) = None → x ∈ l → ¬ P x.
Proof.
  intros Hh Hx HP. assert (x ∈ filter P l) as Hin by by apply list_elem_of_filter.
  destruct (filter P l); [by apply not_elem_of_nil in Hin | discriminate].
Qed.

Lemma head_filter_app {A} (P : A → Prop) `{∀ x, Decision (P x)}
    (l k : list A) x :
  head (filter P l) = Some x → head (filter P (l ++ k)) = Some x.
Proof.
  intros Hh. rewrite filter_app.
  destruct (filter P l); [discriminate | done].
Qed.

Lemma query_link_by_short_code_Some d code l :
  query_link_by_short_code d code = Some l →
  l ∈ links d ∧ Link.short_code l = code.
Proof.
  unfold query_link_by_short_code. intros H.
  by apply head_filter_elem_of in H.
Qed.

Lemma query_link_by_short_code_None d code :
  query_link_by_short_code d code = None → code ∉ short_codes d.
Proof.
  unfold short_codes. intros Hq Hc.
  apply list_elem_of_fmap in Hc as (l & -> & Hl).
  by apply (head_filter_None _ (links d) l) in Hq.
Qed.

Lemma query_link_by_short_code_is_Some d code :
  code ∈ short_codes d →
  ∃ l, query_link_by_short_code d code = Some l.
Proof.
  intros Hc. destruct (query_link_by_short_code d code) as [l|] eqn:E; [eauto|].
  by apply query_link_by_short_code_None in E.
Qed.

Lemma filter_none {A} (P : A → Prop) `{∀ x, Decision (P x)} (l : list A) :
  (∀ x, x ∈ l → ¬ P x) → filter P l = [].
Proof.
  intros Hl. destruct (filter P l) as [|x k] eqn:E; [done|].
  assert (x ∈ filter P l) as Hx by (rewrite E; apply list_elem_of_here).
  apply list_elem_of_filter in Hx as [HP Hx]. by apply Hl in Hx.
Qed.

Lemma head_filter_app_ne {A} (P : A → Prop) `{∀ x, Decision (P x)}
    (l : list A) y :
  ¬ P y → head (filter P (l ++ [y])) = head (filter P l).
Proof.
  intros Hy. rewrite filter_app, (filter_none P [y]), app_nil_r; [done|].
  by intros x ->%list_elem_of_singleton.
Qed.

Lemma head_filter_app_new {A} (P : A → Prop) `{∀ x, Decision (P x)}
    (l : list A) y :
  (∀ x, x ∈ l → ¬ P x) → P y → head (filter P (l ++ [y])) = Some y.
Proof.
  intros Hl Hy. rewrite filter_app, (filter_none P l) by done.
  rewrite app_nil_l, filter_cons, decide_True by done. done.
Qed.

(** ** Inserting and looking up *)

(** X1. After a link has been inserted, the lookup by its short code and
    the lookup by its id both return the row that was written, which
    carries the short code and URL that were passed and the column defaults
    for what was left out; the lookups of every other short code and id
    give what they gave before. This is for ids that the backend keeps as
    they were written, the new one and those of the stored links: every
    id on PostgreSQL and, on SQLite, the ids that are stored as text. *)
Theorem add_link_then_lookup (d d' : db) (now : datetime) (u : uuid)
    (kw : Link.kwargs) :
  link_ids_kept d = true →
  uuid_kept (backend d) (default u (Link.kw_id kw)) = true →
  add_link d now u kw = Ok d' →
  ∃ l,
    link_ids_kept d' = true ∧
    query_link_by_short_code d' (Link.short_code l) = Some l ∧
    query_link_by_id d' (Link.id l) = Some l ∧
    Link.kw_short_code kw = Some (Link.short_code l) ∧
    Link.kw_original_url kw = Some (Link.original_url l) ∧
    Link.id l = default u (Link.kw_id kw) ∧
    Link.is_active l = default true (Link.kw_is_active kw) ∧
    Link.is_custom_code l = default false (Link.kw_is_custom_code kw) ∧
    Link.updated_at l = default now (Link.kw_updated_at kw) ∧
    (∀ code, code ≠ Link.short_code l →
       query_link_by_short_code d' code = query_link_by_short_code d code) ∧
    (∀ i, i ≠ Link.id l → query_link_by_id d' i = query_link_by_id d i).
Proof.
  intros Hkept Hnew (row & Hrow & Hins)%add_link_Ok.
  apply link_row_Ok in Hrow as (code & url & Hcode & Hurl & ->).
  apply insert_link_Ok in Hins as (_ & Hid & Hsc & ->).
  match goal with Hid : Link.id ?r ∉ _ |- _ => exists r end.
  unfold query_link_by_short_code, query_link_by_id. cbn in *.
  split_and!; try done.
  - unfold link_ids_kept, link_ids in *. cbn. rewrite fmap_app, forallb_app.
    cbn. by rewrite Hkept, Hnew.
  - apply head_filter_app_new; [|done].
    intros x Hx Heq. apply Hsc. apply list_elem_of_fmap.
    exists x. split; [|exact Hx]. cbn in *. congruence.
  - apply head_filter_app_new; [|done].
    intros x Hx Heq. apply Hid. apply list_elem_of_fmap.
    exists x. split; [|exact Hx]. cbn in *. congruence.
  - intros code' Hne. apply head_filter_app_ne. cbn. congruence.
  - intros i Hne. apply head_filter_app_ne. cbn. congruence.
Qed.

(** X2. A click event for a link that is not stored is never written: the
    INSERT is rejected and the table is unchanged. When the driver sends
    the texts and the [ip_address] fits its column, the error with no
    [link_id] is the violation of NOT NULL, and the error with the id of a
    link that is not in [links] is the violation of the foreign key,
    provided the id of the event is not in use. On PostgreSQL an
    [ip_address] of more than 45 characters, none of them a space, is
    reported first, as a data error. On SQLite this is for ids that are
    stored as text. *)
Theorem add_click_unknown_link_rejected (d : db) (now : datetime) (u : uuid)
    (kw : ClickEvent.kwargs) :
  (∀ lid, ClickEvent.kw_link_id kw = Some lid →
     (lid ∉ link_ids d) ∧ uuid_kept (backend d) lid = true) →
  (∃ e, add_click d now u kw = Err e) ∧
  after d (add_click d now u kw) = d ∧
  (click_texts_ok (backend d) kw = true →
   from_option (varchar_fits (backend d) 45) true (ClickEvent.kw_ip_address kw)
     = true →
   (ClickEvent.kw_link_id kw = None →
      add_click d now u kw
      = Err (IntegrityError (NotNull "click_events.link_id"))) ∧
   (is_Some (ClickEvent.kw_link_id kw) →
    uuid_kept (backend d) (default u (ClickEvent.kw_id kw)) = true →
    default u (ClickEvent.kw_id kw) ∉ click_ids d →
      add_click d now u kw
      = Err (IntegrityError (ForeignKey "click_events.link_id")))) ∧
  (∀ ip,
     backend d = PostgreSQL →
     ClickEvent.kw_ip_address kw = Some ip →
     (45 < utf8_length ip)%nat →
     has_char Ascii.Space ip = false →
     click_texts_ok PostgreSQL kw = true →
     add_click d now u kw = Err (DataError "click_events.ip_address")).
Proof.
  intros Hfk.
  assert (∃ e, add_click d now u kw = Err e) as [e He].
  { destruct (add_click d now u kw) as [d'|e] eqn:E; [|eauto]. exfalso.
    apply add_click_Ok in E as (row & Hrow & Hins).
    apply click_row_Ok in Hrow as (lid & Hlid & ->).
    apply insert_click_Ok in Hins as (_ & Hin & _).
    by apply (proj1 (Hfk lid Hlid)). }
  split_and!.
  - eauto.
  - by rewrite He.
  - intros _ Hip. split.
    + intros Hnone. unfold add_click, click_row. rewrite Hip, Hnone. done.
    + intros [lid Hlid] _ Hid. unfold add_click, click_row.
      rewrite Hip, Hlid. cbn.
      unfold insert_click. cbn. rewrite Hip. cbn.
      rewrite (bool_decide_eq_true_2 _ Hid). cbn.
      rewrite (bool_decide_eq_false_2 _ (proj1 (Hfk lid Hlid))). done.
  - intros ip Hb Hip Hlen _ _. unfold add_click. rewrite Hip, Hb. cbn.
    assert (¬ (utf8_length ip ≤ 45)%nat) as Hn by (clear -Hlen; lia).
    by rewrite (bool_decide_eq_false_2 _ Hn).
Qed.

(** X3. The limit of 32 characters on [short_code] is enforced by
    PostgreSQL only: there a code of more than 32 characters, none of them
    a space, is rejected with a data error and nothing is stored, while on
    SQLite the same INSERT succeeds when the id and the code are not in
    use and the id is stored as text. *)
Theorem short_code_length_enforced_on_postgresql (d : db) (now : datetime)
    (u : uuid) (kw : Link.kwargs) (code url : string) :
  Link.kw_short_code kw = Some code →
  Link.kw_original_url kw = Some url →
  (32 < utf8_length code)%nat →
  (backend d = PostgreSQL →
   has_char Ascii.Space code = false →
   link_texts_ok PostgreSQL kw = true →
     add_link d now u kw = Err (DataError "links.short_code") ∧
     after d (add_link d now u kw) = d) ∧
  (backend d = SQLite →
   uuid_kept SQLite (default u (Link.kw_id kw)) = true →
   default u (Link.kw_id kw) ∉ link_ids d → code ∉ short_codes d →
     ∃ d' l, add_link d now u kw = Ok d' ∧ links d' = links d ++ [l] ∧
             Link.short_code l = code).
Proof.
  intros Hcode Hurl Hlen.
  unfold add_link, link_row, insert_link. rewrite Hcode, Hurl. cbn. split.
  - intros -> _ _. cbn.
    assert (¬ (utf8_length code ≤ 32)%nat) as Hn by (clear -Hlen; lia).
    by rewrite (bool_decide_eq_false_2 _ Hn).
  - intros -> _ Hid Hsc. cbn. rewrite !bool_decide_eq_true_2 by done. cbn.
    eexists _, _. split_and!; reflexivity.
Qed.

(** ** The relationships between links and click events *)

Lemma sum_list_fmap_add {A} (f g : A → nat) (l : list A) :
  sum_list ((fun x => f x + g x)%nat <$> l)
  = (sum_list (f <$> l) + sum_list (g <$> l))%nat.
Proof. induction l as [|x l IH]; cbn; [done | rewrite IH; lia]. Qed.

Lemma sum_list_indicator `{EqDecision A} (x : A) (l : list A) :
  NoDup l →
  sum_list ((fun y => if decide (x = y) then 1 else 0)%nat <$> l)
  = (if decide (x ∈ l) then 1 else 0)%nat.
Proof.
  induction l as [|y l IH]; intros Hnd; cbn.
  - by rewrite decide_False by apply not_elem_of_nil.
  - apply NoDup_cons in Hnd as [Hy Hnd]. rewrite (IH Hnd).
    destruct (decide (x = y)) as [->|Hne].
    + rewrite (decide_False (P := y ∈ l)) by done.
      by rewrite decide_True by apply list_elem_of_here.
    + destruct (decide (x ∈ l)) as [Hin|Hin].
      * by rewrite decide_True by by apply list_elem_of_further.
      * rewrite decide_False; [done|].
        by intros [?|?]%elem_of_cons.
Qed.

Lemma click_counts_sum (ids : list uuid) (cs : list ClickEvent.t) :
  NoDup ids →
  (∀ e, e ∈ cs → ClickEvent.link_id e ∈ ids) →
  sum_list ((fun i => length (filter (fun e => ClickEvent.link_id e = i) cs))
              <$> ids)
  = length cs.
Proof.
  intros Hnd. induction cs as [|e cs IH]; intros Hfk.
  - clear. induction ids as [|i ids IHi]; cbn; [done | exact IHi].
  - assert ((fun i => length (filter (fun e' => ClickEvent.link_id e' = i)
                                 (e :: cs))) <$> ids
            = (fun i => (if decide (ClickEvent.link_id e = i) then 1 else 0)
                        + length (filter (fun e' => ClickEvent.link_id e' = i) cs))%nat
              <$> ids) as ->.
    { apply list_fmap_ext. intros _ i _. rewrite filter_cons.
      by destruct (decide _). }
    rewrite sum_list_fmap_add, (sum_list_indicator _ _ Hnd).
    rewrite decide_True by apply Hfk, list_elem_of_here.
    rewrite IH; [done|]. intros e' He'. by apply Hfk, list_elem_of_further.
Qed.

(** X4. When the constraints of the schema hold, the click events are
    split among the stored links: the sizes of the [click_events]
    collections of all links add up to the number of rows of
    [click_events]. *)
Theorem click_counts_add_up (d : db) :
  consistent d →
  sum_list ((fun l => length (click_events_of d (Link.id l))) <$> links d)
  = length (click_events d).
Proof.
  intros [Hpk _ _ Hfk].
  rewrite <- (click_counts_sum (link_ids d) (click_events d) Hpk Hfk).
  unfold link_ids. by rewrite <- list_fmap_compose.
Qed.

(** X5. When the constraints of the schema hold, the two sides of the
    relationship agree: every stored click event has a link ([event.link]
    is a stored row whose id is the event's [link_id]), the event is in
    that link's [click_events] collection, and it is in no other link's. *)
Theorem click_event_link_back_populates (d : db) (e : ClickEvent.t) :
  consistent d → e ∈ click_events d →
  ∃ l,
    link_of d e = Some l ∧
    l ∈ links d ∧
    Link.id l = ClickEvent.link_id e ∧
    e ∈ click_events_of d (Link.id l) ∧
    (∀ l', l' ∈ links d → e ∈ click_events_of d (Link.id l') → l' = l).
Proof.
  intros Hd He. pose proof (click_events_fk _ Hd e He) as Hin.
  apply list_elem_of_fmap in Hin as (l & Hid & Hl).
  exists l. split_and!; try done.
  - unfold link_of, query_link_by_id.
    by apply (head_filter_key Link.id); [apply Hd | |].
  - unfold click_events_of. by apply list_elem_of_filter.
  - intros l' Hl' [Heq _]%list_elem_of_filter.
    apply (NoDup_fmap_elem_of Link.id (links d)); [apply Hd | done..|].
    congruence.
Qed.

(** ** Seeding *)

Lemma seed_link_Ok uuid4 clock st data st' :
  seed_link uuid4 clock st data = Ok st' →
  (∃ existing,
     query_link_by_short_code (seed_db st) (d_short_code data) = Some existing ∧
     st' = mk_seed_state (seed_db st) (seed_uuids st)
             (<[d_short_code data := existing]> (link_map st))) ∨
  (query_link_by_short_code (seed_db st) (d_short_code data) = None ∧
   insert_link (seed_db st) (row_of_data data (uuid4 (seed_uuids st)))
     = Ok (seed_db st') ∧
   st' = mk_seed_state (seed_db st') (S (seed_uuids st))
           (<[d_short_code data := row_of_data data (uuid4 (seed_uuids st))]>
              (link_map st))).
Proof.
  unfold seed_link. intros H.
  destruct (query_link_by_short_code _ _) as [existing|].
  - left. exists existing. split; [done|]. by injection H as <-.
  - right. split; [done|]. cbn in H.
    change (Link.mk (uuid4 (seed_uuids st)) (d_short_code data)
              (d_original_url data) (d_is_active data) (d_is_custom_code data)
              (d_created_at data) (d_updated_at data))
      with (row_of_data data (uuid4 (seed_uuids st))) in H.
    apply result_bind_Ok in H as (d' & Hins & H). injection H as <-.
    done.
Qed.

Lemma seed_click_Ok uuid4 clock st c st' :
  seed_click uuid4 clock st c = Ok st' →
  (link_map st !! click_code c = None ∧ st' = st) ∨
  (∃ link,
     link_map st !! click_code c = Some link ∧
     insert_click (seed_db st)
       (click_of_data clock c (uuid4 (seed_uuids st)) (Link.id link))
       = Ok (seed_db st') ∧
     st' = mk_seed_state (seed_db st') (S (seed_uuids st)) (link_map st)).
Proof.
  destruct c as [[[code h] ip] ua]. unfold seed_click, click_code. cbn.
  intros H. destruct (link_map st !! code) as [link|].
  - right. exists link. split; [done|].
    apply result_bind_Ok in H as (d' & Hins & H). injection H as <-.
    apply add_click_Ok in Hins as (row & Hrow & Hins).
    cbn in Hrow. injection Hrow as <-. done.
  - left. split; [done|]. by injection H as <-.
Qed.

#[local] Instance seed_extends_preorder : PreOrder seed_extends.
Proof.
  split.
  - intros st. unfold seed_extends. split_and!; try done.
    + exists []. by rewrite app_nil_r.
    + exists []. by rewrite app_nil_r.
  - intros st1 st2 st3 (Hb1 & [ls1 Hl1] & [cs1 Hc1] & Hn1 & Hm1 & Hs1)
      (Hb2 & [ls2 Hl2] & [cs2 Hc2] & Hn2 & Hm2 & Hs2).
    unfold seed_extends. split_and!.
    + congruence.
    + exists (ls1 ++ ls2). by rewrite Hl2, Hl1, app_assoc.
    + exists (cs1 ++ cs2). by rewrite Hc2, Hc1, app_assoc.
    + lia.
    + auto.
    + auto.
Qed.

Lemma for_each_preorder {A St} (body : St → A → result St)
    (R : relation St) `{!PreOrder R} :
  (∀ st x st', body st x = Ok st' → R st st') →
  ∀ xs st st', for_each body st xs = Ok st' → R st st'.
Proof.
  intros Hbody xs. induction xs as [|x xs IH]; intros st st' H; cbn in H.
  - by injection H as <-.
  - apply result_bind_Ok in H as (st1 & H1 & H).
    etrans; [by eapply Hbody | by apply IH].
Qed.

Lemma seed_link_extends uuid4 clock st data st' :
  seed_link uuid4 clock st data = Ok st' → seed_extends st st'.
Proof.
  intros [(existing & Hq & ->) | (Hq & Hins & ->)]%seed_link_Ok;
    unfold seed_extends; cbn.
  - split_and!; try done.
    + exists []. by rewrite app_nil_r.
    + exists []. by rewrite app_nil_r.
    + intros code Hc. destruct (decide (d_short_code data = code)) as [<-|Hne].
      * by rewrite lookup_insert_eq.
      * by rewrite lookup_insert_ne.
    + intros Hst code l Hl. cbn in *.
      destruct (decide (d_short_code data = code)) as [<-|Hne].
      * rewrite lookup_insert_eq in Hl. injection Hl as <-.
        by apply query_link_by_short_code_Some.
      * rewrite lookup_insert_ne in Hl by done. by apply Hst.
  - apply insert_link_Ok in Hins as (_ & _ & _ & Hd'). rewrite Hd'. cbn.
    split_and!; try done.
    + by eexists.
    + exists []. by rewrite app_nil_r.
    + lia.
    + intros code Hc. destruct (decide (d_short_code data = code)) as [<-|Hne].
      * by rewrite lookup_insert_eq.
      * by rewrite lookup_insert_ne.
    + intros Hst code l Hl. cbn in *.
      destruct (decide (d_short_code data = code)) as [<-|Hne].
      * rewrite lookup_insert_eq in Hl. injection Hl as <-. split; [|done].
        apply elem_of_app. right. apply list_elem_of_here.
      * rewrite lookup_insert_ne in Hl by done.
        destruct (Hst code l Hl) as [Hin Hcode]. split; [|done].
        apply elem_of_app. by left.
Qed.

Lemma seed_click_extends uuid4 clock st c st' :
  seed_click uuid4 clock st c = Ok st' → seed_extends st st'.
Proof.
  intros [(_ & ->) | (link & Hm & Hins & ->)]%seed_click_Ok; [reflexivity|].
  apply insert_click_Ok in Hins as (_ & _ & Hd').
  unfold seed_extends. rewrite Hd'. cbn.
  split_and!;
    [done | exists []; by rewrite app_nil_r | by eexists | lia | done |].
  intros Hst code l Hl. cbn in *. by apply Hst.
Qed.

Lemma seed_Ok uuid4 import_clock clock d d' :
  seed uuid4 import_clock clock d = Ok d' →
  ∃ st1 st2,
    for_each (seed_link uuid4 clock) (mk_seed_state d 0 ∅) (LINKS import_clock)
      = Ok st1 ∧
    for_each (seed_click uuid4 clock) st1 CLICK_EVENTS = Ok st2 ∧
    d' = seed_db st2.
Proof.
  unfold seed. intros H.
  apply result_bind_Ok in H as (st1 & E1 & H).
  apply result_bind_Ok in H as (st2 & E2 & H).
  injection H as <-. eauto.
Qed.

Lemma seed_extends_db uuid4 import_clock clock d d' :
  seed uuid4 import_clock clock d = Ok d' →
  backend d' = backend d ∧
  (∃ ls, links d' = links d ++ ls) ∧
  (∃ cs, click_events d' = click_events d ++ cs).
Proof.
  intros (st1 & st2 & E1 & E2 & ->)%seed_Ok.
  apply (for_each_preorder _ seed_extends (seed_link_extends uuid4 clock))
    in E1.
  apply (for_each_preorder _ seed_extends (seed_click_extends uuid4 clock))
    in E2.
  destruct (transitivity E1 E2) as (Hb & Hl & Hc & _). done.
Qed.

(** X6. A run of [seed] that commits only adds rows: the backend is the
    same, and [links] and [click_events] are the tables it started from
    with new rows at the end. No stored row is changed or removed. *)
Theorem seed_only_appends (uuid4 : nat → uuid) (import_clock clock : datetime)
    (d d' : db) :
  seed uuid4 import_clock clock d = Ok d' →
  backend d' = backend d ∧
  ∃ ls cs,
    links d' = links d ++ ls ∧
    click_events d' = click_events d ++ cs ∧
    (∀ i, ∃ cs', click_events_of d' i = click_events_of d i ++ cs').
Proof.
  intros (Hb & [ls Hl] & [cs Hc])%seed_extends_db. split; [done|].
  exists ls, cs. split_and!; try done.
  intros i. unfold click_events_of. rewrite Hc, filter_app. by eexists.
Qed.

(** X7. [seed] skips what is there: a link that is already stored under a
    short code keeps its row, so after the run the lookup by that short
    code (and by the row's id, when ids are unique) returns the very row
    it returned before, with the URL, flags and timestamps it had. *)
Theorem seed_keeps_existing_links (uuid4 : nat → uuid)
    (import_clock clock : datetime) (d d' : db) (code : string) (l : Link.t) :
  seed uuid4 import_clock clock d = Ok d' →
  query_link_by_short_code d code = Some l →
  query_link_by_short_code d' code = Some l ∧
  (query_link_by_id d (Link.id l) = Some l →
   query_link_by_id d' (Link.id l) = Some l).
Proof.
  intros (_ & [ls Hl] & _)%seed_extends_db Hq.
  unfold query_link_by_short_code, query_link_by_id in *. rewrite Hl.
  split; [by apply head_filter_app|]. intros Hi. by apply head_filter_app.
Qed.

Lemma filter_ext_elem {A} (P Q : A → Prop)
    `{∀ x, Decision (P x)} `{∀ x, Decision (Q x)} (l : list A) :
  (∀ x, x ∈ l → P x ↔ Q x) → filter P l = filter Q l.
Proof.
  induction l as [|x l IH]; intros Hl; [done|].
  rewrite !filter_cons.
  rewrite IH by (intros y Hy; apply Hl; by apply list_elem_of_further).
  pose proof (Hl x (list_elem_of_here _ _)) as Hx.
  destruct (decide (P x)), (decide (Q x)); tauto.
Qed.

(** The short codes of [LINKS] do not depend on the clock. *)
Lemma LINKS_short_codes ic ic' :
  d_short_code <$> LINKS ic = d_short_code <$> LINKS ic'.
Proof. reflexivity. Qed.

Lemma LINKS_short_codes_NoDup ic : NoDup (d_short_code <$> LINKS ic).
Proof.
  rewrite (LINKS_short_codes ic 0).
  refine (bool_decide_unpack _ _). vm_compute. exact I.
Qed.

Lemma CLICK_EVENTS_short_codes ic :
  ∀ c, c ∈ CLICK_EVENTS → click_code c ∈ d_short_code <$> LINKS ic.
Proof.
  rewrite (LINKS_short_codes ic 0). apply Forall_forall.
  refine (bool_decide_unpack _ _). vm_compute. exact I.
Qed.

Lemma seed_links_rows uuid4 clock xs :
  NoDup (d_short_code <$> xs) →
  ∀ st st',
    for_each (seed_link uuid4 clock) st xs = Ok st' →
    click_events (seed_db st') = click_events (seed_db st) ∧
    ∃ ls,
      links (seed_db st') = links (seed_db st) ++ ls ∧
      Forall2 (fun l data => ∃ k, l = row_of_data data (uuid4 k)) ls
        (filter (fun data => d_short_code data ∉ short_codes (seed_db st)) xs).
Proof.
  induction xs as [|x xs IH]; intros Hnd st st' H; cbn in H.
  - injection H as <-. split; [done|]. exists []. rewrite app_nil_r.
    split; [done | constructor].
  - rewrite fmap_cons in Hnd. apply NoDup_cons in Hnd as [Hx Hnd].
    apply result_bind_Ok in H as (st1 & H1 & H).
    destruct (IH Hnd _ _ H) as (Hc & ls & Hl & Hrows).
    apply seed_link_Ok in H1 as [(existing & Hq & Hst) | (Hq & Hins & Hst)].
    + subst st1. cbn [seed_db seed_uuids link_map backend links click_events] in *. split; [done|]. exists ls. split; [done|].
      rewrite filter_cons, decide_False; [done|].
      intros Hnot. apply Hnot.
      apply query_link_by_short_code_Some in Hq as [Hin <-].
      by apply list_elem_of_fmap_2.
    + apply insert_link_Ok in Hins as (_ & _ & _ & Hd').
      rewrite Hd' in Hc, Hl, Hrows. cbn [seed_db seed_uuids link_map backend links click_events] in *. clear Hst. split; [done|].
      exists (row_of_data x (uuid4 (seed_uuids st)) :: ls).
      split; [by rewrite Hl, <- app_assoc|].
      rewrite filter_cons, decide_True
        by by apply query_link_by_short_code_None.
      constructor; [by eexists|].
      erewrite filter_ext_elem; [exact Hrows|].
      intros data Hdata. unfold short_codes. cbn. rewrite fmap_app. cbn.
      rewrite elem_of_app, list_elem_of_singleton.
      assert (d_short_code data ≠ d_short_code x) as Hne.
      { intros Heq. apply Hx. rewrite <- Heq. by apply list_elem_of_fmap_2. }
      tauto.
Qed.

Lemma seed_links_mapped uuid4 clock xs :
  ∀ st st',
    for_each (seed_link uuid4 clock) st xs = Ok st' →
    ∀ data, data ∈ xs → is_Some (link_map st' !! d_short_code data).
Proof.
  induction xs as [|x xs IH]; intros st st' H data Hdata; cbn in H.
  - by apply not_elem_of_nil in Hdata.
  - apply result_bind_Ok in H as (st1 & H1 & H).
    apply elem_of_cons in Hdata as [-> | Hdata]; [|by eapply IH].
    apply (for_each_preorder _ seed_extends (seed_link_extends uuid4 clock))
      in H as (_ & _ & _ & _ & Hdom & _).
    apply Hdom.
    apply seed_link_Ok in H1 as [(existing & _ & ->) | (_ & _ & ->)]; cbn;
      by rewrite lookup_insert_eq.
Qed.

Lemma link_map_stored_empty d n : link_map_stored (mk_seed_state d n ∅).
Proof. intros code l Hl. cbn in Hl. by rewrite lookup_empty in Hl. Qed.

(** After the loop over [LINKS]: every short code of [LINKS] is mapped to
    a stored row with that code. *)
Lemma seed_links_loop_mapped uuid4 import_clock clock d st1 :
  for_each (seed_link uuid4 clock) (mk_seed_state d 0 ∅) (LINKS import_clock)
    = Ok st1 →
  link_map_stored st1 ∧
  ∀ code, code ∈ d_short_code <$> LINKS import_clock →
    ∃ l, link_map st1 !! code = Some l ∧ l ∈ links (seed_db st1) ∧
         Link.short_code l = code.
Proof.
  intros E1.
  pose proof (for_each_preorder _ seed_extends (seed_link_extends uuid4 clock)
                _ _ _ E1) as (_ & _ & _ & _ & _ & Hst).
  specialize (Hst (link_map_stored_empty d 0)). split; [done|].
  intros code (data & -> & Hdata)%list_elem_of_fmap.
  destruct (seed_links_mapped _ _ _ _ _ E1 data Hdata) as [l Hl].
  exists l. split; [done|]. by apply Hst.
Qed.

Lemma seed_clicks_rows uuid4 clock xs :
  ∀ st st',
    (∀ c, c ∈ xs → is_Some (link_map st !! click_code c)) →
    for_each (seed_click uuid4 clock) st xs = Ok st' →
    links (seed_db st') = links (seed_db st) ∧
    link_map st' = link_map st ∧
    ∃ cs,
      click_events (seed_db st') = click_events (seed_db st) ++ cs ∧
      Forall2 (fun e c => ∃ k link,
                 link_map st !! click_code c = Some link ∧
                 e = click_of_data clock c (uuid4 k) (Link.id link)) cs xs.
Proof.
  induction xs as [|x xs IH]; intros st st' Hmapped H; cbn in H.
  - injection H as <-. split_and!; try done. exists []. rewrite app_nil_r.
    split; [done | constructor].
  - apply result_bind_Ok in H as (st1 & H1 & H).
    apply seed_click_Ok in H1 as [(Hnone & Hst) | (link & Hm & Hins & Hst)].
    + destruct (Hmapped x (list_elem_of_here _ _)) as [l Hl]. congruence.
    + apply insert_click_Ok in Hins as (_ & _ & Hd').
      assert (link_map st1 = link_map st) as Hmap1 by by rewrite Hst.
      assert (∀ c, c ∈ xs → is_Some (link_map st1 !! click_code c)) as Hmapped1.
      { intros c Hc. rewrite Hmap1. by apply Hmapped, list_elem_of_further. }
      destruct (IH _ _ Hmapped1 H) as (Hl & Hmap & cs & Hcs & Hrows).
      rewrite Hd' in Hl, Hcs.
      cbn [seed_db seed_uuids link_map backend links click_events] in *.
      split_and!; [done | congruence |].
      exists (click_of_data clock x (uuid4 (seed_uuids st)) (Link.id link) :: cs).
      split; [by rewrite Hcs, <- app_assoc|].
      constructor; [by eexists _, _ |].
      eapply Forall2_impl; [exact Hrows|].
      intros e c (k & link' & Hk & ->). rewrite Hmap1 in Hk. by eexists _, _.
Qed.

(** What a committed run of [seed] wrote. *)
Lemma seed_rows uuid4 import_clock clock d d' :
  seed uuid4 import_clock clock d = Ok d' →
  ∃ ls cs,
    links d' = links d ++ ls ∧
    click_events d' = click_events d ++ cs ∧
    Forall2 (fun l data => ∃ k, l = row_of_data data (uuid4 k)) ls
      (filter (fun data => d_short_code data ∉ short_codes d)
         (LINKS import_clock)) ∧
    Forall2 (fun e c => ∃ k l,
               l ∈ links d' ∧ Link.short_code l = click_code c ∧
               e = click_of_data clock c (uuid4 k) (Link.id l))
      cs CLICK_EVENTS ∧
    (∀ code, code ∈ d_short_code <$> LINKS import_clock →
       code ∈ short_codes d').
Proof.
  intros (st1 & st2 & E1 & E2 & ->)%seed_Ok.
  destruct (seed_links_rows _ _ _ (LINKS_short_codes_NoDup import_clock) _ _ E1)
    as (Hc1 & ls & Hl1 & Hrows).
  destruct (seed_links_loop_mapped _ _ _ _ _ E1) as (Hstored & Hmapped).
  assert (∀ c, c ∈ CLICK_EVENTS → is_Some (link_map st1 !! click_code c))
    as Hm.
  { intros c Hc. apply (CLICK_EVENTS_short_codes import_clock) in Hc.
    destruct (Hmapped _ Hc) as (l & Hl & _). by exists l. }
  destruct (seed_clicks_rows _ _ _ _ _ Hm E2) as (Hl2 & _ & cs & Hc2 & Hclicks).
  cbn [seed_db] in *. exists ls, cs. split_and!.
  - by rewrite Hl2.
  - by rewrite Hc2, Hc1.
  - done.
  - eapply Forall2_impl; [exact Hclicks|].
    intros e c (k & link & Hlink & ->). exists k, link.
    destruct (Hstored _ _ Hlink) as [Hin Hcode]. rewrite Hl2. done.
  - intros code Hcode. destruct (Hmapped _ Hcode) as (l & _ & Hin & <-).
    unfold short_codes. rewrite Hl2. by apply list_elem_of_fmap_2.
Qed.

(** X8. The rows that a committed run of [seed] adds to [links] are, in
    the order of [LINKS], one row for each entry whose short code was not
    stored before, holding the entry's short code, URL, flags and
    timestamps and an id from [uuid.uuid4()]; entries whose short code was
    stored add nothing. *)
Theorem seed_inserts_missing_links (uuid4 : nat → uuid)
    (import_clock clock : datetime) (d d' : db) :
  seed uuid4 import_clock clock d = Ok d' →
  ∃ ls,
    links d' = links d ++ ls ∧
    Forall2 (fun l data => ∃ k, l = row_of_data data (uuid4 k)) ls
      (filter (fun data => d_short_code data ∉ short_codes d)
         (LINKS import_clock)).
Proof. intros (ls & cs & Hl & _ & Hrows & _)%seed_rows. eauto. Qed.

(** X9. A committed run of [seed] adds exactly one click event for each
    entry of [CLICK_EVENTS], in order: its [link_id] is the id of a stored
    link that has the entry's short code, its [clicked_at] is the entry's
    hours before the clock reading, and its [ip_address] and [user_agent]
    are the entry's, absent ones staying absent. *)
Theorem seed_click_events_written (uuid4 : nat → uuid)
    (import_clock clock : datetime) (d d' : db) :
  seed uuid4 import_clock clock d = Ok d' →
  ∃ cs,
    click_events d' = click_events d ++ cs ∧
    length cs = length CLICK_EVENTS ∧
    Forall2 (fun e c =>
               ClickEvent.clicked_at e = clock - c.1.1.2 * 3600000000 ∧
               ClickEvent.ip_address e = c.1.2 ∧
               ClickEvent.user_agent e = c.2 ∧
               ∃ l, l ∈ links d' ∧ Link.short_code l = c.1.1.1 ∧
                    ClickEvent.link_id e = Link.id l)
      cs CLICK_EVENTS.
Proof.
  intros (ls & cs & _ & Hc & _ & Hclicks & _)%seed_rows.
  exists cs. split_and!; [done | by eapply Forall2_length |].
  eapply Forall2_impl; [exact Hclicks|].
  intros e [[[code h] ip] ua] (k & l & Hin & Hcode & ->). cbn.
  split_and!; try done.
  - unfold _utc, timedelta. lia.
  - by exists l.
Qed.

(** X10. [seed] is not idempotent: running it again on the database that a
    committed run left, with any clock and id source, adds no link, since
    every short code of [LINKS] is found, and adds the click events of
    [CLICK_EVENTS] a second time. *)
Theorem seed_rerun_duplicates_clicks (uuid4 uuid4' : nat → uuid)
    (import_clock clock import_clock' clock' : datetime) (d d1 d2 : db) :
  seed uuid4 import_clock clock d = Ok d1 →
  seed uuid4' import_clock' clock' d1 = Ok d2 →
  links d2 = links d1 ∧
  length (click_events d2)
  = (length (click_events d1) + length CLICK_EVENTS)%nat ∧
  length (click_events d2)
  = (length (click_events d) + 2 * length CLICK_EVENTS)%nat.
Proof.
  intros (_ & cs1 & _ & Hc1 & _ & Hclicks1 & Hpresent)%seed_rows
         (ls & cs & Hl & Hc & Hrows & Hclicks & _)%seed_rows.
  rewrite (filter_none _ (LINKS import_clock')) in Hrows.
  - apply Forall2_nil_inv_r in Hrows as ->. rewrite app_nil_r in Hl.
    apply Forall2_length in Hclicks, Hclicks1.
    rewrite Hc, Hc1, !length_app. split_and!; [done | lia | lia].
  - intros data Hdata Hnot. apply Hnot, Hpresent.
    rewrite (LINKS_short_codes import_clock import_clock').
    by apply list_elem_of_fmap_2.
Qed.

(** X11. After a committed run of [seed] every short code of [LINKS] can
    be looked up: the lookup returns a stored row with that short code. *)
Theorem seed_links_all_present (uuid4 : nat → uuid)
    (import_clock clock : datetime) (d d' : db) (data : link_data) :
  seed uuid4 import_clock clock d = Ok d' →
  data ∈ LINKS import_clock →
  ∃ l,
    query_link_by_short_code d' (d_short_code data) = Some l ∧
    l ∈ links d' ∧
    Link.short_code l = d_short_code data.
Proof.
  intros (_ & _ & _ & _ & _ & _ & Hpresent)%seed_rows Hdata.
  destruct (query_link_by_short_code_is_Some d' (d_short_code data)) as [l Hl].
  { apply Hpresent. by apply list_elem_of_fmap_2. }
  exists l. split; [done|]. by apply query_link_by_short_code_Some.
Qed.

Lemma consistent_rtc d d' : consistent d → rtc step d d' → consistent d'.
Proof.
  intros Hd Hrtc. induction Hrtc as [|d1 d2 d3 Hstep _ IH]; [done|].
  apply IH. by eapply consistent_step.
Qed.

Lemma seed_rtc uuid4 import_clock clock d d' :
  seed uuid4 import_clock clock d = Ok d' → rtc step d d'.
Proof.
  intros (st1 & st2 & E1 & E2 & ->)%seed_Ok.
  etrans.
  - apply (for_each_rtc _ (seed_link_rtc uuid4 clock) _ _ _ E1).
  - apply (for_each_rtc _ (seed_click_rtc uuid4 clock) _ _ _ E2).
Qed.

(** X12. [seed] keeps the constraints of the schema: if ids and short
    codes are unique and every click event references a stored link before
    the run, the same holds for the database a committed run leaves. Every
    write of [seed] is one of the checked INSERTs. *)
Theorem seed_keeps_constraints (uuid4 : nat → uuid)
    (import_clock clock : datetime) (d d' : db) :
  consistent d →
  seed uuid4 import_clock clock d = Ok d' →
  consistent d' ∧ rtc step d d'.
Proof.
  intros Hd Hseed%seed_rtc. split; [by eapply consistent_rtc | done].
Qed.

Lemma for_each_succeeds {A St} (body : St → A → result St)
    (I : St → Prop) (ok : A → Prop) :
  (∀ st x, I st → ok x → ∃ st', body st x = Ok st' ∧ I st') →
  ∀ xs st, I st → Forall ok xs → ∃ st', for_each body st xs = Ok st' ∧ I st'.
Proof.
  intros Hbody xs. induction xs as [|x xs IH]; intros st Hst Hok; cbn.
  - by exists st.
  - apply Forall_cons in Hok as [Hx Hok].
    destruct (Hbody st x Hst Hx) as (st1 & -> & Hst1). cbn. by apply IH.
Qed.

Lemma uuids_fresh_insert_link uuid4 n d row d' :
  uuids_fresh uuid4 n d → Link.id row = uuid4 n →
  insert_link d row = Ok d' → uuids_fresh uuid4 (S n) d'.
Proof.
  intros [Hinj Hfresh] Hid (_ & _ & _ & ->)%insert_link_Ok. split; [done|].
  intros k Hk. destruct (Hfresh k ltac:(lia)) as [Hl Hc]. split; [|done].
  unfold link_ids. cbn. rewrite fmap_app. cbn. rewrite Hid.
  intros [?|Heq%list_elem_of_singleton]%elem_of_app; [done|].
  apply Hinj in Heq. lia.
Qed.

Lemma uuids_fresh_insert_click uuid4 n d row d' :
  uuids_fresh uuid4 n d → ClickEvent.id row = uuid4 n →
  insert_click d row = Ok d' → uuids_fresh uuid4 (S n) d'.
Proof.
  intros [Hinj Hfresh] Hid (_ & _ & ->)%insert_click_Ok. split; [done|].
  intros k Hk. destruct (Hfresh k ltac:(lia)) as [Hl Hc]. split; [done|].
  unfold click_ids. cbn. rewrite fmap_app. cbn. rewrite Hid.
  intros [?|Heq%list_elem_of_singleton]%elem_of_app; [done|].
  apply Hinj in Heq. lia.
Qed.

Lemma utf8_length_le (s : string) : (utf8_length s ≤ String.length s)%nat.
Proof.
  induction s as [|c s IH]; cbn; [done|].
  destruct (utf8_continuation c); lia.
Qed.

Lemma varchar_fits_length b n s :
  (String.length s ≤ n)%nat → varchar_fits b n s = true.
Proof.
  intros Hlen. destruct b; [done|]. apply bool_decide_eq_true_2.
  pose proof (utf8_length_le s). lia.
Qed.

Lemma seed_link_succeeds uuid4 clock st data :
  seed_ready uuid4 st →
  (String.length (d_short_code data) ≤ 32)%nat →
  ∃ st', seed_link uuid4 clock st data = Ok st' ∧ seed_ready uuid4 st'.
Proof.
  intros [Hfresh Hstored] Hlen.
  assert (∃ st', seed_link uuid4 clock st data = Ok st') as [st' Hst'].
  { unfold seed_link.
    destruct (query_link_by_short_code _ _) as [existing|] eqn:Hq; [eauto|].
    cbn. unfold insert_link. cbn.
    assert (varchar_fits (backend (seed_db st)) 32 (d_short_code data) = true)
      as -> by by apply varchar_fits_length.
    cbn. destruct Hfresh as [_ Hfresh].
    rewrite (bool_decide_eq_true_2 _ (proj1 (Hfresh _ (le_n _)))). cbn.
    rewrite (bool_decide_eq_true_2 _ (query_link_by_short_code_None _ _ Hq)).
    cbn. eauto. }
  exists st'. split; [done|].
  pose proof (seed_link_extends _ _ _ _ _ Hst') as (_ & _ & _ & _ & _ & Hs).
  split; [|by apply Hs].
  apply seed_link_Ok in Hst' as [(existing & _ & ->) | (_ & Hins & ->)]; cbn.
  - done.
  - eapply (uuids_fresh_insert_link _ _ _
              (row_of_data data (uuid4 (seed_uuids st))));
      [exact Hfresh | reflexivity | exact Hins].
Qed.

Lemma seed_click_succeeds uuid4 clock st c :
  seed_ready uuid4 st →
  (∀ ip, c.1.2 = Some ip → (String.length ip ≤ 45)%nat) →
  ∃ st', seed_click uuid4 clock st c = Ok st' ∧ seed_ready uuid4 st'.
Proof.
  intros [Hfresh Hstored] Hlen.
  assert (∃ st', seed_click uuid4 clock st c = Ok st') as [st' Hst'].
  { destruct c as [[[code h] ip] ua]. unfold seed_click.
    destruct (link_map st !! code) as [link|] eqn:Hm; [|eauto].
    assert (from_option (varchar_fits (backend (seed_db st)) 45) true ip = true)
      as Hip.
    { destruct ip as [ip|]; [|done]. cbn.
      apply varchar_fits_length. by apply Hlen. }
    unfold add_click. cbn. rewrite Hip. cbn.
    unfold insert_click. cbn. rewrite Hip.
    cbn. destruct Hfresh as [_ Hfresh].
    rewrite (bool_decide_eq_true_2 _ (proj2 (Hfresh _ (le_n _)))). cbn.
    rewrite bool_decide_eq_true_2; [cbn; eauto|].
    apply list_elem_of_fmap_2. by apply (Hstored code). }
  exists st'. split; [done|].
  pose proof (seed_click_extends _ _ _ _ _ Hst') as (_ & _ & _ & _ & _ & Hs).
  split; [|by apply Hs].
  apply seed_click_Ok in Hst' as [(_ & ->) | (link & _ & Hins & ->)]; cbn.
  - done.
  - eapply (uuids_fresh_insert_click _ _ _
              (click_of_data clock c (uuid4 (seed_uuids st)) (Link.id link)));
      [exact Hfresh | reflexivity | exact Hins].
Qed.

Lemma LINKS_short_codes_fit ic :
  Forall (fun data => (String.length (d_short_code data) ≤ 32)%nat) (LINKS ic).
Proof.
  apply (Forall_fmap d_short_code (fun code => (String.length code ≤ 32)%nat)).
  rewrite (LINKS_short_codes ic 0).
  refine (bool_decide_unpack _ _). vm_compute. exact I.
Qed.

Lemma CLICK_EVENTS_ips_fit :
  Forall (fun c : click_data =>
            ∀ ip, c.1.2 = Some ip → (String.length ip ≤ 45)%nat) CLICK_EVENTS.
Proof.
  assert (Forall (fun c : click_data =>
            from_option (fun ip => bool_decide (String.length ip ≤ 45)%nat)
              true c.1.2 = true) CLICK_EVENTS) as H.
  { refine (bool_decide_unpack _ _). vm_compute. exact I. }
  eapply Forall_impl; [exact H|]. intros c Hc ip Hip. cbv beta in Hc.
  rewrite Hip in Hc. by apply bool_decide_eq_true in Hc.
Qed.

Lemma seed_goes_through (uuid4 : nat → uuid) (import_clock clock : datetime)
    (d : db) :
  uuids_fresh uuid4 0 d →
  ∃ d', seed uuid4 import_clock clock d = Ok d'.
Proof.
  intros Hfresh.
  destruct (for_each_succeeds (seed_link uuid4 clock) (seed_ready uuid4) _
              (seed_link_succeeds uuid4 clock) (LINKS import_clock)
              (mk_seed_state d 0 ∅))
    as (st1 & E1 & Hst1).
  { split; [done | apply link_map_stored_empty]. }
  { apply LINKS_short_codes_fit. }
  destruct (for_each_succeeds (seed_click uuid4 clock) (seed_ready uuid4) _
              (seed_click_succeeds uuid4 clock) CLICK_EVENTS st1 Hst1
              CLICK_EVENTS_ips_fit)
    as (st2 & E2 & _).
  exists (seed_db st2). unfold seed. rewrite E1. cbn [mbind result_bind].
  rewrite E2. done.
Qed.

(** *** What the run prints *)




Lemma seed_link_run_returns uuid4 clock stdout st data st' :
  loop_prints_return stdout →
  seed_link uuid4 clock st data = Ok st' →
  seed_link_run uuid4 clock stdout st data = Done st'.
Proof.
  intros (Hskip & Hadd & _). unfold seed_link_run, seed_link, print.
  destruct (query_link_by_short_code _ _) as [existing|].
  - rewrite Hskip. cbn. by intros [= <-].
  - destruct (link_row _ _ _) as [link|e]; cbn; [|done].
    destruct (insert_link _ _) as [d'|e]; cbn; [|done].
    rewrite Hadd. cbn. by intros [= <-].
Qed.

Lemma seed_click_run_returns uuid4 clock stdout st c st' :
  loop_prints_return stdout →
  seed_click uuid4 clock st c = Ok st' →
  seed_click_run uuid4 clock stdout st c = Done st'.
Proof.
  intros (_ & _ & Hskip). destruct c as [[[code h] ip] ua].
  unfold seed_click_run, seed_click, print.
  destruct (link_map st !! code) as [link|].
  - destruct (add_click _ _ _ _) as [d'|e]; cbn; [|done]. by intros [= <-].
  - rewrite Hskip. cbn. by intros [= <-].
Qed.

Lemma for_each_raising_returns {A St} (body_run : St → A → raising St)
    (body : St → A → result St) :
  (∀ st x st', body st x = Ok st' → body_run st x = Done st') →
  ∀ xs st st',
    for_each body st xs = Ok st' → for_each_raising body_run st xs = Done st'.
Proof.
  intros Hbody xs. induction xs as [|x xs IH]; intros st st'; cbn.
  - by intros [= <-].
  - destruct (body st x) as [st1|e] eqn:E; cbn; [|done].
    rewrite (Hbody _ _ _ E). cbn. apply IH.
Qed.

(** The loops of [seed_run] go through when the database work does and
    every [print] of the loops returns. *)
Lemma seed_run_committed uuid4 import_clock clock stdout stdout_failure d d' :
  loop_prints_return stdout →
  seed uuid4 import_clock clock d = Ok d' →
  seed_run uuid4 import_clock clock stdout stdout_failure d
  = (let m := SeededSuccessfully (length (LINKS import_clock))
                (length CLICK_EVENTS) in
     if stdout m then SeedReturns d'
     else seeding_failed stdout_failure (PrintError m) d').
Proof.
  intros Hprints Hseed. apply seed_Ok in Hseed as (st1 & st2 & E1 & E2 & ->).
  unfold seed_run.
  rewrite (for_each_raising_returns _ _
             (fun st x st' => seed_link_run_returns uuid4 clock stdout st x st'
                                Hprints) _ _ _ E1).
  cbn [mbind raising_bind].
  rewrite (for_each_raising_returns _ _
             (fun st x st' => seed_click_run_returns uuid4 clock stdout st x st'
                                Hprints) _ _ _ E2).
  done.
Qed.

(** X13. [seed()] returns, with its rows committed, on every database, on
    either backend, provided [uuid.uuid4()] never returns an id that is in
    use or that it returned before, the backend keeps the ids as they are
    written, and every [print] returns. *)
Theorem seed_succeeds (uuid4 : nat → uuid) (import_clock clock : datetime)
    (stdout : seed_message → bool) (stdout_failure : seed_exception → bool)
    (d : db) :
  uuids_fresh uuid4 0 d →
  link_ids_kept d = true →
  (∀ k, uuid_kept (backend d) (uuid4 k) = true) →
  (∀ m, stdout m = true) →
  ∃ d',
    seed_run uuid4 import_clock clock stdout stdout_failure d = SeedReturns d' ∧
    seed uuid4 import_clock clock d = Ok d'.
Proof.
  intros Hfresh _ _ Hprints.
  destruct (seed_goes_through uuid4 import_clock clock d Hfresh) as [d' Hd'].
  exists d'. split; [|done].
  rewrite (seed_run_committed _ _ _ _ _ _ _ (conj (fun _ => Hprints _)
             (conj (fun _ _ => Hprints _) (fun _ => Hprints _))) Hd').
  cbv zeta. by rewrite Hprints.
Qed.



(** ** Health reports *)

Lemma overall_empty : overall ∅ = "healthy".
Proof. apply overall_healthy. intros k v Hk. by rewrite lookup_empty in Hk. Qed.

Lemma overall_insert (k v : string) (m : gmap string string) :
  m !! k = None →
  overall (<[k := v]> m) = "healthy" ↔ v = "ok" ∧ overall m = "healthy".
Proof.
  intros Hk. rewrite !overall_healthy.
  change (map_Forall (fun _ v => v = "ok") (<[k:=v]> m)
          ↔ v = "ok" ∧ map_Forall (fun _ v => v = "ok") m).
  by rewrite map_Forall_insert.
Qed.

Lemma check_database_returns (s : store) :
  ∃ b, check_database s = Returns b ∧ (b = true ↔ round_trip_succeeds s).
Proof. apply health_check_returns. Qed.

(** X14. [check_redis] never raises. Without a client the check is skipped
    and counts as passed; with a client it returns [True] exactly when
    [PING] succeeds, and [False] for every failure of the call. *)
Theorem check_redis_skipped_or_pinged (r : option redis_client) :
  ∃ b,
    check_redis r = Returns b ∧
    (r = None → b = true) ∧
    (∀ c, r = Some c → (b = true ↔ ping c = None)) ∧
    (∀ c f, r = Some c → ping c = Some f → b = false).
Proof.
  destruct (check_redis_returns r) as (b & Hb & Hiff).
  exists b. split_and!; [done | | |].
  - intros ->. by apply Hiff.
  - intros c ->. rewrite Hiff. split; [by intros H; apply H|].
    by intros Hp c' [= <-].
  - intros c f -> Hp. destruct b; [|done].
    pose proof (proj1 Hiff eq_refl c eq_refl). congruence.
Qed.

(** X15. The async report is "healthy" exactly when the round trip of
    [SELECT 1] succeeds and, if a Redis client is given, its [PING]
    succeeds; with a client, the "redis" entry is "ok" when [PING]
    succeeds and "error" when it fails. *)
Theorem async_status_by_dependencies (s : store) (r : option redis_client)
    (clock : datetime) :
  ∃ p,
    get_health_status_async s r clock = Returns p ∧
    (status p = "healthy" ↔
       round_trip_succeeds s ∧ ∀ c, r = Some c → ping c = None) ∧
    (∀ c, r = Some c →
       (checks p !! "redis" = Some "ok" ↔ ping c = None) ∧
       (checks p !! "redis" = Some "error" ↔ ping c ≠ None)) ∧
    version p = VERSION ∧ timestamp p = clock.
Proof.
  destruct (health_check_returns s) as (b & Hb & Hbt).
  destruct (check_redis_returns r) as (b' & Hb' & Hrt).
  eexists. split; [by apply get_health_status_async_returns|].
  cbn [status checks version timestamp]. split_and!; [| |done..].
  - rewrite <- Hbt, <- Hrt. unfold async_checks. destruct r as [c|].
    + rewrite overall_insert by by rewrite lookup_insert_ne.
      rewrite overall_insert by apply lookup_empty.
      rewrite !ok_or_error_ok. pose proof overall_empty. tauto.
    + rewrite overall_insert by apply lookup_empty.
      rewrite ok_or_error_ok. pose proof overall_empty.
      assert (b' = true) by (apply Hrt; by intros c [=]). tauto.
  - intros c ->. unfold async_checks. rewrite lookup_insert_eq.
    assert (b' = true ↔ ping c = None) as <-.
    { rewrite Hrt. split; [by intros H; apply H | by intros Hp c' [= <-]]. }
    destruct b'; cbn; split; split; intros; congruence.
Qed.

(** X16. The synchronous report always returns. It performs the database
    check only when a session is passed and never pings Redis: its status
    is "healthy" exactly when no session is passed or the round trip of
    [SELECT 1] succeeds, the "database" entry is there exactly when a
    session is passed, and the "redis" entry is "ok" whenever a client is
    passed and absent otherwise. With neither, [checks] is empty and the
    status is "healthy". *)
Theorem sync_status_by_dependencies (s : store) (session : option db)
    (redis : option redis_client) (clock : datetime) :
  ∃ p,
    get_health_status s session redis clock = Returns p ∧
    (status p = "healthy" ↔ session = None ∨ round_trip_succeeds s) ∧
    (checks p !! "database" = None ↔ session = None) ∧
    (is_Some session →
       (checks p !! "database" = Some "ok" ↔ round_trip_succeeds s)) ∧
    checks p !! "redis" = match redis with
                          | Some _ => Some "ok"
                          | None => None
                          end ∧
    (session = None → redis = None → checks p = ∅).
Proof.
  destruct (check_database_returns s) as (b & Hb & Hbt).
  unfold get_health_status. destruct session as [sess|].
  - rewrite Hb. cbn [mbind outcome_bind].
    eexists. split; [reflexivity|]. cbn [status checks]. split_and!.
    + rewrite <- Hbt. destruct redis.
      * rewrite overall_insert by by rewrite lookup_insert_ne.
        rewrite overall_insert by apply lookup_empty.
        rewrite ok_or_error_ok. pose proof overall_empty.
        split; [tauto|]. intros [[=]|]; tauto.
      * rewrite overall_insert by apply lookup_empty.
        rewrite ok_or_error_ok. pose proof overall_empty.
        split; [tauto|]. intros [[=]|]; tauto.
    + destruct redis; rewrite ?lookup_insert_ne by done;
        rewrite lookup_insert_eq; split; done.
    + intros _. rewrite <- Hbt.
      destruct redis; rewrite ?lookup_insert_ne by done;
        rewrite lookup_insert_eq; destruct b; cbn; split; congruence.
    + destruct redis; [by rewrite lookup_insert_eq|].
      by rewrite lookup_insert_ne.
    + done.
  - cbn [mbind outcome_bind].
    eexists. split; [reflexivity|]. cbn [status checks]. split_and!.
    + destruct redis.
      * rewrite overall_insert by apply lookup_empty.
        pose proof overall_empty. tauto.
      * pose proof overall_empty. tauto.
    + destruct redis; rewrite ?lookup_insert_ne by done; by rewrite lookup_empty.
    + by intros [? [=]].
    + destruct redis; [by rewrite lookup_insert_eq | by rewrite lookup_empty].
    + by intros _ ->.
Qed.

(** X17. The two reports disagree about Redis. When a session and a client
    are passed, the database answers and [PING] fails, the synchronous
    report says "healthy" with "redis" marked "ok", while the async report
    of the same dependencies says "degraded" with "redis" marked "error".
    Without a client the two reports are equal. *)
Theorem sync_report_ignores_redis_failure (s : store) (sess : db)
    (c : redis_client) (f : fault) (clock : datetime) :
  round_trip_succeeds s → ping c = Some f →
  (∃ p, get_health_status s (Some sess) (Some c) clock = Returns p ∧
        status p = "healthy" ∧ checks p !! "redis" = Some "ok") ∧
  (∃ p, get_health_status_async s (Some c) clock = Returns p ∧
        status p = "degraded" ∧ checks p !! "redis" = Some "error") ∧
  get_health_status s (Some sess) None clock
  = get_health_status_async s None clock.
Proof.
  intros Hs Hp.
  destruct (health_check_returns s) as (b & Hb & Hbt).
  assert (b = true) as -> by by apply Hbt.
  split_and!.
  - unfold get_health_status, check_database. rewrite Hb.
    cbn [mbind outcome_bind]. eexists. split; [reflexivity|].
    cbn [status checks]. split; [|by rewrite lookup_insert_eq].
    apply overall_insert; [by rewrite lookup_insert_ne|]. split; [done|].
    apply overall_insert; [apply lookup_empty|]. split; [done|].
    apply overall_empty.
  - assert (check_redis (Some c) = Returns false) as Hr.
    { unfold check_redis. rewrite Hp. by destruct f. }
    eexists. split; [by apply get_health_status_async_returns|].
    cbn [status checks]. unfold async_checks.
    split; [|by rewrite lookup_insert_eq].
    apply (overall_degraded _ "redis"). by rewrite lookup_insert_eq.
  - rewrite (get_health_status_async_returns s None clock true true Hb eq_refl).
    unfold get_health_status, check_database. rewrite Hb. done.
Qed.

(** X18. The [/health] route always answers, and its answer depends on the
    database alone: the status code is 200 exactly when the round trip of
    [SELECT 1] succeeds and 503 exactly when it fails; the body carries the
    version, the clock reading, and a single check, "database". *)
Theorem health_route_reflects_database (s : store) (clock : datetime) :
  ∃ resp,
    health s clock = Returns resp ∧
    (status_code resp = 200 ↔ round_trip_succeeds s) ∧
    (status_code resp = 503 ↔ ¬ round_trip_succeeds s) ∧
    version (content resp) = "1.0.0" ∧
    timestamp (content resp) = clock ∧
    (∀ k, k ≠ "database" → checks (content resp) !! k = None) ∧
    is_Some (checks (content resp) !! "database").
Proof.
  destruct (health_check_returns s) as (b & Hb & Hbt).
  eexists. split; [by apply health_returns|].
  cbn [status_code content version timestamp checks]. unfold async_checks.
  assert (overall (<["database" := ok_or_error b]> ∅) = "healthy" ↔ b = true)
    as Hov.
  { rewrite overall_insert by apply lookup_empty. rewrite ok_or_error_ok.
    pose proof overall_empty. tauto. }
  rewrite <- Hbt. split_and!.
  - case_bool_decide; split; intros; try tauto; try lia.
  - case_bool_decide; split; intros; try tauto; try lia.
  - done.
  - done.
  - intros k Hk. rewrite lookup_insert_ne by done. apply lookup_empty.
  - rewrite lookup_insert_eq. by eexists.
Qed.

(** ** The further properties at sample inputs *)

Lemma seeded_sample_run :
  seed uuid4_counter sample_clock sample_clock (empty_db SQLite)
  = Ok seeded_sample.
Proof. vm_compute. reflexivity. Defined.

Lemma sample_db_consistent : consistent sample_db.
Proof. exact (reachable_consistent _ sample_db_reachable). Defined.

Lemma history_db_kept (b : dialect) : link_ids_kept (history_db b) = true.
Proof. destruct b; vm_compute; reflexivity. Defined.

Lemma add_link_then_lookup_witness :
  ∃ d' l,
    add_link (history_db SQLite) 500 179%N
      (Link.mk_kwargs None (Some "docs") (Some "https://docs.python.org/3/")
         None None None None) = Ok d' ∧
    query_link_by_short_code d' (Link.short_code l) = Some l ∧
    query_link_by_id d' (Link.id l) = Some l ∧
    Some "docs" = Some (Link.short_code l) ∧
    query_link_by_short_code d' "gh"
    = query_link_by_short_code (history_db SQLite) "gh".
Proof.
  eexists.
  assert (uuid_kept SQLite 179%N = true) as Hnew by (vm_compute; reflexivity).
  destruct (add_link_then_lookup (history_db SQLite) _ 500 179%N
              (Link.mk_kwargs None (Some "docs")
                 (Some "https://docs.python.org/3/") None None None None)
              (history_db_kept SQLite) Hnew eq_refl)
    as (l & _ & H1 & H2 & H3 & _ & _ & _ & _ & _ & H9 & _).
  exists l. split_and!; [reflexivity | exact H1 | exact H2 | exact H3 |].
  apply H9. injection H3 as <-. discriminate.
Defined.

Lemma add_click_unknown_link_rejected_witness :
  add_click (history_db SQLite) 500 187%N
    (ClickEvent.mk_kwargs None (Some 199%N) None (Some "203.0.113.1") None)
  = Err (IntegrityError (ForeignKey "click_events.link_id")) ∧
  after (history_db SQLite)
    (add_click (history_db SQLite) 500 187%N
       (ClickEvent.mk_kwargs None (Some 199%N) None (Some "203.0.113.1") None))
  = history_db SQLite.
Proof.
  assert (∀ lid, Some 199%N = Some lid →
            (lid ∉ link_ids (history_db SQLite)) ∧
            uuid_kept (backend (history_db SQLite)) lid = true) as Hfk.
  { intros lid [= <-]. split; [|vm_compute; reflexivity].
    vm_compute. intros H.
    apply elem_of_cons in H as [H|H]; [discriminate H|].
    apply list_elem_of_singleton in H. discriminate H. }
  assert (uuid_kept SQLite 187%N = true) as Hnew by (vm_compute; reflexivity).
  destruct (add_click_unknown_link_rejected (history_db SQLite) 500 187%N
              (ClickEvent.mk_kwargs None (Some 199%N) None
                 (Some "203.0.113.1") None) Hfk)
    as (_ & Hafter & H & _).
  destruct (H eq_refl eq_refl) as [_ H'].
  split; [|exact Hafter].
  apply H'; [by eexists | exact Hnew |].
  vm_compute. intros Hin.
  apply elem_of_cons in Hin as [Hin|Hin]; [discriminate Hin|].
  apply list_elem_of_singleton in Hin. discriminate Hin.
Defined.

Lemma short_code_length_enforced_on_postgresql_witness :
  (32 < utf8_length long_code)%nat ∧
  add_link (empty_db PostgreSQL) 500 1%N
    (Link.mk_kwargs None (Some long_code) (Some "https://example.com")
       None None None None)
  = Err (DataError "links.short_code") ∧
  after (empty_db PostgreSQL)
    (add_link (empty_db PostgreSQL) 500 1%N
       (Link.mk_kwargs None (Some long_code) (Some "https://example.com")
          None None None None))
  = empty_db PostgreSQL.
Proof.
  assert (32 < utf8_length long_code)%nat as Hlen by (vm_compute; lia).
  split; [exact Hlen|].
  exact (proj1 (short_code_length_enforced_on_postgresql
                  (empty_db PostgreSQL) 500 1%N
                  (Link.mk_kwargs None (Some long_code)
                     (Some "https://example.com") None None None None)
                  long_code "https://example.com" eq_refl eq_refl Hlen)
           eq_refl eq_refl eq_refl).
Defined.

Lemma click_counts_add_up_witness :
  consistent sample_db ∧
  sum_list ((fun l => length (click_events_of sample_db (Link.id l)))
              <$> links sample_db)
  = length (click_events sample_db).
Proof.
  split; [exact sample_db_consistent|].
  exact (click_counts_add_up sample_db sample_db_consistent).
Defined.

Lemma click_event_link_back_populates_witness :
  ∃ l,
    link_of sample_db anonymous_click_event = Some l ∧
    Link.short_code l = "old-sale".
Proof.
  destruct (click_event_link_back_populates sample_db anonymous_click_event
              sample_db_consistent (list_elem_of_here _ _))
    as (l & Hl & _).
  exists l. split; [exact Hl|].
  vm_compute in Hl. injection Hl as <-. reflexivity.
Defined.

Lemma seeded_history_run :
  seed uuid4_later sample_clock sample_clock (history_db PostgreSQL)
  = Ok seeded_history.
Proof. vm_compute. reflexivity. Defined.

Lemma seed_only_appends_witness :
  length (links (history_db PostgreSQL)) = 2%nat ∧
  length (click_events (history_db PostgreSQL)) = 2%nat ∧
  length (links seeded_history) = 12%nat ∧
  length (click_events seeded_history) = 28%nat ∧
  backend seeded_history = PostgreSQL ∧
  ∃ ls cs,
    links seeded_history = links (history_db PostgreSQL) ++ ls ∧
    click_events seeded_history
    = click_events (history_db PostgreSQL) ++ cs ∧
    (∀ i, ∃ cs', click_events_of seeded_history i
                 = click_events_of (history_db PostgreSQL) i ++ cs').
Proof.
  split; [reflexivity|]. split; [reflexivity|].
  split; [reflexivity|]. split; [reflexivity|].
  exact (seed_only_appends uuid4_later sample_clock sample_clock
           (history_db PostgreSQL) seeded_history seeded_history_run).
Defined.

Lemma seed_keeps_existing_links_witness :
  ∃ d l,
    seed uuid4_later sample_clock sample_clock sample_db = Ok d ∧
    query_link_by_short_code sample_db "old-sale" = Some l ∧
    query_link_by_short_code d "old-sale" = Some l ∧
    Link.is_active l = false.
Proof.
  eexists _, inactive_link.
  assert (query_link_by_short_code sample_db "old-sale" = Some inactive_link)
    as Hq by reflexivity.
  split; [vm_compute; reflexivity|]. split; [exact Hq|].
  split; [|reflexivity].
  refine (proj1 (seed_keeps_existing_links uuid4_later sample_clock
                   sample_clock sample_db _ "old-sale" inactive_link _ Hq)).
  vm_compute. reflexivity.
Defined.

Lemma seed_inserts_missing_links_witness :
  ∃ ls,
    links seeded_sample = links (empty_db SQLite) ++ ls ∧
    Forall2 (fun l data => ∃ k, l = row_of_data data (uuid4_counter k)) ls
      (filter (fun data => d_short_code data ∉ short_codes (empty_db SQLite))
         (LINKS sample_clock)).
Proof.
  exact (seed_inserts_missing_links uuid4_counter sample_clock sample_clock
           (empty_db SQLite) seeded_sample seeded_sample_run).
Defined.

Lemma seed_click_events_written_witness :
  ∃ cs,
    click_events seeded_sample = click_events (empty_db SQLite) ++ cs ∧
    length cs = 26%nat.
Proof.
  destruct (seed_click_events_written uuid4_counter sample_clock sample_clock
              (empty_db SQLite) seeded_sample seeded_sample_run)
    as (cs & Hc & Hlen & _).
  exists cs. split; [exact Hc | exact Hlen].
Defined.

Lemma reseeded_sample_run :
  seed uuid4_later sample_clock sample_clock seeded_sample
  = Ok reseeded_sample.
Proof. vm_compute. reflexivity. Defined.

Lemma seed_rerun_duplicates_clicks_witness :
  links reseeded_sample = links seeded_sample ∧
  length (click_events reseeded_sample)
  = (length (click_events seeded_sample) + length CLICK_EVENTS)%nat ∧
  length (click_events reseeded_sample)
  = (length (click_events (empty_db SQLite)) + 2 * length CLICK_EVENTS)%nat.
Proof.
  exact (seed_rerun_duplicates_clicks uuid4_counter uuid4_later
           sample_clock sample_clock sample_clock sample_clock
           (empty_db SQLite) seeded_sample reseeded_sample
           seeded_sample_run reseeded_sample_run).
Defined.

Lemma seed_links_all_present_witness :
  ∃ l,
    query_link_by_short_code seeded_sample "gh" = Some l ∧
    l ∈ links seeded_sample ∧
    Link.short_code l = "gh".
Proof.
  refine (seed_links_all_present uuid4_counter sample_clock sample_clock
            (empty_db SQLite) seeded_sample
            (mk_link_data "gh" "https://github.com" true true
               (_utc sample_clock 30 0) (_utc sample_clock 30 0))
            seeded_sample_run _).
  apply list_elem_of_here.
Defined.

Lemma seed_keeps_constraints_witness :
  consistent (empty_db SQLite) ∧
  consistent seeded_sample ∧ rtc step (empty_db SQLite) seeded_sample.
Proof.
  split; [exact (consistent_empty SQLite)|].
  exact (seed_keeps_constraints uuid4_counter sample_clock sample_clock
           (empty_db SQLite) seeded_sample (consistent_empty SQLite)
           seeded_sample_run).
Defined.

Lemma uuid4_later_fresh : uuids_fresh uuid4_later 0 (history_db PostgreSQL).
Proof.
  split.
  - intros m n H. unfold uuid4_later in H. lia.
  - intros k _. unfold uuid4_later. split; vm_compute link_ids;
      vm_compute click_ids; intros H;
      repeat (apply elem_of_cons in H as [H|H]; [lia|]);
      by apply elem_of_nil in H.
Defined.

Lemma seed_succeeds_witness :
  uuids_fresh uuid4_later 0 (history_db PostgreSQL) ∧
  ∃ d',
    seed_run uuid4_later sample_clock sample_clock (fun _ => true)
      (fun _ => true) (history_db PostgreSQL) = SeedReturns d' ∧
    seed uuid4_later sample_clock sample_clock (history_db PostgreSQL) = Ok d'.
Proof.
  split; [exact uuid4_later_fresh|].
  exact (seed_succeeds uuid4_later sample_clock sample_clock (fun _ => true)
           (fun _ => true) (history_db PostgreSQL) uuid4_later_fresh
           (history_db_kept PostgreSQL) (fun _ => eq_refl) (fun _ => eq_refl)).
Defined.




Lemma sync_report_ignores_redis_failure_witness :
  round_trip_succeeds (mk_store None None None) ∧
  (∃ p, get_health_status (mk_store None None None) (Some sample_db)
          (Some (mk_redis (Some Unreachable))) sample_clock = Returns p ∧
        status p = "healthy" ∧ checks p !! "redis" = Some "ok") ∧
  (∃ p, get_health_status_async (mk_store None None None)
          (Some (mk_redis (Some Unreachable))) sample_clock = Returns p ∧
        status p = "degraded" ∧ checks p !! "redis" = Some "error").
Proof.
  assert (round_trip_succeeds (mk_store None None None)) as Hs by done.
  split; [exact Hs|].
  destruct (sync_report_ignores_redis_failure (mk_store None None None)
              sample_db (mk_redis (Some Unreachable)) Unreachable sample_clock
              Hs eq_refl)
    as (H1 & H2 & _).
  split; [exact H1 | exact H2].
Defined.

(** ** Fixtures *)

Lemma query_link_by_short_code_fresh d code :
  code ∉ short_codes d → query_link_by_short_code d code = None.
Proof.
  intros Hc. destruct (query_link_by_short_code d code) as [l|] eqn:E; [|done].
  apply query_link_by_short_code_Some in E as [Hl <-].
  exfalso. apply Hc. by apply list_elem_of_fmap_2.
Qed.

Lemma seeded_link_fresh uuid4 clock st data :
  d_short_code data ∉ short_codes (seed_db st) →
  Fixtures.seeded_link uuid4 clock st data = seed_link uuid4 clock st data.
Proof.
  intros Hc. unfold Fixtures.seeded_link, seed_link.
  by rewrite (query_link_by_short_code_fresh _ _ Hc).
Qed.

Lemma seeded_link_stored uuid4 clock st data :
  d_short_code data ∈ short_codes (seed_db st) →
  ∃ e, Fixtures.seeded_link uuid4 clock st data = Err e.
Proof.
  intros Hc. unfold Fixtures.seeded_link.
  destruct (link_row _ _ _ ≫= _) as [st'|e] eqn:E; [|eauto]. exfalso.
  apply result_bind_Ok in E as (row & Hrow & E).
  apply result_bind_Ok in E as (d' & Hins & _).
  apply link_row_Ok in Hrow as (code & url & [= <-] & _ & ->).
  apply insert_link_Ok in Hins as (_ & _ & Hfresh & _). by apply Hfresh.
Qed.

Lemma seeded_link_short_codes uuid4 clock st data st' :
  Fixtures.seeded_link uuid4 clock st data = Ok st' →
  short_codes (seed_db st') = short_codes (seed_db st) ++ [d_short_code data].
Proof.
  unfold Fixtures.seeded_link. intros E.
  apply result_bind_Ok in E as (row & Hrow & E).
  apply result_bind_Ok in E as (d' & Hins & [= <-]).
  apply link_row_Ok in Hrow as (code & url & [= <-] & _ & ->).
  apply insert_link_Ok in Hins as (_ & _ & _ & ->).
  unfold short_codes. cbn. by rewrite fmap_app.
Qed.

Lemma seeded_links_stored uuid4 clock xs :
  ∀ st data,
    data ∈ xs → d_short_code data ∈ short_codes (seed_db st) →
    ∃ e, for_each (Fixtures.seeded_link uuid4 clock) st xs = Err e.
Proof.
  induction xs as [|x xs IH]; intros st data Hdata Hc.
  - by apply not_elem_of_nil in Hdata.
  - cbn [for_each].
    destruct (Fixtures.seeded_link uuid4 clock st x) as [st1|e] eqn:E;
      [cbn [mbind result_bind] | by exists e].
    apply elem_of_cons in Hdata as [-> | Hdata].
    + destruct (seeded_link_stored uuid4 clock st x Hc) as [e He]. congruence.
    + apply (IH st1 data Hdata).
      rewrite (seeded_link_short_codes _ _ _ _ _ E).
      apply elem_of_app. by left.
Qed.

(** X19. The [seeded_db] fixture inserts every entry without looking it up
    first, so on a database that already stores one of its short codes it
    raises the error of the INSERT and returns nothing, where [seed] would
    skip the entry. *)
Theorem seeded_db_rejects_stored_codes (uuid4 : nat → uuid)
    (clock : datetime) (d : db) (data : link_data) :
  data ∈ Fixtures.links_data clock →
  d_short_code data ∈ short_codes d →
  ∃ e, Fixtures.seeded_db uuid4 clock d = DbError e.
Proof.
  intros Hdata Hc. unfold Fixtures.seeded_db.
  destruct (seeded_links_stored uuid4 clock (Fixtures.links_data clock)
              (mk_seed_state d 0 ∅) data Hdata Hc) as [e ->].
  by exists e.
Qed.

Lemma seeded_links_fresh uuid4 clock xs :
  NoDup (d_short_code <$> xs) →
  ∀ st,
    (∀ data, data ∈ xs → d_short_code data ∉ short_codes (seed_db st)) →
    for_each (Fixtures.seeded_link uuid4 clock) st xs
    = for_each (seed_link uuid4 clock) st xs.
Proof.
  induction xs as [|x xs IH]; intros Hnd st Hfresh; [done|].
  rewrite fmap_cons in Hnd. apply NoDup_cons in Hnd as [Hx Hnd].
  cbn [for_each].
  rewrite <- (seeded_link_fresh uuid4 clock st x)
    by apply Hfresh, list_elem_of_here.
  destruct (Fixtures.seeded_link uuid4 clock st x) as [st1|e] eqn:E;
    [cbn [mbind result_bind] | done].
  apply (IH Hnd). intros data Hdata.
  rewrite (seeded_link_short_codes _ _ _ _ _ E).
  intros [Hin | Heq%list_elem_of_singleton]%elem_of_app.
  - by apply (Hfresh data); [apply list_elem_of_further|].
  - apply Hx. rewrite <- Heq. by apply list_elem_of_fmap_2.
Qed.

Lemma seeded_click_mapped uuid4 clock st c :
  is_Some (link_map st !! click_code c) →
  Fixtures.seeded_click uuid4 clock st c
  = of_result (seed_click uuid4 clock st c).
Proof.
  destruct c as [[[code h] ip] ua]. unfold click_code. cbn.
  intros [link Hl]. rewrite Hl. done.
Qed.

Lemma seeded_clicks_mapped uuid4 clock xs :
  ∀ st,
    (∀ c, c ∈ xs → is_Some (link_map st !! click_code c)) →
    Fixtures.for_each_fixture (Fixtures.seeded_click uuid4 clock) st xs
    = of_result (for_each (seed_click uuid4 clock) st xs).
Proof.
  induction xs as [|x xs IH]; intros st Hm; [done|].
  cbn [for_each Fixtures.for_each_fixture].
  rewrite seeded_click_mapped by apply Hm, list_elem_of_here.
  destruct (seed_click uuid4 clock st x) as [st1|e] eqn:E;
    [cbn [mbind result_bind of_result] | done].
  apply IH. intros c Hc.
  apply seed_click_Ok in E as [(_ & ->) | (link & _ & _ & ->)]; cbn;
    by apply Hm, list_elem_of_further.
Qed.

Lemma filter_all {A} (P : A → Prop) `{∀ x, Decision (P x)} (l : list A) :
  (∀ x, x ∈ l → P x) → filter P l = l.
Proof.
  induction l as [|x l IH]; intros Hl; [done|].
  rewrite filter_cons, decide_True by apply Hl, list_elem_of_here.
  rewrite IH; [done|]. intros y Hy. by apply Hl, list_elem_of_further.
Qed.

Lemma links_data_short_codes c c' :
  d_short_code <$> Fixtures.links_data c
  = d_short_code <$> Fixtures.links_data c'.
Proof. reflexivity. Qed.

Lemma links_data_short_codes_NoDup c :
  NoDup (d_short_code <$> Fixtures.links_data c).
Proof.
  rewrite (links_data_short_codes c 0).
  refine (bool_decide_unpack _ _). vm_compute. exact I.
Qed.

Lemma links_data_short_codes_fit c :
  Forall (fun data => (String.length (d_short_code data) ≤ 32)%nat)
    (Fixtures.links_data c).
Proof.
  apply (Forall_fmap d_short_code (fun code => (String.length code ≤ 32)%nat)).
  rewrite (links_data_short_codes c 0).
  refine (bool_decide_unpack _ _). vm_compute. exact I.
Qed.

Lemma clicks_short_codes c :
  ∀ x, x ∈ Fixtures.clicks →
    click_code x ∈ d_short_code <$> Fixtures.links_data c.
Proof.
  rewrite (links_data_short_codes c 0). apply Forall_forall.
  refine (bool_decide_unpack _ _). vm_compute. exact I.
Qed.

Lemma clicks_ips_fit :
  Forall (fun c : click_data =>
            ∀ ip, c.1.2 = Some ip → (String.length ip ≤ 45)%nat)
    Fixtures.clicks.
Proof.
  assert (Forall (fun c : click_data =>
            from_option (fun ip => bool_decide (String.length ip ≤ 45)%nat)
              true c.1.2 = true) Fixtures.clicks) as H.
  { refine (bool_decide_unpack _ _). vm_compute. exact I. }
  eapply Forall_impl; [exact H|]. intros c Hc ip Hip. cbv beta in Hc.
  rewrite Hip in Hc. by apply bool_decide_eq_true in Hc.
Qed.

(** X20. On a database that stores none of its short codes, with ids from
    [uuid.uuid4()] that are not in use and do not repeat, the [seeded_db]
    fixture passes on either backend. It appends one link per entry of
    [links_data], in order and with the entry's fields, 12 in all, and one
    click event per entry of [clicks], 27 in all, each referencing a
    stored link that has the entry's short code. *)
Theorem seeded_db_passes (uuid4 : nat → uuid) (clock : datetime) (d : db) :
  uuids_fresh uuid4 0 d →
  (∀ data, data ∈ Fixtures.links_data clock →
     d_short_code data ∉ short_codes d) →
  ∃ d' ls cs,
    Fixtures.seeded_db uuid4 clock d = Passed d' ∧
    links d' = links d ++ ls ∧
    click_events d' = click_events d ++ cs ∧
    Forall2 (fun l data => ∃ k, l = row_of_data data (uuid4 k)) ls
      (Fixtures.links_data clock) ∧
    Forall2 (fun e c => ∃ k l,
               l ∈ links d' ∧ Link.short_code l = click_code c ∧
               e = click_of_data clock c (uuid4 k) (Link.id l))
      cs Fixtures.clicks ∧
    length ls = 12%nat ∧ length cs = 27%nat.
Proof.
  intros Hfresh Hcodes.
  pose proof (links_data_short_codes_NoDup clock) as Hnd.
  destruct (for_each_succeeds (seed_link uuid4 clock) (seed_ready uuid4) _
              (seed_link_succeeds uuid4 clock) (Fixtures.links_data clock)
              (mk_seed_state d 0 ∅))
    as (st1 & E1 & Hst1).
  { split; [done | apply link_map_stored_empty]. }
  { apply links_data_short_codes_fit. }
  destruct (for_each_succeeds (seed_click uuid4 clock) (seed_ready uuid4) _
              (seed_click_succeeds uuid4 clock) Fixtures.clicks st1 Hst1
              clicks_ips_fit)
    as (st2 & E2 & _).
  destruct (seed_links_rows _ _ _ Hnd _ _ E1) as (Hc1 & ls & Hl1 & Hrows).
  rewrite (filter_all _ (Fixtures.links_data clock)) in Hrows by exact Hcodes.
  assert (∀ c, c ∈ Fixtures.clicks → is_Some (link_map st1 !! click_code c))
    as Hm.
  { intros c (data & -> & Hdata)%(clicks_short_codes clock)%list_elem_of_fmap.
    by eapply seed_links_mapped. }
  destruct (seed_clicks_rows _ _ _ _ _ Hm E2) as (Hl2 & _ & cs & Hc2 & Hclicks).
  cbn [seed_db] in *.
  exists (seed_db st2), ls, cs. split_and!.
  - unfold Fixtures.seeded_db.
    rewrite (seeded_links_fresh _ _ _ Hnd) by exact Hcodes. rewrite E1.
    rewrite (seeded_clicks_mapped _ _ _ _ Hm), E2. done.
  - by rewrite Hl2.
  - by rewrite Hc2, Hc1.
  - done.
  - eapply Forall2_impl; [exact Hclicks|].
    intros e c (k & link & Hlink & ->). exists k, link.
    destruct (proj2 Hst1 _ _ Hlink) as [Hin Hcode]. rewrite Hl2. done.
  - by rewrite (Forall2_length _ _ _ Hrows).
  - by rewrite (Forall2_length _ _ _ Hclicks).
Qed.

Lemma add_commit_refresh_event_Ok d now u kw d' e :
  Fixtures.add_commit_refresh_event d now u kw = Ok (d', e) →
  click_row now u kw = Ok e ∧ insert_click d e = Ok d'.
Proof.
  unfold Fixtures.add_commit_refresh_event. intros H.
  apply result_bind_Ok in H as (row & Hrow & H).
  apply result_bind_Ok in H as (d1 & Hins & [= <- <-]). done.
Qed.

Lemma click_fixture_attached d l kw now u :
  consistent d → l ∈ links d →
  ClickEvent.kw_link_id kw = Some (Link.id l) →
  ClickEvent.kw_id kw = Some u →
  from_option (varchar_fits (backend d) 45) true (ClickEvent.kw_ip_address kw)
    = true →
  u ∉ click_ids d →
  ∃ d' e,
    Fixtures.add_commit_refresh_event d now u kw = Ok (d', e) ∧
    click_events d' = click_events d ++ [e] ∧
    links d' = links d ∧
    e = ClickEvent.mk u (Link.id l)
          (default now (ClickEvent.kw_clicked_at kw))
          (ClickEvent.kw_ip_address kw) (ClickEvent.kw_user_agent kw) ∧
    link_of d' e = Some l ∧
    e ∈ click_events_of d' (Link.id l).
Proof.
  intros Hd Hl Hlid Hid Hip Hu.
  unfold Fixtures.add_commit_refresh_event, click_row. rewrite Hlid, Hid. cbn.
  unfold insert_click. cbn. rewrite Hip. cbn.
  rewrite (bool_decide_eq_true_2 _ Hu). cbn.
  rewrite bool_decide_eq_true_2 by by apply list_elem_of_fmap_2. cbn.
  eexists _, _. split; [reflexivity|]. cbn. split_and!; try done.
  - unfold link_of, query_link_by_id. cbn.
    by apply (head_filter_key Link.id); [apply Hd | |].
  - unfold click_events_of. cbn. apply list_elem_of_filter. split; [done|].
    apply elem_of_app. right. apply list_elem_of_here.
Qed.

(** X21. The click fixtures attach to the link of the [sample_link]
    fixture. On a database that keeps the constraints, [sample_link]
    passes when its id and the short code "abc123" are not in use, and the
    link it returns is stored and found by that code. Then, for every
    event id that is not in use, [sample_click_event] and
    [anonymous_click_event] pass: the event they return is the last row of
    [click_events], its link is the sample link, it is in the link's
    [click_events] collection, it is dated two hours, respectively one
    hour, before the clock reading, and the anonymous one has neither
    [ip_address] nor [user_agent]. *)
Theorem click_fixtures_attach_to_sample_link (d : db) (u : uuid)
    (clock : datetime) :
  consistent d → u ∉ link_ids d → "abc123" ∉ short_codes d →
  ∃ d1 l,
    Fixtures.sample_link d u clock = Ok (d1, l) ∧
    Link.id l = u ∧ Link.short_code l = "abc123" ∧ Link.is_active l = true ∧
    query_link_by_short_code d1 "abc123" = Some l ∧
    click_events d1 = click_events d ∧
    ∀ u' clock', u' ∉ click_ids d →
      (∃ d2 e,
         Fixtures.sample_click_event d1 l u' clock' = Ok (d2, e) ∧
         click_events d2 = click_events d1 ++ [e] ∧
         link_of d2 e = Some l ∧ e ∈ click_events_of d2 (Link.id l) ∧
         ClickEvent.clicked_at e = clock' - 7200000000 ∧
         ClickEvent.ip_address e = Some "203.0.113.42") ∧
      (∃ d2 e,
         Fixtures.anonymous_click_event d1 l u' clock' = Ok (d2, e) ∧
         click_events d2 = click_events d1 ++ [e] ∧
         link_of d2 e = Some l ∧ e ∈ click_events_of d2 (Link.id l) ∧
         ClickEvent.clicked_at e = clock' - 3600000000 ∧
         ClickEvent.ip_address e = None ∧ ClickEvent.user_agent e = None).
Proof.
  intros Hd Hu Hcode.
  set (l := Link.mk u "abc123" "https://example.com" true false
              (_utc clock 7 0) (_utc clock 7 0)).
  set (d1 := mk_db (backend d) (links d ++ [l]) (click_events d)).
  assert (insert_link d l = Ok d1) as Hins.
  { unfold insert_link. cbn.
    assert (varchar_fits (backend d) 32 "abc123" = true) as ->
      by by destruct (backend d).
    cbn. rewrite (bool_decide_eq_true_2 _ Hu). cbn.
    by rewrite (bool_decide_eq_true_2 _ Hcode). }
  pose proof (consistent_insert_link _ _ _ Hd Hins) as Hd1.
  assert (l ∈ links d1) as Hl.
  { cbn. apply elem_of_app. right. apply list_elem_of_here. }
  exists d1, l. split_and!; try done.
  - unfold Fixtures.sample_link, Fixtures.add_commit_refresh. cbn.
    fold l. by rewrite Hins.
  - unfold query_link_by_short_code. cbn. apply head_filter_app_new; [|done].
    intros x Hx Heq. apply Hcode. rewrite <- Heq. by apply list_elem_of_fmap_2.
  - intros u' clock' Hu'. split.
    + destruct (click_fixture_attached d1 l
                  (ClickEvent.mk_kwargs (Some u') (Some (Link.id l))
                     (Some (_utc clock' 0 2)) (Some "203.0.113.42")
                     (Some "Mozilla/5.0 (Windows NT 10.0; Win64; x64) AppleWebKit/537.36 (KHTML, like Gecko) Chrome/121.0.0.0 Safari/537.36"))
                  clock' u' Hd1 Hl eq_refl eq_refl)
        as (d2 & e & He & Hc & _ & Heq & Hlink & Hrel);
        [by destruct (backend d) | done |].
      exists d2, e. split_and!; try done; rewrite Heq; [|done].
      cbn. unfold _utc, timedelta. lia.
    + destruct (click_fixture_attached d1 l
                  (ClickEvent.mk_kwargs (Some u') (Some (Link.id l))
                     (Some (_utc clock' 0 1)) None None)
                  clock' u' Hd1 Hl eq_refl eq_refl)
        as (d2 & e & He & Hc & _ & Heq & Hlink & Hrel); [done | done |].
      exists d2, e. split_and!; try done; rewrite Heq; [|done..].
      cbn. unfold _utc, timedelta. lia.
Qed.

(** ** The fixture properties at sample inputs *)

Lemma seeded_db_rejects_stored_codes_witness :
  ∃ d1 l e,
    Fixtures.custom_link Fixtures.test_db 100%N sample_clock = Ok (d1, l) ∧
    Link.short_code l ∈ short_codes d1 ∧
    Fixtures.seeded_db uuid4_counter sample_clock d1 = DbError e.
Proof.
  eexists _, _.
  assert ("gh" ∈ short_codes
            (mk_db SQLite
               [Link.mk 100%N "gh" "https://github.com" true true
                  (_utc sample_clock 30 0) (_utc sample_clock 30 0)] []))
    as Hc by apply list_elem_of_here.
  destruct (seeded_db_rejects_stored_codes uuid4_counter sample_clock _
              (mk_link_data "gh" "https://github.com" true true
                 (_utc sample_clock 30 0) (_utc sample_clock 30 0))
              (list_elem_of_here _ _) Hc) as [e He].
  exists e. split_and!; [reflexivity | exact Hc | exact He].
Defined.

Lemma uuid4_counter_fresh_test_db :
  uuids_fresh uuid4_counter 0 Fixtures.test_db.
Proof.
  split.
  - intros m n H. by apply Nat2N.inj.
  - intros k _. split; apply not_elem_of_nil.
Defined.

Lemma seeded_db_passes_witness :
  uuids_fresh uuid4_counter 0 Fixtures.test_db ∧
  ∃ d',
    Fixtures.seeded_db uuid4_counter sample_clock Fixtures.test_db
    = Passed d' ∧
    length (links d') = 12%nat ∧ length (click_events d') = 27%nat.
Proof.
  split; [exact uuid4_counter_fresh_test_db|].
  destruct (seeded_db_passes uuid4_counter sample_clock Fixtures.test_db
              uuid4_counter_fresh_test_db)
    as (d' & ls & cs & H & Hl & Hc & _ & _ & Hnl & Hnc).
  { intros data _. apply not_elem_of_nil. }
  exists d'. split; [exact H|].
  rewrite Hl, Hc. split; [exact Hnl | exact Hnc].
Defined.

Lemma click_fixtures_attach_to_sample_link_witness :
  ∃ d1 l d2 e,
    Fixtures.sample_link Fixtures.test_db 1%N sample_clock = Ok (d1, l) ∧
    Fixtures.anonymous_click_event d1 l 2%N sample_clock = Ok (d2, e) ∧
    link_of d2 e = Some l ∧
    ClickEvent.ip_address e = None ∧ ClickEvent.user_agent e = None.
Proof.
  destruct (click_fixtures_attach_to_sample_link Fixtures.test_db 1%N
              sample_clock (consistent_empty SQLite))
    as (d1 & l & H1 & _ & _ & _ & _ & _ & Hclicks).
  { apply not_elem_of_nil. }
  { apply not_elem_of_nil. }
  destruct (Hclicks 2%N sample_clock) as [_ (d2 & e & H2 & _ & H3 & _ & _ & H4 & H5)].
  { apply not_elem_of_nil. }
  exists d1, l, d2, e. split_and!; assumption.
Defined.
